(** * StockHighlights: the analytics pipeline of [stock_tracker.py]

    A shallow embedding of the computational core of the page: the
    fetch wrapper [fetch_data], the indicator [calculate_rsi], the batch
    builder [get_stock_data], the ranker [get_top_3_picks] and the
    [st.cache_data] memo layer around them.

    Numbers.  Every number the program handles is an IEEE-754 double
    (numpy [float64]).  The model keeps what the program's control flow
    can observe of a double: the two zeros, the two infinities and NaN,
    with the IEEE rules for them.  Finite values are rationals and finite
    arithmetic is exact: rounding, overflow and underflow are abstracted. *)

From Stdlib Require Import String QArith Qabs Lqa Lia ZArith Bool Arith List.
From Stdlib Require Import Permutation.
Import ListNotations.
Local Open Scope Q_scope.

(** ** Doubles *)

Module Float.

(** [Fin q] with [q == 0] is the positive zero. *)
Inductive fval : Type :=
| Fin (q : Q)
| NegZero
| PInf
| NInf
| NaN.

Inductive fclass : Type :=
| CNaN
| CInf (neg : bool)
| CZero (neg : bool)
| CNum (q : Q).

Definition Qzerob (q : Q) : bool := (Qnum q =? 0)%Z.
Definition Qnegb (q : Q) : bool := (Qnum q <? 0)%Z.
Definition Qltb (a b : Q) : bool := negb (Qle_bool b a).

Definition classify (v : fval) : fclass :=
  match v with
  | Fin q => if Qzerob q then CZero false else CNum q
  | NegZero => CZero true
  | PInf => CInf false
  | NInf => CInf true
  | NaN => CNaN
  end.

Definition mk_zero (neg : bool) : fval := if neg then NegZero else Fin 0.
Definition mk_inf (neg : bool) : fval := if neg then NInf else PInf.

Definition isnan (v : fval) : bool :=
  match v with NaN => true | _ => false end.

(** Unary minus. *)
Definition fneg (v : fval) : fval :=
  match classify v with
  | CNaN => NaN
  | CInf s => mk_inf (negb s)
  | CZero s => mk_zero (negb s)
  | CNum q => Fin (- q)
  end.

(** Addition, round to nearest: an exact zero sum is [+0] unless both
    operands are [-0]. *)
Definition fadd (a b : fval) : fval :=
  match classify a, classify b with
  | CNaN, _ | _, CNaN => NaN
  | CInf s, CInf t => if Bool.eqb s t then mk_inf s else NaN
  | CInf s, _ | _, CInf s => mk_inf s
  | CZero s, CZero t => mk_zero (s && t)
  | CZero _, CNum q | CNum q, CZero _ => Fin q
  | CNum p, CNum q => Fin (p + q)
  end.

Definition fsub (a b : fval) : fval := fadd a (fneg b).

Definition fmul (a b : fval) : fval :=
  match classify a, classify b with
  | CNaN, _ | _, CNaN => NaN
  | CInf _, CZero _ | CZero _, CInf _ => NaN
  | CInf s, CInf t => mk_inf (xorb s t)
  | CInf s, CNum q | CNum q, CInf s => mk_inf (xorb s (Qnegb q))
  | CZero s, CZero t => mk_zero (xorb s t)
  | CZero s, CNum q | CNum q, CZero s => mk_zero (xorb s (Qnegb q))
  | CNum p, CNum q => Fin (p * q)
  end.

(** Division of numpy doubles never raises: a zero divisor gives an
    infinity or NaN. *)
Definition fdiv (a b : fval) : fval :=
  match classify a, classify b with
  | CNaN, _ | _, CNaN => NaN
  | CInf _, CInf _ | CZero _, CZero _ => NaN
  | CInf s, CZero t => mk_inf (xorb s t)
  | CInf s, CNum q => mk_inf (xorb s (Qnegb q))
  | CZero s, CInf t => mk_zero (xorb s t)
  | CNum p, CInf t => mk_zero (xorb (Qnegb p) t)
  | CZero s, CNum q => mk_zero (xorb s (Qnegb q))
  | CNum p, CZero t => mk_inf (xorb (Qnegb p) t)
  | CNum p, CNum q => Fin (p / q)
  end.

Definition fabs (v : fval) : fval :=
  match classify v with
  | CNaN => NaN
  | CInf _ => PInf
  | CZero _ => Fin 0
  | CNum q => Fin (Qabs q)
  end.

(** Comparisons: every comparison with NaN is false, the zeros are equal. *)
Definition flt (a b : fval) : bool :=
  match classify a, classify b with
  | CNaN, _ | _, CNaN => false
  | CInf s, CInf t => s && negb t
  | CInf s, _ => s
  | _, CInf t => negb t
  | CZero _, CZero _ => false
  | CZero _, CNum q => Qltb 0 q
  | CNum p, CZero _ => Qltb p 0
  | CNum p, CNum q => Qltb p q
  end.

Definition feq (a b : fval) : bool :=
  match classify a, classify b with
  | CNaN, _ | _, CNaN => false
  | CInf s, CInf t => Bool.eqb s t
  | CInf _, _ | _, CInf _ => false
  | CZero _, CZero _ => true
  | CZero _, CNum _ | CNum _, CZero _ => false
  | CNum p, CNum q => Qeq_bool p q
  end.

Definition fgt (a b : fval) : bool := flt b a.
Definition fle (a b : fval) : bool := flt a b || feq a b.
Definition fge (a b : fval) : bool := fle b a.
Definition fne (a b : fval) : bool := negb (feq a b).

End Float.
Import Float.

(** ** Exceptions *)

Inductive exn : Type := IndexError | ValueError.

Inductive result (A : Type) : Type :=
| Ok (a : A)
| Raise (e : exn).
Arguments Ok {A} a.
Arguments Raise {A} e.

Definition rbind {A B} (c : result A) (k : A -> result B) : result B :=
  match c with
  | Ok a => k a
  | Raise e => Raise e
  end.

Declare Scope result_scope.
Delimit Scope result_scope with result.
Notation "x <- c ;; k" := (rbind c (fun x => k))
  (at level 61, c at next level, right associativity) : result_scope.

(** ** Price frames

    [yf.Ticker.history] returns a frame of daily bars, oldest first, with
    the columns Open, High, Low, Close and Volume; [data["Close"]] is the
    column of closes. *)

Record Bar : Type := mkBar {
  Open : fval;
  High : fval;
  Low : fval;
  Close : fval;
  Volume : fval
}.

Definition DataFrame : Type := list Bar.

(** [data.empty] *)
Definition empty {A} (s : list A) : bool :=
  match s with [] => true | _ => false end.

(** [s.iloc[-k]] for [k >= 1]: the k-th element from the end, IndexError when
    the series has fewer than [k] elements. *)
Definition iloc_neg {A} (s : list A) (k : nat) : result A :=
  if ((1 <=? k) && (k <=? length s))%nat then
    match nth_error s (length s - k) with
    | Some x => Ok x
    | None => Raise IndexError
    end
  else Raise IndexError.

(** ** pandas series operations used by [calculate_rsi] *)

(** [s.diff()]: the first entry has no predecessor and is NaN. *)
Fixpoint diff_from (prev : fval) (s : list fval) : list fval :=
  match s with
  | [] => []
  | x :: s' => fsub x prev :: diff_from x s'
  end.

Definition diff (s : list fval) : list fval :=
  match s with
  | [] => []
  | x :: s' => NaN :: diff_from x s'
  end.

(** [s.clip(lower=0)] and [s.clip(upper=0)]: NaN entries are kept, entries
    beyond the bound are replaced by the bound. *)
Definition clip_lower0 (x : fval) : fval :=
  if isnan x || fge x (Fin 0) then x else Fin 0.

Definition clip_upper0 (x : fval) : fval :=
  if isnan x || fle x (Fin 0) then x else Fin 0.

(** [s.ewm(span=periods, adjust=False).mean()] with pandas' defaults
    ([ignore_na=False], [min_periods=0]).  The running state is the current
    average [weighted] and the weight [old_wt] of the past; a NaN entry is
    no observation, it ages the past and leaves the average alone. *)
Definition ewm_step (alpha : Q) (st : fval * fval) (cur : fval) : fval * fval :=
  let '(weighted, old_wt) := st in
  if negb (isnan weighted) then
    let old_wt := fmul old_wt (Fin (1 - alpha)) in
    if negb (isnan cur) then
      ((if fne weighted cur
        then fdiv (fadd (fmul old_wt weighted) (fmul (Fin alpha) cur))
                  (fadd old_wt (Fin alpha))
        else weighted),
       Fin 1)
    else (weighted, old_wt)
  else if negb (isnan cur) then (cur, old_wt)
  else (weighted, old_wt).

Fixpoint ewm_from (alpha : Q) (st : fval * fval) (s : list fval) : list fval :=
  match s with
  | [] => []
  | cur :: s' =>
      let st' := ewm_step alpha st cur in
      fst st' :: ewm_from alpha st' s'
  end.

(** The first entry starts the average with weight 1; the smoothing factor
    of a span is [2 / (span + 1)]. *)
Definition ewm_mean (span : Z) (s : list fval) : list fval :=
  let alpha := 2 / (inject_Z span + 1) in
  match s with
  | [] => []
  | x :: s' => x :: ewm_from alpha (x, Fin 1) s'
  end.

(** Element-wise binary operation on two aligned series. *)
Fixpoint map2 {A B C} (f : A -> B -> C) (l1 : list A) (l2 : list B) : list C :=
  match l1, l2 with
  | a :: l1', b :: l2' => f a b :: map2 f l1' l2'
  | _, _ => []
  end.

(** ** calculate_rsi (source lines 95-104)

    [calculate_rsi(data, periods=14)].  A frame always carries its Close
    column here, so of the guard [data.empty or "Close" not in data.columns]
    only the first test can succeed. *)

Definition calculate_rsi_periods (data : DataFrame) (periods : Z) : list fval :=
  if empty data then []
  else
    let delta := diff (map Close data) in
    let gain := map clip_lower0 delta in
    let loss := map (fun d => fneg (clip_upper0 d)) delta in
    let avg_gain := ewm_mean periods gain in
    let avg_loss := ewm_mean periods loss in
    let rs := map2 fdiv avg_gain avg_loss in
    map (fun r => fsub (Fin 100) (fdiv (Fin 100) (fadd (Fin 1) r))) rs.

Definition calculate_rsi (data : DataFrame) : list fval :=
  calculate_rsi_periods data 14.

(** ** The fetch boundary (source lines 82-91)

    [yf.Ticker(ticker).history(period=period)] either returns a frame or
    raises; [fetch_data] turns an empty frame and every exception into
    [None]. *)

Inductive Outcome : Type :=
| Returned (data : DataFrame)
| Failed.

Definition fetch_data_try (o : Outcome) : option DataFrame :=
  match o with
  | Returned data => if negb (empty data) then Some data else None
  | Failed => None
  end.

(** ** Analytics records (source lines 173-182) *)

Inductive AnalystLabel : Type := Buy | Hold | Sell.
Inductive RiskLabel : Type := RiskMedium | RiskHigh.

Record StockRecord : Type := mkRecord {
  Price : fval;
  Change : fval;
  Momentum : fval;
  RSI : fval;
  Analyst : AnalystLabel;
  Risk : RiskLabel;
  Data : DataFrame
}.

Local Open Scope result_scope.

(** [data["Close"].iloc[-1]] *)
Definition current_price (data : DataFrame) : result fval :=
  iloc_neg (map Close data) 1.

(** [((current_price - data["Open"].iloc[-1]) / data["Open"].iloc[-1]) * 100] *)
Definition day_change (data : DataFrame) : result fval :=
  cp <- current_price data ;;
  op <- iloc_neg (map Open data) 1 ;;
  op' <- iloc_neg (map Open data) 1 ;;
  Ok (fmul (fdiv (fsub cp op) op') (Fin 100)).

(** [(data["Close"].iloc[-1] - data["Close"].iloc[-5]) / 5 if len(data) >= 5 else 0] *)
Definition momentum (data : DataFrame) : result fval :=
  if (5 <=? length data)%nat then
    c1 <- iloc_neg (map Close data) 1 ;;
    c5 <- iloc_neg (map Close data) 5 ;;
    Ok (fdiv (fsub c1 c5) (Fin 5))
  else Ok (Fin 0).

(** [calculate_rsi(data).iloc[-1] if not calculate_rsi(data).empty else 0] *)
Definition rsi (data : DataFrame) : result fval :=
  if negb (empty (calculate_rsi data)) then iloc_neg (calculate_rsi data) 1
  else Ok (Fin 0).

(** ["Buy" if rsi < 50 else "Hold" if rsi < 70 else "Sell"] *)
Definition analyst_pick (rsi : fval) : AnalystLabel :=
  if flt rsi (Fin 50) then Buy
  else if flt rsi (Fin 70) then Hold
  else Sell.

(** ["High" if abs(day_change) > 5 else "Medium"] *)
Definition risk (day_change : fval) : RiskLabel :=
  if fgt (fabs day_change) (Fin 5) then RiskHigh else RiskMedium.

(** The body of the loop for one symbol whose frame is [data]. *)
Definition stock_record (data : DataFrame) : result StockRecord :=
  cp <- current_price data ;;
  dc <- day_change data ;;
  mo <- momentum data ;;
  rs <- rsi data ;;
  Ok (mkRecord cp dc mo rs (analyst_pick rs) (risk dc) data).

(** ** Dictionaries

    A Python [dict] keeps its keys in insertion order; assigning to an
    existing key replaces the value in place. *)

Definition dict (K V : Type) : Type := list (K * V).

Section Dict.
Context {K V : Type}.
Variable eqb : K -> K -> bool.

Fixpoint dict_get (d : dict K V) (k : K) : option V :=
  match d with
  | [] => None
  | (k', v) :: d' => if eqb k' k then Some v else dict_get d' k
  end.

Fixpoint dict_set (d : dict K V) (k : K) (v : V) : dict K V :=
  match d with
  | [] => [(k, v)]
  | (k', v') :: d' =>
      if eqb k' k then (k', v) :: d' else (k', v') :: dict_set d' k v
  end.
End Dict.

Definition StockData : Type := dict string StockRecord.

Definition stock_get (d : StockData) (symbol : string) : option StockRecord :=
  dict_get String.eqb d symbol.

(** ** get_stock_data (source lines 168-183)

    The loop is written once, over any monad [M] in which [fetch_data]
    runs: the identity monad for one batch against a fixed provider, the
    session state monad for the cached program. *)

Section Batch.
Variable M : Type -> Type.
Variable mret : forall A, A -> M A.
Variable mbind : forall A B, M A -> (A -> M B) -> M B.
Variable fetch_data : string -> string -> M (option DataFrame).

Fixpoint get_stock_data_loop (stock_list : list string) (period : string)
    (stock_data : StockData) : M (result StockData) :=
  match stock_list with
  | [] => mret _ (Ok stock_data)
  | symbol :: rest =>
    mbind _ _ (fetch_data symbol period) (fun data =>
        match data with
        | Some data =>
            match stock_record data with
            | Ok r =>
                get_stock_data_loop rest period
                  (dict_set String.eqb stock_data symbol r)
            | Raise e => mret _ (Raise e)
            end
        | None => get_stock_data_loop rest period stock_data
        end)
  end.

Definition get_stock_data_body (stock_list : list string) (period : string)
    : M (result StockData) :=
  get_stock_data_loop stock_list period [].
End Batch.

(** One batch against a provider whose answers are fixed for its
    duration. *)
Section Pure.
Variable history : string -> string -> Outcome.

Definition fetch_data (ticker period : string) : option DataFrame :=
  fetch_data_try (history ticker period).

Definition get_stock_data (stock_list : list string) (period : string)
    : result StockData :=
  get_stock_data_body (fun A => A) (fun _ a => a) (fun _ _ a k => k a)
    fetch_data stock_list period.
End Pure.

(** ** get_top_3_picks (source lines 191-198)

    The values of the dictionary are Python objects.  In a dictionary built
    by [get_stock_data] every symbol has a record object of its own, with
    number objects and a frame object of its own; an object is identified
    here by the position of its symbol in the dictionary. *)

Definition Obj : Type := (nat * StockRecord)%type.

(** [list(stock_data_dict.values())] *)
Definition values_list (stock_data_dict : StockData) : list Obj :=
  combine (seq 0 (length stock_data_dict)) (map snd stock_data_dict).

(** The sort key [(x["Change"], x["Momentum"])] and Python's [<] on tuples:
    the first components that are not equal decide. *)
Definition sort_key (x : Obj) : fval * fval :=
  (Change (snd x), Momentum (snd x)).

Definition tuple_lt (a b : fval * fval) : bool :=
  if feq (fst a) (fst b) then flt (snd a) (snd b) else flt (fst a) (fst b).

(** [sorted(..., key=..., reverse=True)]: a stable sort, descending; records
    with equal keys keep the order of the dictionary.  (With a NaN among the
    keys the order Python produces depends on its sorting algorithm; the
    properties below use only that the result is a rearrangement of the
    input.) *)
Fixpoint insert_desc (x : Obj) (l : list Obj) : list Obj :=
  match l with
  | [] => [x]
  | y :: l' =>
      if tuple_lt (sort_key x) (sort_key y) then y :: insert_desc x l'
      else x :: y :: l'
  end.

Definition sorted_desc (l : list Obj) : list Obj :=
  fold_right insert_desc [] l.

Definition label_eqb (a b : AnalystLabel) : bool :=
  match a, b with
  | Buy, Buy | Hold, Hold | Sell, Sell => true
  | _, _ => false
  end.

Definition risk_eqb (a b : RiskLabel) : bool :=
  match a, b with
  | RiskMedium, RiskMedium | RiskHigh, RiskHigh => true
  | _, _ => false
  end.

(** [==] on two distinct frame objects: pandas compares element-wise and
    the truth value of the resulting frame raises ValueError (as does the
    comparison itself when the labels differ). *)
Definition frame_eq (a b : DataFrame) : result bool := Raise ValueError.

(** Equality of two record objects as the [in] operator evaluates it: the
    same object is equal; otherwise the dictionaries are compared entry by
    entry in insertion order and the first unequal entry decides. *)
Definition record_eq (a b : Obj) : result bool :=
  if (fst a =? fst b)%nat then Ok true
  else if negb (feq (Price (snd a)) (Price (snd b))) then Ok false
  else if negb (feq (Change (snd a)) (Change (snd b))) then Ok false
  else if negb (feq (Momentum (snd a)) (Momentum (snd b))) then Ok false
  else if negb (feq (RSI (snd a)) (RSI (snd b))) then Ok false
  else if negb (label_eqb (Analyst (snd a)) (Analyst (snd b))) then Ok false
  else if negb (risk_eqb (Risk (snd a)) (Risk (snd b))) then Ok false
  else frame_eq (Data (snd a)) (Data (snd b)).

(** [stock in top_picks] *)
Fixpoint contains (top_picks : list Obj) (stock : Obj) : result bool :=
  match top_picks with
  | [] => Ok false
  | item :: rest =>
      b <- record_eq item stock ;;
      if b then Ok true else contains rest stock
  end.

(** A list comprehension [[x for x in l if p x]] whose condition may raise. *)
Fixpoint filterM {A} (p : A -> result bool) (l : list A) : result (list A) :=
  match l with
  | [] => Ok []
  | x :: l' =>
      b <- p x ;;
      xs <- filterM p l' ;;
      Ok (if b then x :: xs else xs)
  end.

Definition primary (stock : Obj) : bool :=
  fgt (Change (snd stock)) (Fin 0) && fgt (Momentum (snd stock)) (Fin (5 # 1000)).

Definition backfill (top_picks : list Obj) (stock : Obj) : result bool :=
  if fgt (Change (snd stock)) (Fin 0) then
    b <- contains top_picks stock ;; Ok (negb b)
  else Ok false.

Definition get_top_3_picks_objs (stock_data_dict : StockData) : result (list Obj) :=
  let stock_data_list := values_list stock_data_dict in
  let sorted_data := sorted_desc stock_data_list in
  let top_picks := firstn 3 (filter primary sorted_data) in
  if (length top_picks <? 3)%nat then
    candidates <- filterM (backfill top_picks) sorted_data ;;
    let additional_picks := firstn (3 - length top_picks) candidates in
    Ok (firstn 3 (top_picks ++ additional_picks))
  else Ok (firstn 3 top_picks).

Definition get_top_3_picks (stock_data_dict : StockData) : result (list StockRecord) :=
  picks <- get_top_3_picks_objs stock_data_dict ;;
  Ok (map snd picks).

(** ** The memo layer (source lines 81, 167, 211-213)

    [@st.cache_data] keeps, per decorated function, a table from the
    arguments to the value returned; a call whose arguments are in the table
    returns a copy of the stored value without running the body.
    [st.cache_data.clear()] empties every table.  The session also records
    each invocation of the provider, and the provider's answer may depend on
    how many invocations came before. *)

Record Session : Type := mkSession {
  fetch_cache : dict (string * string) (option DataFrame);
  stock_cache : dict (list string * string) StockData;
  calls : list (string * string)
}.

Definition key2_eqb (a b : string * string) : bool :=
  String.eqb (fst a) (fst b) && String.eqb (snd a) (snd b).

Fixpoint symbols_eqb (a b : list string) : bool :=
  match a, b with
  | [], [] => true
  | x :: a', y :: b' => String.eqb x y && symbols_eqb a' b'
  | _, _ => false
  end.

Definition keyL_eqb (a b : list string * string) : bool :=
  symbols_eqb (fst a) (fst b) && String.eqb (snd a) (snd b).

Definition St (A : Type) : Type := Session -> A * Session.

Definition st_ret {A} (a : A) : St A := fun s => (a, s).

Definition st_bind {A B} (c : St A) (k : A -> St B) : St B :=
  fun s => let '(a, s') := c s in k a s'.

Section Cached.
Variable history : nat -> string -> string -> Outcome.

(** [fetch_data] behind its memo table. *)
Definition fetch_data_cached (ticker period : string) : St (option DataFrame) :=
  fun s =>
    match dict_get key2_eqb (fetch_cache s) (ticker, period) with
    | Some data => (data, s)
    | None =>
        let data := fetch_data_try (history (length (calls s)) ticker period) in
        (data,
         mkSession (dict_set key2_eqb (fetch_cache s) (ticker, period) data)
                   (stock_cache s)
                   (calls s ++ [(ticker, period)]))
    end.

(** [get_stock_data] behind its memo table; a call that raises stores
    nothing. *)
Definition get_stock_data_cached (stock_list : list string) (period : string)
    : St (result StockData) :=
  fun s =>
    match dict_get keyL_eqb (stock_cache s) (stock_list, period) with
    | Some stock_data => (Ok stock_data, s)
    | None =>
        let '(r, s') :=
          get_stock_data_body St (@st_ret) (@st_bind) fetch_data_cached
            stock_list period s in
        match r with
        | Ok stock_data =>
            (r, mkSession (fetch_cache s')
                          (dict_set keyL_eqb (stock_cache s') (stock_list, period)
                             stock_data)
                          (calls s'))
        | Raise _ => (r, s')
        end
    end.
End Cached.

(** [st.cache_data.clear()] *)
Definition cache_clear (s : Session) : Session :=
  mkSession [] [] (calls s).

Definition new_session : Session := mkSession [] [] [].

(** ** Concrete inputs *)

Definition bar (o c : Q) : Bar := mkBar (Fin o) (Fin c) (Fin o) (Fin c) (Fin 0).

(** Six bars closing at 10, 11, 12, 13, 14, 15, each opening at the previous
    close. *)
Definition six_bars : DataFrame :=
  [bar 9 10; bar 10 11; bar 11 12; bar 12 13; bar 13 14; bar 14 15].

Definition three_bars : DataFrame := [bar 9 10; bar 10 9; bar 9 10].

(** A frame of one bar, as a one-day period gives. *)
Definition one_bar : DataFrame := [bar 10 10].

(** Two bars with the same close. *)
Definition flat_bars : DataFrame := [bar 10 10; bar 10 10].

(** A provider for the examples: A has six bars, B three, C comes back
    empty and every other symbol fails. *)
Definition provider_AB (t p : string) : Outcome :=
  if String.eqb t "A" then Returned six_bars
  else if String.eqb t "B" then Returned three_bars
  else if String.eqb t "C" then Returned []
  else Failed.

(** The same, except that the fetch of B fails. *)
Definition provider_A (t p : string) : Outcome :=
  if String.eqb t "A" then Returned six_bars
  else if String.eqb t "C" then Returned []
  else Failed.

(** The dictionary a batch builds, for the examples. *)
Definition batch (history : string -> string -> Outcome)
    (stock_list : list string) : StockData :=
  match get_stock_data history stock_list "1mo" with
  | Ok d => d
  | Raise _ => []
  end.

(** X closes below its open, Y closes at its open. *)
Definition provider_down (t p : string) : Outcome :=
  if String.eqb t "X" then Returned [bar 10 9]
  else if String.eqb t "Y" then Returned one_bar
  else Failed.

(** A and E come back with the same six bars. *)
Definition provider_twins (t p : string) : Outcome :=
  if String.eqb t "E" then Returned six_bars else provider_AB t p.

(** ** Vocabulary of the properties *)

(** A record with a day change above 0. *)
Definition positive (stock : Obj) : bool := fgt (Change (snd stock)) (Fin 0).

(** The number of records of a dictionary whose day change is above 0. *)
Definition count_positive (stock_data_dict : StockData) : nat :=
  length (filter (fun kv => fgt (Change (snd kv)) (Fin 0)) stock_data_dict).

(** The record the batch owes to a symbol: the analytics of its own frame
    when the fetch gave a frame with a bar, nothing otherwise. *)
Definition expected (history : string -> string -> Outcome) (period : string)
    (symbol : string) : option StockRecord :=
  match fetch_data history symbol period with
  | Some data =>
      match stock_record data with Ok r => Some r | Raise _ => None end
  | None => None
  end.

(** Every frame the fetch table holds has at least one bar; this is what
    [fetch_data] stores. *)
Definition cache_ok (s : Session) : Prop :=
  forall k data,
    dict_get key2_eqb (fetch_cache s) k = Some (Some data) -> data <> [].

(** The fetch table holds what the provider [h] answers. *)
Definition cache_agrees (h : string -> string -> Outcome) (s : Session) : Prop :=
  forall t p v,
    dict_get key2_eqb (fetch_cache s) (t, p) = Some v -> v = fetch_data h t p.

(** The smoothing factor of [ewm(span=14)]. *)
Definition alpha14 : Q := 2 / (inject_Z 14 + 1).

(** What [calculate_rsi] computes from an average gain and an average
    loss. *)
Definition rsi_of (g l : fval) : fval :=
  fsub (Fin 100) (fdiv (Fin 100) (fadd (Fin 1) (fdiv g l))).

Definition loss_of (d : fval) : fval := fneg (clip_upper0 d).

(** The close-to-close deltas of a frame: entry [i] is the change from bar
    [i] to bar [i + 1]. *)
Definition deltas (data : DataFrame) : list fval := tl (diff (map Close data)).

Definition finite (v : fval) : Prop := exists q, v = Fin q.
Definition nonneg (v : fval) : Prop := exists q, v = Fin q /\ 0 <= q.
Definition posv (v : fval) : Prop := exists q, v = Fin q /\ 0 < q.
Definition gain_state (w : fval) : Prop := w = NaN \/ nonneg w.
Definition loss_obs (v : fval) : Prop := v = NegZero \/ posv v.
Definition loss_state (w : fval) : Prop := w = NaN \/ loss_obs w.

(** A value of the RSI series is undefined or lies in [0, 100]. *)
Definition in_range (v : fval) : Prop :=
  v = NaN \/ exists q, v = Fin q /\ 0 <= q <= 100.

From Stdlib Require Import Sorted.

(** ** Further vocabulary: states of the smoothed gain *)

(** A finite value equal to zero. *)
Definition zerov (v : fval) : Prop := exists z, v = Fin z /\ z == 0.

(** The average gain before any gain was seen. *)
Definition zero_state (w : fval) : Prop := w = NaN \/ zerov w.

(** ** Further concrete inputs *)

(** Three bars closing at 12, 11, 10. *)
Definition falling_bars : DataFrame := [bar 12 12; bar 12 11; bar 11 10].

(** ** get_market_overview (source lines 155-164) *)

(** [s.iloc[0]] *)
Definition iloc0 {A} (s : list A) : result A :=
  match s with
  | [] => Raise IndexError
  | x :: _ => Ok x
  end.

Definition indices : dict string string :=
  [("^GSPC", "S&P 500 (US)"); ("^DJI", "Dow Jones (US)");
   ("^IXIC", "NASDAQ (US)"); ("^GSPTSE", "TSX Composite (CA)")]%string.

(** The value [{"Price": ..., "Change": ...}] kept for an index. *)
Record IndexInfo : Type := mkInfo {
  InfoPrice : fval;
  InfoChange : fval
}.

(** The body of the loop for one index whose frame is [data]: the latest
    close, and its change against the open of the first bar. *)
Definition index_info (data : DataFrame) : result IndexInfo :=
  current_price <- iloc_neg (map Close data) 1 ;;
  op <- iloc0 (map Open data) ;;
  op' <- iloc0 (map Open data) ;;
  Ok (mkInfo current_price (fmul (fdiv (fsub current_price op) op') (Fin 100))).

Fixpoint get_market_overview_loop (fetch : string -> string -> option DataFrame)
    (items : list (string * string)) (overview_data : dict string IndexInfo)
    : result (dict string IndexInfo) :=
  match items with
  | [] => Ok overview_data
  | (symbol, name) :: rest =>
      match fetch symbol "1d"%string with
      | Some data =>
          info <- index_info data ;;
          get_market_overview_loop fetch rest
            (dict_set String.eqb overview_data name info)
      | None => get_market_overview_loop fetch rest overview_data
      end
  end.

Definition get_market_overview (history : string -> string -> Outcome)
    : result (dict string IndexInfo) :=
  get_market_overview_loop (fetch_data history) indices [].

(** The overview cards of [main_app] (source lines 231-241): card [i] goes
    to [cols[i]] of the four columns, in the colour of the sign of its
    change. *)
Definition list_get {A} (l : list A) (i : nat) : result A :=
  match nth_error l i with
  | Some x => Ok x
  | None => Raise IndexError
  end.

Record Card : Type := mkCard {
  card_column : nat;
  card_name : string;
  card_color : string;
  card_info : IndexInfo
}.

Fixpoint overview_cards (cols : list nat) (i : nat)
    (items : list (string * IndexInfo)) : result (list Card) :=
  match items with
  | [] => Ok []
  | (name, info) :: rest =>
      col <- list_get cols i ;;
      cards <- overview_cards cols (S i) rest ;;
      Ok (mkCard col name
            (if fge (InfoChange info) (Fin 0) then "#32CD32" else "#FF4500")%string
            info :: cards)
  end.

Definition market_overview_section (history : string -> string -> Outcome)
    : result (list Card) :=
  overview <- get_market_overview history ;;
  overview_cards (seq 0 4) 0 overview.

(** ** plot_chart (source lines 128-152)

    The figure is kept by what the page decides about it: the closes it
    traces, the colour of the line, the title and the template of the
    theme. *)

Record Figure : Type := mkFigure {
  trace_y : list fval;
  line_color : string;
  fig_title : string;
  fig_template : string;
  fig_height : Z
}.

Definition plot_chart (theme : string) (ticker : string) (data : option DataFrame)
    (title : string) : result (option Figure) :=
  match data with
  | None => Ok None
  | Some data =>
      if empty data then Ok None
      else
        c_last <- iloc_neg (map Close data) 1 ;;
        c_first <- iloc0 (map Close data) ;;
        let trend_color :=
          (if fge c_last c_first then "#32CD32" else "#FF4500")%string in
        Ok (Some (mkFigure (map Close data) trend_color title
                    (if String.eqb theme "Light" then "plotly_white"
                     else "plotly_dark")%string
                    200))
  end.

(** ** Vocabulary of the ranker *)

(** The test of the primary tier, on a record. *)
Definition is_primary (r : StockRecord) : bool :=
  fgt (Change r) (Fin 0) && fgt (Momentum r) (Fin (5 # 1000)).

Definition count_primary (stock_data_dict : StockData) : nat :=
  length (filter (fun kv => is_primary (snd kv)) stock_data_dict).

(** Two records agree on every entry but the frame. *)
Definition scalars_equal (a b : StockRecord) : bool :=
  feq (Price a) (Price b) && feq (Change a) (Change b) &&
  feq (Momentum a) (Momentum b) && feq (RSI a) (RSI b) &&
  label_eqb (Analyst a) (Analyst b) && risk_eqb (Risk a) (Risk b).

(** [x] is not ranked below [y] by the sort key. *)
Definition key_ge (x y : Obj) : Prop :=
  tuple_lt (sort_key x) (sort_key y) = false.

Definition finite_keys (l : list Obj) : Prop :=
  Forall (fun x => finite (Change (snd x)) /\ finite (Momentum (snd x))) l.

(** ** The symbol of a pick (source line 254)

    [[k for k, v in trending_data.items() if v == pick][0]]: every value of
    the dictionary is compared with the pick. *)

Definition items_list (trending_data : StockData)
    : list (nat * (string * StockRecord)) :=
  combine (seq 0 (length trending_data)) trending_data.

Definition symbol_of (trending_data : StockData) (pick : Obj) : result string :=
  matches <- filterM (fun kv => record_eq (fst kv, snd (snd kv)) pick)
               (items_list trending_data) ;;
  iloc0 (map (fun kv => fst (snd kv)) matches).

(** ** Vocabulary of the session *)

(** The record the session's fetch table gives a symbol: the analytics of
    the frame it holds for it. *)
Definition served (s : Session) (ticker period : string) : option StockRecord :=
  match dict_get key2_eqb (fetch_cache s) (ticker, period) with
  | Some (Some data) =>
      match stock_record data with Ok r => Some r | Raise _ => None end
  | _ => None
  end.

(** The two tables of a session agree: every stored mapping is made of the
    frames the fetch table holds for its symbols. *)
Definition session_ok (s : Session) : Prop :=
  cache_ok s /\
  forall l p d,
    dict_get keyL_eqb (stock_cache s) (l, p) = Some d ->
    (forall t, In t l -> dict_get key2_eqb (fetch_cache s) (t, p) <> None) /\
    (forall t, stock_get d t =
               if existsb (String.eqb t) l then served s t p else None).

(** * Properties *)

(** ** Arithmetic of the model *)

Section FloatFacts.

Lemma Qzerob_spec q : reflect (q == 0) (Qzerob q).
Proof.
  unfold Qzerob, Qeq. simpl.
  destruct (Z.eqb_spec (Qnum q) 0); constructor; lia.
Qed.

Lemma Qnegb_spec q : reflect (q < 0) (Qnegb q).
Proof.
  unfold Qnegb, Qlt. simpl.
  destruct (Qnum q <? 0)%Z eqn:E; constructor.
  - apply Z.ltb_lt in E. lia.
  - apply Z.ltb_ge in E. lia.
Qed.

Lemma Qltb_spec a b : reflect (a < b) (Qltb a b).
Proof.
  unfold Qltb. destruct (Qle_bool b a) eqn:E; simpl; constructor.
  - apply Qle_bool_iff in E. lra.
  - destruct (Qlt_le_dec a b) as [H | H]; [exact H | ].
    apply Qle_bool_iff in H. congruence.
Qed.

Lemma Qeqb_spec a b : reflect (a == b) (Qeq_bool a b).
Proof.
  destruct (Qeq_bool a b) eqn:E; constructor.
  - now apply Qeq_bool_iff.
  - intro H. apply Qeq_bool_iff in H. congruence.
Qed.

End FloatFacts.

Ltac qcases :=
  repeat match goal with
  | |- context [Qzerob ?q] => destruct (Qzerob_spec q)
  | |- context [Qnegb ?q] => destruct (Qnegb_spec q)
  | |- context [Qltb ?a ?b] => destruct (Qltb_spec a b)
  | |- context [Qeq_bool ?a ?b] => destruct (Qeqb_spec a b)
  | H : context [Qzerob ?q] |- _ => destruct (Qzerob_spec q)
  | H : context [Qnegb ?q] |- _ => destruct (Qnegb_spec q)
  | H : context [Qltb ?a ?b] |- _ => destruct (Qltb_spec a b)
  | H : context [Qeq_bool ?a ?b] |- _ => destruct (Qeqb_spec a b)
  end.

Ltac funfold :=
  unfold fgt, fge, fne in *; unfold fle, fsub in *;
  unfold fadd, fneg, fmul, fdiv, fabs, flt, feq, classify, mk_zero, mk_inf in *.

Section FiniteFacts.

Lemma flt_fin a b : flt (Fin a) (Fin b) = true <-> a < b.
Proof.
  funfold. qcases; simpl; split; intro; try lra; try discriminate; auto.
Qed.

Lemma feq_fin a b : feq (Fin a) (Fin b) = true <-> a == b.
Proof.
  funfold. qcases; simpl; split; intro; try lra; try discriminate; auto.
Qed.

Lemma fle_fin a b : fle (Fin a) (Fin b) = true <-> a <= b.
Proof.
  unfold fle. rewrite orb_true_iff, flt_fin, feq_fin. split.
  - intros [H | H]; lra.
  - intro H. destruct (Qlt_le_dec a b); [left | right]; lra.
Qed.

(** A difference of finite values is finite, and a zero difference is the
    positive zero. *)
Lemma fsub_fin a b : exists r, fsub (Fin a) (Fin b) = Fin r /\ r == a - b.
Proof.
  funfold. qcases; simpl; qcases; simpl; eexists; split; try reflexivity; lra.
Qed.

Lemma fadd_fin a b : exists r, fadd (Fin a) (Fin b) = Fin r /\ r == a + b.
Proof.
  funfold. qcases; simpl; eexists; split; try reflexivity; lra.
Qed.

Lemma fmul_fin_pos a b :
  0 < b -> exists r, fmul (Fin a) (Fin b) = Fin r /\ r == a * b.
Proof.
  intro Hb. funfold. qcases; simpl; qcases; simpl;
    try lra; eexists; split; try reflexivity; try nra.
Qed.

Lemma fdiv_fin_pos a b :
  0 < b -> exists r, fdiv (Fin a) (Fin b) = Fin r /\ r == a / b.
Proof.
  intro Hb. funfold. qcases; simpl; qcases; simpl;
    try lra; eexists; split; try reflexivity.
  rewrite q. field. lra.
Qed.

End FiniteFacts.

(** ** Positional access *)

Section Iloc.
Context {A : Type}.

Lemma iloc_neg_spec (s : list A) (k : nat) :
  (1 <= k <= length s)%nat ->
  exists x, nth_error s (length s - k) = Some x /\ iloc_neg s k = Ok x.
Proof.
  intros [H1 H2]. unfold iloc_neg.
  destruct (Nat.leb_spec 1 k); [ | lia].
  destruct (Nat.leb_spec k (length s)); [ | lia]. simpl.
  destruct (nth_error s (length s - k)) as [x | ] eqn:E.
  - now exists x.
  - apply nth_error_None in E. lia.
Qed.

Lemma iloc_neg_last (pre : list A) (x : A) : iloc_neg (pre ++ [x]) 1 = Ok x.
Proof.
  destruct (iloc_neg_spec (pre ++ [x]) 1) as (y & Hn & Hi).
  - rewrite length_app. simpl. lia.
  - rewrite Hi. f_equal.
    rewrite length_app in Hn. simpl in Hn.
    replace (length pre + 1 - 1)%nat with (length pre) in Hn by lia.
    rewrite nth_error_app2 in Hn by lia.
    rewrite Nat.sub_diag in Hn. simpl in Hn. congruence.
Qed.

Lemma iloc_neg_nonempty (s : list A) :
  s <> [] -> exists x, iloc_neg s 1 = Ok x.
Proof.
  intro H. destruct (iloc_neg_spec s 1) as (x & _ & Hx).
  - destruct s; [congruence | simpl; lia].
  - now exists x.
Qed.

Lemma iloc_neg_empty (k : nat) : iloc_neg (@nil A) k = Raise IndexError.
Proof.
  unfold iloc_neg. simpl. destruct k; simpl; auto.
Qed.
End Iloc.

(** ** Classification *)

(** C7: the analyst label is a total step function of a real RSI: below 50
    it is Buy, from 50 (included) and below 70 it is Hold, from 70 (included)
    on it is Sell; exactly 50 gives Hold and exactly 70 gives Sell. *)
Theorem analyst_pick_thresholds :
  (forall q : Q,
     (q < 50 -> analyst_pick (Fin q) = Buy) /\
     (50 <= q -> q < 70 -> analyst_pick (Fin q) = Hold) /\
     (70 <= q -> analyst_pick (Fin q) = Sell)) /\
  analyst_pick (Fin 50) = Hold /\
  analyst_pick (Fin 70) = Sell.
Proof.
  split; [ | split; reflexivity].
  intro q. unfold analyst_pick. split; [ | split].
  - intro H. apply flt_fin in H. now rewrite H.
  - intros H1 H2.
    destruct (flt (Fin q) (Fin 50)) eqn:E; [apply flt_fin in E; lra | ].
    apply flt_fin in H2. now rewrite H2.
  - intro H.
    destruct (flt (Fin q) (Fin 50)) eqn:E; [apply flt_fin in E; lra | ].
    destruct (flt (Fin q) (Fin 70)) eqn:E'; [apply flt_fin in E'; lra | ].
    reflexivity.
Qed.

Lemma analyst_pick_thresholds_witness :
  analyst_pick (Fin 0) = Buy /\ analyst_pick (Fin 60) = Hold /\
  analyst_pick (Fin 100) = Sell.
Proof.
  destruct analyst_pick_thresholds as [H _].
  split; [ | split].
  - destruct (H 0) as (H1 & _ & _). apply H1. lra.
  - destruct (H 60) as (_ & H2 & _). apply H2; lra.
  - destruct (H 100) as (_ & _ & H3). apply H3. lra.
Defined.

(** ** Day change and momentum *)

(** C8: on a series whose latest bar opens at [o > 0] and closes at [c], the
    day change is [(c - o) / o * 100]; it is positive, negative or zero
    exactly when [c - o] is. *)
Theorem day_change_formula :
  forall (pre : DataFrame) (b : Bar) (o c : Q),
    Open b = Fin o -> Close b = Fin c -> 0 < o ->
    exists q,
      day_change (pre ++ [b]) = Ok (Fin q) /\
      q == (c - o) / o * 100 /\
      (0 < q <-> o < c) /\ (q < 0 <-> c < o) /\ (q == 0 <-> c == o).
Proof.
  intros pre b o c Ho Hc Hpos.
  unfold day_change, current_price.
  rewrite !map_app. simpl. rewrite !iloc_neg_last. simpl.
  rewrite Ho, Hc.
  destruct (fsub_fin c o) as (d & -> & Hd).
  destruct (fdiv_fin_pos d o Hpos) as (e & -> & He).
  destruct (fmul_fin_pos e 100) as (q & -> & Hq); [lra | ].
  exists q. split; [reflexivity | ].
  assert (Hi : 0 < / o) by (apply Qinv_lt_0_compat; exact Hpos).
  assert (Hv : q == (c - o) * / o * 100).
  { rewrite Hq, He, Hd. unfold Qdiv. reflexivity. }
  split.
  - rewrite Hv. unfold Qdiv. reflexivity.
  - rewrite Hv. repeat split; intro; nra.
Qed.

Lemma day_change_formula_witness :
  exists q, day_change six_bars = Ok (Fin q) /\ q == (15 - 14) / 14 * 100.
Proof.
  destruct (day_change_formula
              [bar 9 10; bar 10 11; bar 11 12; bar 12 13; bar 13 14]
              (bar 14 15) 14 15) as (q & H1 & H2 & _).
  - reflexivity.
  - reflexivity.
  - reflexivity.
  - exists q. split; [exact H1 | exact H2].
Defined.

(** C1, as the code has it: with at least 5 bars the momentum is the latest
    close minus the close 4 bars earlier (position [len - 5], the fifth bar
    from the end), divided by 5; with fewer than 5 bars it is 0.  On the six
    closes 10..15 it is (15 - 11) / 5 = 0.8. *)
Theorem momentum_window :
  (forall data : DataFrame,
     ((5 <= length data)%nat ->
      exists c1 c5,
        nth_error (map Close data) (length data - 1) = Some c1 /\
        nth_error (map Close data) (length data - 5) = Some c5 /\
        momentum data = Ok (fdiv (fsub c1 c5) (Fin 5)) /\
        forall a b, c1 = Fin a -> c5 = Fin b ->
          exists r, momentum data = Ok (Fin r) /\ r == (a - b) / 5) /\
     ((length data < 5)%nat -> momentum data = Ok (Fin 0))) /\
  momentum six_bars = Ok (Fin (4 # 5)).
Proof.
  split; [ | reflexivity].
  intro data. unfold momentum. split; intro H.
  - destruct (Nat.leb_spec 5 (length data)); [ | lia].
    destruct (iloc_neg_spec (map Close data) 1) as (c1 & Hn1 & Hi1);
      [rewrite length_map; lia | ].
    destruct (iloc_neg_spec (map Close data) 5) as (c5 & Hn5 & Hi5);
      [rewrite length_map; lia | ].
    rewrite length_map in Hn1, Hn5.
    exists c1, c5. rewrite Hi1, Hi5. simpl.
    repeat split; auto.
    intros a b -> ->.
    destruct (fsub_fin a b) as (d & -> & Hd).
    destruct (fdiv_fin_pos d 5) as (r & -> & Hr); [lra | ].
    exists r. split; [reflexivity | ]. rewrite Hr, Hd. reflexivity.
  - destruct (Nat.leb_spec 5 (length data)); [lia | reflexivity].
Qed.

Lemma momentum_window_witness :
  (exists r, momentum six_bars = Ok (Fin r) /\ r == (15 - 11) / 5) /\
  momentum three_bars = Ok (Fin 0).
Proof.
  destruct momentum_window as [H _]. split.
  - destruct (proj1 (H six_bars)) as (c1 & c5 & Hn1 & Hn5 & _ & Hv).
    + simpl. lia.
    + simpl in Hn1, Hn5. apply (Hv 15 11); congruence.
  - apply (proj2 (H three_bars)). simpl. lia.
Defined.

(** C1 as stated fails on its own example: the six closes 10..15 give a
    momentum of 0.8, not (15 - 10) / 5 = 1. *)
Lemma momentum_six_bars_is_not_one :
  momentum six_bars = Ok (Fin (4 # 5)) /\
  feq (Fin (4 # 5)) (Fin ((15 - 10) / 5)) = false.
Proof. split; reflexivity. Qed.

(** C4, the code at a one-bar frame and at a frame of equal closes: the RSI
    series is not empty, so the default 0 is not taken; its latest value is
    NaN, which is stored as the RSI and labelled Sell, where the default 0
    would have given Buy. *)
Theorem undefined_rsi_is_labelled_sell :
  calculate_rsi one_bar = [NaN] /\
  rsi one_bar = Ok NaN /\
  (exists r, stock_record one_bar = Ok r /\ RSI r = NaN /\ Analyst r = Sell) /\
  rsi flat_bars = Ok NaN /\
  (exists r, stock_record flat_bars = Ok r /\ RSI r = NaN /\ Analyst r = Sell) /\
  analyst_pick NaN = Sell /\
  analyst_pick (Fin 0) = Buy.
Proof.
  split; [reflexivity | ]. split; [reflexivity | ].
  split; [eexists; split; [reflexivity | split; reflexivity] | ].
  split; [reflexivity | ].
  split; [eexists; split; [reflexivity | split; reflexivity] | ].
  split; reflexivity.
Qed.

(** ** Shape of the RSI series *)

Lemma diff_from_length prev s : length (diff_from prev s) = length s.
Proof. revert prev. induction s; intros; simpl; auto. Qed.

Lemma diff_length s : length (diff s) = length s.
Proof. destruct s; simpl; auto using diff_from_length. Qed.

Lemma ewm_from_length alpha st s : length (ewm_from alpha st s) = length s.
Proof. revert st. induction s; intros; simpl; auto. Qed.

Lemma ewm_mean_length span s : length (ewm_mean span s) = length s.
Proof. destruct s; simpl; auto using ewm_from_length. Qed.

Lemma map2_length {A B C} (f : A -> B -> C) l1 l2 :
  length (map2 f l1 l2) = Nat.min (length l1) (length l2).
Proof.
  revert l2. induction l1; intros [ | b l2]; simpl; auto.
Qed.

(** The RSI series is aligned to the frame: one value per bar. *)
Lemma calculate_rsi_length data : length (calculate_rsi data) = length data.
Proof.
  unfold calculate_rsi, calculate_rsi_periods.
  destruct data as [ | b data]; [reflexivity | ].
  cbv [empty].
  rewrite length_map, map2_length, !ewm_mean_length, !length_map, diff_length,
    length_map.
  apply Nat.min_id.
Qed.

(** ** The per-symbol body never raises on a frame with a bar *)

Lemma stock_record_total (data : DataFrame) :
  data <> [] -> exists r, stock_record data = Ok r /\ Data r = data.
Proof.
  intro Hne.
  assert (Hlen : (1 <= length data)%nat)
    by (destruct data; [congruence | simpl; lia]).
  unfold stock_record, day_change, current_price.
  destruct (iloc_neg_spec (map Close data) 1) as (cp & _ & ->);
    [rewrite length_map; lia | ].
  destruct (iloc_neg_spec (map Open data) 1) as (op & _ & ->);
    [rewrite length_map; lia | ].
  simpl.
  assert (Hm : exists mo, momentum data = Ok mo).
  { unfold momentum. destruct (Nat.leb_spec 5 (length data)).
    - destruct (iloc_neg_spec (map Close data) 1) as (c1 & _ & ->);
        [rewrite length_map; lia | ].
      destruct (iloc_neg_spec (map Close data) 5) as (c5 & _ & ->);
        [rewrite length_map; lia | ].
      simpl. eauto.
    - eauto. }
  destruct Hm as (mo & ->). simpl.
  assert (Hr : exists rs, rsi data = Ok rs).
  { unfold rsi. destruct (empty (calculate_rsi data)); simpl; [eauto | ].
    destruct (iloc_neg_spec (calculate_rsi data) 1) as (x & _ & ->);
      [rewrite calculate_rsi_length; lia | eauto]. }
  destruct Hr as (rs & ->). simpl.
  eexists. split; reflexivity.
Qed.

(** ** Dictionaries *)

Section DictFacts.
Context {K V : Type}.
Variable eqb : K -> K -> bool.
Hypothesis eqb_spec : forall a b, reflect (a = b) (eqb a b).

Lemma dict_get_set (d : dict K V) k v k' :
  dict_get eqb (dict_set eqb d k v) k' =
  if eqb k k' then Some v else dict_get eqb d k'.
Proof.
  induction d as [ | [k0 v0] d IH]; simpl.
  - reflexivity.
  - destruct (eqb_spec k0 k) as [-> | Hne]; simpl.
    + destruct (eqb_spec k k'); reflexivity.
    + destruct (eqb_spec k0 k') as [-> | Hne']; simpl.
      * destruct (eqb_spec k k'); [congruence | reflexivity].
      * exact IH.
Qed.

Lemma dict_get_set_same (d : dict K V) k v :
  dict_get eqb (dict_set eqb d k v) k = Some v.
Proof.
  rewrite dict_get_set. destruct (eqb_spec k k); congruence.
Qed.
End DictFacts.

Lemma key2_eqb_spec a b : reflect (a = b) (key2_eqb a b).
Proof.
  destruct a as [a1 a2], b as [b1 b2]. unfold key2_eqb. simpl.
  destruct (String.eqb_spec a1 b1), (String.eqb_spec a2 b2); simpl;
    constructor; congruence.
Qed.

Lemma symbols_eqb_spec a b : reflect (a = b) (symbols_eqb a b).
Proof.
  revert b. induction a as [ | x a IH]; intros [ | y b]; simpl;
    try (constructor; congruence).
  destruct (String.eqb_spec x y); simpl; [ | constructor; congruence].
  destruct (IH b); constructor; congruence.
Qed.

Lemma keyL_eqb_spec a b : reflect (a = b) (keyL_eqb a b).
Proof.
  destruct a as [a1 a2], b as [b1 b2]. unfold keyL_eqb. simpl.
  destruct (symbols_eqb_spec a1 b1), (String.eqb_spec a2 b2); simpl;
    constructor; congruence.
Qed.

(** ** One batch against a fixed provider *)

Section PureBatch.
Variable history : string -> string -> Outcome.
Variable period : string.

Lemma fetch_data_some ticker data :
  fetch_data history ticker period = Some data <->
  history ticker period = Returned data /\ data <> [].
Proof.
  unfold fetch_data, fetch_data_try.
  destruct (history ticker period) as [d | ].
  - destruct d as [ | b d]; simpl; split.
    + discriminate.
    + intros [H Hne]. inversion H; subst. congruence.
    + intro H. inversion H; subst. split; [reflexivity | discriminate].
    + intros [H _]. congruence.
  - split; [discriminate | intros [H _]; discriminate].
Qed.

Lemma loop_pure (stock_list : list string) :
  forall stock_data : StockData,
  exists d,
    get_stock_data_loop (fun A => A) (fun _ a => a) (fun _ _ a k => k a)
      (fetch_data history) stock_list period stock_data = Ok d /\
    forall s,
      stock_get d s =
      if existsb (String.eqb s) stock_list then
        match expected history period s with
        | Some r => Some r
        | None => stock_get stock_data s
        end
      else stock_get stock_data s.
Proof.
  induction stock_list as [ | symbol rest IH]; intro stock_data; simpl.
  - exists stock_data. split; [reflexivity | intro s; reflexivity].
  - destruct (fetch_data history symbol period) as [data | ] eqn:Hf.
    + assert (Hne : data <> []) by (apply fetch_data_some in Hf; tauto).
      destruct (stock_record_total data Hne) as (r & Hr & _). rewrite Hr.
      destruct (IH (dict_set String.eqb stock_data symbol r)) as (d & Hd & Hget).
      exists d. split; [exact Hd | ].
      intro s. rewrite Hget. unfold stock_get.
      rewrite (@dict_get_set _ _ String.eqb String.eqb_spec).
      destruct (String.eqb_spec s symbol) as [-> | Hne']; simpl.
      * unfold expected. rewrite Hf, Hr.
        rewrite String.eqb_refl. destruct (existsb _ rest); reflexivity.
      * destruct (String.eqb_spec symbol s); [congruence | reflexivity].
    + destruct (IH stock_data) as (d & Hd & Hget).
      exists d. split; [exact Hd | ].
      intro s. rewrite Hget.
      destruct (String.eqb_spec s symbol) as [-> | Hne']; simpl; [ | reflexivity].
      unfold expected. rewrite Hf. destruct (existsb _ rest); reflexivity.
Qed.

Lemma get_stock_data_spec (stock_list : list string) :
  exists d,
    get_stock_data history stock_list period = Ok d /\
    forall s,
      stock_get d s =
      if existsb (String.eqb s) stock_list then expected history period s else None.
Proof.
  destruct (loop_pure stock_list []) as (d & Hd & Hget).
  exists d. split; [exact Hd | ].
  intro s. rewrite Hget. simpl.
  destruct (existsb _ stock_list); [ | reflexivity].
  destruct (expected history period s); reflexivity.
Qed.
End PureBatch.

Lemma existsb_eqb_In (s : string) (l : list string) :
  existsb (String.eqb s) l = true <-> In s l.
Proof.
  rewrite existsb_exists. split.
  - intros (x & Hin & Heq). apply String.eqb_eq in Heq. now subst.
  - intro H. exists s. split; [exact H | apply String.eqb_refl].
Qed.

(** C5: a batch returns a mapping and never raises; a symbol has an entry
    exactly when it is in the list and its fetch returned a frame with at
    least one bar; its entry is the analytics of its own frame, so it is the
    same under any other provider that answers alike for that symbol,
    whatever happens to the other symbols. *)
Theorem get_stock_data_omits_failed_symbols :
  forall (history : string -> string -> Outcome) (stock_list : list string)
         (period : string),
  exists d,
    get_stock_data history stock_list period = Ok d /\
    (forall s,
       (exists r, stock_get d s = Some r) <->
       (In s stock_list /\
        exists data, history s period = Returned data /\ data <> [])) /\
    (forall s r,
       stock_get d s = Some r ->
       exists data, history s period = Returned data /\ stock_record data = Ok r) /\
    (forall (history' : string -> string -> Outcome) s,
       history' s period = history s period ->
       exists d',
         get_stock_data history' stock_list period = Ok d' /\
         stock_get d' s = stock_get d s).
Proof.
  intros history stock_list period.
  destruct (get_stock_data_spec history period stock_list) as (d & Hd & Hget).
  exists d. split; [exact Hd | ]. split; [ | split].
  - intro s. rewrite Hget. split.
    + intros (r & Hr).
      destruct (existsb (String.eqb s) stock_list) eqn:E; [ | discriminate].
      apply existsb_eqb_In in E. split; [exact E | ].
      unfold expected in Hr.
      destruct (fetch_data history s period) as [data | ] eqn:Hf; [ | discriminate].
      apply fetch_data_some in Hf. exists data. exact Hf.
    + intros (Hin & data & Hh & Hne).
      apply existsb_eqb_In in Hin. rewrite Hin.
      unfold expected.
      assert (Hf : fetch_data history s period = Some data)
        by (apply fetch_data_some; split; assumption).
      rewrite Hf. destruct (stock_record_total data Hne) as (r & -> & _).
      now exists r.
  - intros s r. rewrite Hget.
    destruct (existsb (String.eqb s) stock_list); [ | discriminate].
    unfold expected.
    destruct (fetch_data history s period) as [data | ] eqn:Hf; [ | discriminate].
    apply fetch_data_some in Hf. destruct Hf as [Hh _].
    destruct (stock_record data) as [r' | ] eqn:Hr; [ | discriminate].
    intro H. inversion H; subst. exists data. split; [exact Hh | exact Hr].
  - intros history' s Hsame.
    destruct (get_stock_data_spec history' period stock_list) as (d' & Hd' & Hget').
    exists d'. split; [exact Hd' | ].
    rewrite Hget, Hget'. unfold expected, fetch_data. rewrite Hsame. reflexivity.
Qed.

Lemma get_stock_data_omits_failed_symbols_witness :
  exists d d',
    get_stock_data provider_AB ["A"; "B"; "C"; "D"]%string "1mo" = Ok d /\
    get_stock_data provider_A ["A"; "B"; "C"; "D"]%string "1mo" = Ok d' /\
    stock_get d' "A" = stock_get d "A" /\
    (exists data, provider_AB "A" "1mo" = Returned data /\
                  stock_record data = stock_record six_bars).
Proof.
  destruct (get_stock_data_omits_failed_symbols provider_AB
              ["A"; "B"; "C"; "D"]%string "1mo") as (d & Hd & Hkeys & Hrec & Hind).
  destruct (Hind provider_A "A"%string) as (d' & Hd' & Hsame).
  - reflexivity.
  - exists d, d'. repeat split; try assumption.
    destruct (proj2 (Hkeys "A"%string)) as (r & Hr).
    + split; [simpl; auto | ]. exists six_bars. split; [reflexivity | discriminate].
    + destruct (Hrec _ _ Hr) as (data & Hh & Hs).
      exists data. split; [exact Hh | ].
      vm_compute in Hh. inversion Hh. reflexivity.
Defined.

(** C10: [fetch_data] gives a frame only when the provider returned one with
    at least one bar, and gives None when the provider returned an empty
    frame or raised; on every frame it gives, the accesses to the latest
    close and the latest open are in range and the whole per-symbol body
    returns; so the batch never raises. *)
Theorem fetch_data_never_empty :
  forall (history : string -> string -> Outcome) (ticker period : string),
    (forall data, fetch_data history ticker period = Some data ->
       data <> [] /\ history ticker period = Returned data /\
       (exists c, iloc_neg (map Close data) 1 = Ok c) /\
       (exists o, iloc_neg (map Open data) 1 = Ok o) /\
       (exists r, stock_record data = Ok r)) /\
    (history ticker period = Returned [] -> fetch_data history ticker period = None) /\
    (history ticker period = Failed -> fetch_data history ticker period = None) /\
    (forall stock_list, exists d, get_stock_data history stock_list period = Ok d).
Proof.
  intros history ticker period. split; [ | split; [ | split]].
  - intros data Hf. apply fetch_data_some in Hf. destruct Hf as [Hh Hne].
    split; [exact Hne | ]. split; [exact Hh | ].
    assert (Hc : map Close data <> []) by (destruct data; [congruence | discriminate]).
    assert (Ho : map Open data <> []) by (destruct data; [congruence | discriminate]).
    split; [exact (iloc_neg_nonempty _ Hc) | ].
    split; [exact (iloc_neg_nonempty _ Ho) | ].
    destruct (stock_record_total data Hne) as (r & Hr & _). now exists r.
  - intro H. unfold fetch_data. rewrite H. reflexivity.
  - intro H. unfold fetch_data. rewrite H. reflexivity.
  - intro stock_list.
    destruct (get_stock_data_spec history period stock_list) as (d & Hd & _).
    now exists d.
Qed.

Lemma fetch_data_never_empty_witness :
  six_bars <> [] /\
  fetch_data provider_AB "C" "1mo" = None /\
  fetch_data provider_AB "D" "1mo" = None /\
  exists r, stock_record six_bars = Ok r.
Proof.
  destruct (fetch_data_never_empty provider_AB "A" "1mo") as (H1 & _ & _ & _).
  destruct (fetch_data_never_empty provider_AB "C" "1mo") as (_ & H2 & _ & _).
  destruct (fetch_data_never_empty provider_AB "D" "1mo") as (_ & _ & H3 & _).
  destruct (H1 six_bars) as (Hne & _ & _ & _ & Hr); [reflexivity | ].
  split; [exact Hne | ]. split; [apply H2; reflexivity | ].
  split; [apply H3; reflexivity | exact Hr].
Defined.

(** ** Comparisons on arbitrary doubles *)

Lemma flt_feq_compat (c : Q) (a b : fval) :
  feq a b = true -> flt (Fin c) a = true -> flt (Fin c) b = true.
Proof.
  destruct a, b; funfold; simpl; qcases; simpl; intros; qcases;
    try discriminate; try reflexivity; try lra.
Qed.

Lemma fgt_zero_not_fle (a : fval) :
  fgt a (Fin 0) = true -> fle a (Fin 0) = false.
Proof.
  destruct a; funfold; simpl; qcases; simpl; intros;
    try discriminate; try reflexivity; try lra.
Qed.

Lemma fle_zero_not_fgt (a : fval) :
  fle a (Fin 0) = true -> fgt a (Fin 0) = false.
Proof.
  intro H. destruct (fgt a (Fin 0)) eqn:E; [ | reflexivity].
  apply fgt_zero_not_fle in E. congruence.
Qed.

(** ** The ranker *)

Lemma Ok_inj {A} (a b : A) : Ok a = Ok b -> a = b.
Proof. intro H. now inversion H. Qed.

Lemma In_firstn {A} (n : nat) (l : list A) (x : A) :
  In x (firstn n l) -> In x l.
Proof.
  revert l. induction n as [ | n IH]; intros [ | a l]; simpl; try tauto.
  intros [-> | H]; auto.
Qed.

Lemma insert_desc_perm x l : Permutation (insert_desc x l) (x :: l).
Proof.
  induction l as [ | y l IH]; simpl.
  - apply Permutation_refl.
  - destruct (tuple_lt (sort_key x) (sort_key y)).
    + apply Permutation_trans with (y :: x :: l).
      * apply perm_skip. exact IH.
      * apply perm_swap.
    + apply Permutation_refl.
Qed.

Lemma sorted_desc_perm l : Permutation (sorted_desc l) l.
Proof.
  induction l as [ | x l IH]; simpl.
  - apply Permutation_refl.
  - apply Permutation_trans with (x :: sorted_desc l).
    + apply insert_desc_perm.
    + apply perm_skip. exact IH.
Qed.

Lemma combine_map_fst {A B} (l1 : list A) (l2 : list B) :
  length l1 = length l2 -> map fst (combine l1 l2) = l1.
Proof.
  revert l2. induction l1 as [ | a l1 IH]; intros [ | b l2] H; simpl in *;
    try discriminate; auto.
  f_equal. apply IH. lia.
Qed.

Lemma values_list_ids d : map fst (values_list d) = seq 0 (length d).
Proof.
  unfold values_list. apply combine_map_fst.
  now rewrite length_seq, length_map.
Qed.

Lemma sorted_values_NoDup d : NoDup (map fst (sorted_desc (values_list d))).
Proof.
  apply Permutation_NoDup with (seq 0 (length d)).
  - rewrite <- values_list_ids. apply Permutation_map, Permutation_sym,
      sorted_desc_perm.
  - apply seq_NoDup.
Qed.

Lemma obj_unique (l : list Obj) (x y : Obj) :
  NoDup (map fst l) -> In x l -> In y l -> fst x = fst y -> x = y.
Proof.
  induction l as [ | z l IH]; simpl; intros Hnd Hx Hy Heq; [tauto | ].
  inversion Hnd as [ | ? ? Hnot Hnd']; subst.
  destruct Hx as [-> | Hx], Hy as [-> | Hy]; auto.
  - exfalso. apply Hnot. rewrite Heq. now apply in_map.
  - exfalso. apply Hnot. rewrite <- Heq. now apply in_map.
Qed.

Lemma filter_length_perm {A} (f : A -> bool) l l' :
  Permutation l l' -> length (filter f l) = length (filter f l').
Proof.
  induction 1; simpl; auto.
  - destruct (f x); simpl; auto.
  - destruct (f x), (f y); simpl; auto.
  - congruence.
Qed.

Lemma filter_combine_length {A} (f : StockRecord -> bool) (ids : list A)
    (d : StockData) :
  length ids = length d ->
  length (filter (fun x => f (snd x)) (combine ids (map snd d))) =
  length (filter (fun kv => f (snd kv)) d).
Proof.
  revert ids. induction d as [ | [k v] d IH]; intros [ | i ids] H; simpl in *;
    try discriminate; auto.
  destruct (f v); simpl; rewrite IH by lia; reflexivity.
Qed.

Lemma count_positive_sorted d :
  length (filter positive (sorted_desc (values_list d))) = count_positive d.
Proof.
  rewrite (filter_length_perm positive _ _ (sorted_desc_perm (values_list d))).
  unfold values_list, positive, count_positive.
  apply (filter_combine_length (fun r => fgt (Change r) (Fin 0))).
  apply length_seq.
Qed.

Lemma primary_positive x : primary x = true -> positive x = true.
Proof. unfold primary, positive. intro H. now apply andb_true_iff in H. Qed.

Lemma filter_split_length (l : list Obj) :
  (length (filter primary l) +
   length (filter (fun x => positive x && negb (primary x)) l))%nat =
  length (filter positive l).
Proof.
  induction l as [ | x l IH]; simpl; auto.
  destruct (primary x) eqn:Ep.
  - rewrite (primary_positive _ Ep). simpl. lia.
  - destruct (positive x); simpl; lia.
Qed.

Lemma filterM_In {A} (p : A -> result bool) l xs :
  filterM p l = Ok xs -> forall x, In x xs -> In x l /\ p x = Ok true.
Proof.
  revert xs. induction l as [ | a l IH]; simpl; intros xs H x Hin.
  - inversion H; subst. destruct Hin.
  - destruct (p a) as [b | ] eqn:Ea; simpl in H; [ | discriminate].
    destruct (filterM p l) as [ys | ] eqn:El; simpl in H; [ | discriminate].
    inversion H; subst. destruct b.
    + destruct Hin as [-> | Hin]; [auto | ].
      destruct (IH ys eq_refl x Hin). auto.
    + destruct (IH ys eq_refl x Hin). auto.
Qed.

Lemma filterM_filter {A} (p : A -> result bool) (q : A -> bool) l xs :
  filterM p l = Ok xs ->
  (forall x b, In x l -> p x = Ok b -> b = q x) ->
  xs = filter q l.
Proof.
  revert xs. induction l as [ | a l IH]; simpl; intros xs H Hq.
  - now inversion H.
  - destruct (p a) as [b | ] eqn:Ea; simpl in H; [ | discriminate].
    destruct (filterM p l) as [ys | ] eqn:El; simpl in H; [ | discriminate].
    inversion H; subst.
    rewrite <- (Hq a b (or_introl eq_refl) Ea).
    rewrite (IH ys eq_refl); [reflexivity | ].
    intros x b' Hin. apply Hq. now right.
Qed.

Lemma filterM_all_false {A} (p : A -> result bool) l :
  (forall x, In x l -> p x = Ok false) -> filterM p l = Ok [].
Proof.
  induction l as [ | a l IH]; simpl; intro H; [reflexivity | ].
  rewrite (H a (or_introl eq_refl)). simpl.
  rewrite IH; [reflexivity | ]. intros x Hin. apply H. now right.
Qed.

(** A record with positive day change outside the primary tier differs
    from every record of the primary tier at the momentum entry at the
    latest, so the comparison never reaches the frames. *)
Lemma record_eq_nonprimary (item x : Obj) :
  fst item <> fst x -> primary item = true ->
  positive x = true -> primary x = false ->
  record_eq item x = Ok false.
Proof.
  intros Hid Hitem Hpos Hx. unfold record_eq.
  destruct (Nat.eqb_spec (fst item) (fst x)); [contradiction | ].
  destruct (feq (Price (snd item)) (Price (snd x))); simpl; [ | reflexivity].
  destruct (feq (Change (snd item)) (Change (snd x))); simpl; [ | reflexivity].
  destruct (feq (Momentum (snd item)) (Momentum (snd x))) eqn:Em; simpl;
    [ | reflexivity].
  exfalso. unfold primary in Hitem, Hx. unfold positive in Hpos.
  apply andb_true_iff in Hitem. destruct Hitem as [_ Hm].
  rewrite Hpos in Hx. simpl in Hx.
  unfold fgt in Hm, Hx. rewrite (flt_feq_compat _ _ _ Em Hm) in Hx. discriminate.
Qed.

Lemma contains_self (top_picks : list Obj) (x : Obj) :
  In x top_picks -> forall b, contains top_picks x = Ok b -> b = true.
Proof.
  induction top_picks as [ | item rest IH]; simpl; intros Hin b H; [tauto | ].
  destruct (record_eq item x) as [b1 | ] eqn:E1; simpl in H; [ | discriminate].
  destruct b1; [now inversion H | ].
  destruct Hin as [-> | Hin].
  - unfold record_eq in E1. rewrite Nat.eqb_refl in E1. discriminate.
  - now apply IH.
Qed.

Lemma contains_nonprimary (top_picks : list Obj) (x : Obj) :
  (forall item, In item top_picks -> primary item = true /\ fst item <> fst x) ->
  positive x = true -> primary x = false ->
  contains top_picks x = Ok false.
Proof.
  intros Htop Hpos Hx.
  induction top_picks as [ | item rest IH]; simpl; [reflexivity | ].
  destruct (Htop item (or_introl eq_refl)) as [Hp Hid].
  rewrite (record_eq_nonprimary _ _ Hid Hp Hpos Hx). simpl.
  apply IH. intros i Hi. apply Htop. now right.
Qed.

Lemma backfill_value (sorted_data : list Obj) (x : Obj) :
  NoDup (map fst sorted_data) -> In x sorted_data ->
  forall b, backfill (filter primary sorted_data) x = Ok b ->
            b = positive x && negb (primary x).
Proof.
  intros Hnd Hin b. unfold backfill. fold (positive x).
  destruct (positive x) eqn:Hpos; simpl; [ | intro H; now inversion H].
  destruct (primary x) eqn:Hx; simpl.
  - destruct (contains (filter primary sorted_data) x) as [b' | ] eqn:Ec;
      simpl; [ | discriminate].
    intro H. inversion H; subst.
    rewrite (contains_self (filter primary sorted_data) x) with (b := b'); auto.
    apply filter_In. auto.
  - rewrite contains_nonprimary; auto.
    + simpl. intro H. now inversion H.
    + intros item Hitem. apply filter_In in Hitem. destruct Hitem as [Hi Hp].
      split; [exact Hp | ]. intro Heq.
      assert (item = x) by (eapply obj_unique; eauto). subst. congruence.
Qed.

(** Whenever the ranker returns, it returns as many records as there are
    records with positive day change, up to three. *)
Lemma get_top_3_picks_objs_length (d : StockData) (picks : list Obj) :
  get_top_3_picks_objs d = Ok picks ->
  length picks = Nat.min 3 (count_positive d).
Proof.
  unfold get_top_3_picks_objs.
  set (sorted_data := sorted_desc (values_list d)).
  assert (Hcount := count_positive_sorted d). fold sorted_data in Hcount.
  assert (Hsplit := filter_split_length sorted_data).
  assert (Hnd : NoDup (map fst sorted_data)) by apply sorted_values_NoDup.
  set (P := filter primary sorted_data) in *.
  assert (Hlen : length (firstn 3 P) = Nat.min 3 (length P)) by apply length_firstn.
  destruct (Nat.ltb_spec (length (firstn 3 P)) 3) as [Hlt | Hge].
  - assert (HP : firstn 3 P = P) by (apply firstn_all2; lia).
    rewrite HP.
    destruct (filterM (backfill P) sorted_data) as [cand | ] eqn:Ef;
      cbn [rbind]; [ | discriminate].
    intro H; apply Ok_inj in H; subst picks.
    assert (Hc : cand = filter (fun x => positive x && negb (primary x)) sorted_data).
    { apply (filterM_filter _ _ _ _ Ef). intros x b Hin Hb.
      eapply backfill_value; eauto. }
    rewrite length_firstn, length_app, length_firstn.
    rewrite <- Hc in Hsplit. lia.
  - intro H; apply Ok_inj in H; subst picks.
    rewrite length_firstn. lia.
Qed.

Lemma get_top_3_picks_length (d : StockData) (picks : list StockRecord) :
  get_top_3_picks d = Ok picks ->
  length picks = Nat.min 3 (count_positive d).
Proof.
  unfold get_top_3_picks.
  destruct (get_top_3_picks_objs d) as [objs | ] eqn:E; cbn [rbind]; [ | discriminate].
  intro H; apply Ok_inj in H; subst picks. rewrite length_map.
  now apply get_top_3_picks_objs_length.
Qed.

(** Every record the ranker returns has a positive day change. *)
Lemma get_top_3_picks_objs_positive (d : StockData) (picks : list Obj) :
  get_top_3_picks_objs d = Ok picks ->
  forall x, In x picks -> positive x = true.
Proof.
  unfold get_top_3_picks_objs.
  set (sorted_data := sorted_desc (values_list d)).
  set (top_picks := firstn 3 (filter primary sorted_data)).
  assert (Htop : forall x, In x top_picks -> positive x = true).
  { intros x Hin. apply In_firstn in Hin. apply filter_In in Hin.
    apply primary_positive. tauto. }
  destruct (length top_picks <? 3)%nat.
  - destruct (filterM (backfill top_picks) sorted_data) as [cand | ] eqn:Ef;
      cbn [rbind]; [ | discriminate].
    intro H; apply Ok_inj in H; subst picks.
    intros x Hin. apply In_firstn in Hin. apply in_app_or in Hin.
    destruct Hin as [Hin | Hin]; [now apply Htop | ].
    apply In_firstn in Hin.
    destruct (filterM_In _ _ _ Ef x Hin) as [_ Hb].
    unfold backfill in Hb. fold (positive x) in Hb.
    destruct (positive x); [reflexivity | discriminate].
  - intro H; apply Ok_inj in H; subst picks. intros x Hin.
    apply In_firstn in Hin. now apply Htop.
Qed.

Lemma In_values_list (d : StockData) (x : Obj) :
  In x (values_list d) -> exists s, In (s, snd x) d.
Proof.
  intro Hin. unfold values_list in Hin.
  destruct x as [i r]. apply in_combine_r in Hin.
  apply in_map_iff in Hin. destruct Hin as ([s r'] & Heq & Hin).
  simpl in Heq. subst. now exists s.
Qed.

Lemma filter_none {A} (f : A -> bool) (l : list A) :
  (forall x, In x l -> f x = false) -> filter f l = [].
Proof.
  induction l as [ | a l IH]; simpl; intro H; [reflexivity | ].
  rewrite (H a (or_introl eq_refl)). apply IH. intros x Hx. apply H. now right.
Qed.

Lemma get_top_3_picks_none_positive (d : StockData) :
  (forall s r, In (s, r) d -> fgt (Change r) (Fin 0) = false) ->
  get_top_3_picks d = Ok [].
Proof.
  intro Hall. unfold get_top_3_picks, get_top_3_picks_objs.
  set (sorted_data := sorted_desc (values_list d)).
  assert (Hneg : forall x, In x sorted_data -> positive x = false).
  { intros x Hin.
    apply (Permutation_in _ (sorted_desc_perm (values_list d))) in Hin.
    destruct (In_values_list d x Hin) as (s & Hs). exact (Hall _ _ Hs). }
  assert (HP : filter primary sorted_data = []).
  { apply filter_none. intros x Hin. unfold primary. fold (positive x).
    now rewrite (Hneg x Hin). }
  rewrite HP. cbn [firstn length Nat.ltb Nat.leb].
  rewrite filterM_all_false; [reflexivity | ].
  intros x Hin. unfold backfill. fold (positive x). now rewrite (Hneg x Hin).
Qed.

(** C2: no record of the ranker's result has a day change at or below 0, and
    when every record of the input has a day change at or below 0 the result
    is the empty list. *)
Theorem top_3_picks_only_positive :
  forall d : StockData,
    (forall picks, get_top_3_picks d = Ok picks ->
       forall r, In r picks ->
         fgt (Change r) (Fin 0) = true /\ fle (Change r) (Fin 0) = false) /\
    ((forall s r, In (s, r) d -> fle (Change r) (Fin 0) = true) ->
     get_top_3_picks d = Ok []).
Proof.
  intro d. split.
  - intros picks H r Hin. unfold get_top_3_picks in H.
    destruct (get_top_3_picks_objs d) as [objs | ] eqn:E; cbn [rbind] in H;
      [ | discriminate].
    apply Ok_inj in H. subst picks.
    apply in_map_iff in Hin. destruct Hin as (x & <- & Hx).
    assert (Hpos := get_top_3_picks_objs_positive d objs E x Hx).
    unfold positive in Hpos. split; [exact Hpos | ].
    now apply fgt_zero_not_fle.
  - intro Hall. apply get_top_3_picks_none_positive.
    intros s r Hin. apply fle_zero_not_fgt. exact (Hall s r Hin).
Qed.

Lemma top_3_picks_only_positive_witness :
  (exists picks r,
     get_top_3_picks (batch provider_AB ["A"; "B"]%string) = Ok picks /\
     In r picks /\ fgt (Change r) (Fin 0) = true) /\
  get_top_3_picks (batch provider_down ["X"; "Y"]%string) = Ok [].
Proof.
  split.
  - destruct (get_top_3_picks (batch provider_AB ["A"; "B"]%string))
      as [picks | ] eqn:E; [ | vm_compute in E; discriminate].
    destruct picks as [ | r picks]; [vm_compute in E; discriminate | ].
    exists (r :: picks), r. split; [reflexivity | ]. split; [now left | ].
    destruct (top_3_picks_only_positive (batch provider_AB ["A"; "B"]%string))
      as [H _].
    exact (proj1 (H (r :: picks) E r (or_introl eq_refl))).
  - destruct (top_3_picks_only_positive (batch provider_down ["X"; "Y"]%string))
      as [_ H].
    apply H. vm_compute. intros s r [Heq | [Heq | []]];
      inversion Heq; subst; reflexivity.
Defined.

Lemma values_list_values (d d' : StockData) :
  map snd d = map snd d' -> values_list d = values_list d'.
Proof.
  intro H. unfold values_list. rewrite H.
  rewrite <- (length_map snd d), <- (length_map snd d'), H. reflexivity.
Qed.

(** C9, as the code has it: the ranker looks at the records only, never at
    the symbols, and backfill tests membership by equality of records; a
    record with positive day change outside the primary tier is never
    equal to a selected record, so backfill takes it; whenever the ranker
    returns, it returns exactly min(3, number of records with day change
    above 0) records. *)
Theorem backfill_by_value_fills_three :
  (forall d d' : StockData,
     map snd d = map snd d' -> get_top_3_picks d = get_top_3_picks d') /\
  (forall item x : Obj,
     fst item <> fst x -> primary item = true ->
     positive x = true -> primary x = false ->
     record_eq item x = Ok false) /\
  (forall d picks,
     get_top_3_picks d = Ok picks ->
     length picks = Nat.min 3 (count_positive d)).
Proof.
  split; [ | split].
  - intros d d' H. unfold get_top_3_picks, get_top_3_picks_objs.
    now rewrite (values_list_values d d' H).
  - exact record_eq_nonprimary.
  - exact get_top_3_picks_length.
Qed.

Lemma backfill_by_value_fills_three_witness :
  get_top_3_picks (batch provider_AB ["A"; "B"]%string) =
  get_top_3_picks (batch (fun t p => provider_AB (if String.eqb t "Z" then "A" else t) p)
                     ["Z"; "B"]%string) /\
  (exists item x,
     In item (values_list (batch provider_AB ["A"; "B"]%string)) /\
     In x (values_list (batch provider_AB ["A"; "B"]%string)) /\
     record_eq item x = Ok false) /\
  (exists picks,
     get_top_3_picks (batch provider_AB ["A"; "B"]%string) = Ok picks /\
     length picks = 2%nat).
Proof.
  destruct backfill_by_value_fills_three as (H1 & H2 & H3).
  split; [ | split].
  - apply H1. reflexivity.
  - destruct (values_list (batch provider_AB ["A"; "B"]%string))
      as [ | item [ | x rest]] eqn:E; try (vm_compute in E; discriminate).
    exists item, x. split; [now left | ]. split; [right; now left | ].
    vm_compute in E. inversion E; subst.
    apply H2; [discriminate | reflexivity | reflexivity | reflexivity].
  - destruct (get_top_3_picks (batch provider_AB ["A"; "B"]%string))
      as [picks | ] eqn:E; [ | vm_compute in E; discriminate].
    exists picks. split; [reflexivity | ].
    rewrite (H3 _ picks E). reflexivity.
Defined.

(** C9 as stated fails: no input with three or more records of positive day
    change makes the ranker return fewer than three records. *)
Lemma value_equality_never_shortens_the_picks :
  ~ (exists (d : StockData) (picks : list StockRecord),
       get_top_3_picks d = Ok picks /\
       (3 <= count_positive d)%nat /\ (length picks < 3)%nat).
Proof.
  intros (d & picks & H & Hcount & Hlen).
  rewrite (get_top_3_picks_length d picks H) in Hlen. lia.
Qed.

(** Two symbols whose records agree on every number and label: both are in
    the primary tier, and the membership test of backfill, run on the second
    against the first, goes on to compare their frames and raises. *)
Example twin_records_raise :
  get_top_3_picks (batch provider_twins ["A"; "B"; "E"]%string) = Raise ValueError.
Proof. reflexivity. Qed.

(** ** The cached program *)

Lemma fetch_data_try_nonempty o data : fetch_data_try o = Some data -> data <> [].
Proof.
  destruct o as [d | ]; simpl; [ | discriminate].
  destruct d; simpl; [discriminate | ]. intro H. inversion H. discriminate.
Qed.

Section CachedFacts.
Variable history : nat -> string -> string -> Outcome.
Variable period : string.

Let loop := get_stock_data_loop St (@st_ret) (@st_bind) (fetch_data_cached history).

(** After the fetch of one symbol the loop goes on with the rest of the list
    from some dictionary. *)
Lemma loop_continue (v : option DataFrame) symbol rest stock_data (s : Session) :
  (forall data, v = Some data -> data <> []) ->
  exists stock_data',
    match v with
    | Some data =>
        match stock_record data with
        | Ok r => loop rest period (dict_set String.eqb stock_data symbol r)
        | Raise e => st_ret (Raise e)
        end
    | None => loop rest period stock_data
    end s = loop rest period stock_data' s.
Proof.
  intro Hv. destruct v as [data | ].
  - destruct (stock_record_total data (Hv data eq_refl)) as (r & -> & _).
    eexists. reflexivity.
  - eexists. reflexivity.
Qed.

Lemma loop_cached (stock_list : list string) :
  forall (s : Session) (stock_data : StockData),
    cache_ok s ->
    exists d s' new,
      loop stock_list period stock_data s = (Ok d, s') /\
      cache_ok s' /\
      stock_cache s' = stock_cache s /\
      calls s' = calls s ++ new /\
      NoDup new /\
      (forall c, In c new <->
         (exists t, In t stock_list /\ c = (t, period)) /\
         dict_get key2_eqb (fetch_cache s) c = None).
Proof.
  induction stock_list as [ | symbol rest IH]; intros s stock_data Hok.
  - exists stock_data, s, []. simpl. unfold st_ret.
    split; [reflexivity | ]. split; [exact Hok | ]. split; [reflexivity | ].
    split; [now rewrite app_nil_r | ]. split; [apply NoDup_nil | ].
    intro c. split; [intros [] | intros [(t & [] & _) _]].
  - cbn [loop get_stock_data_loop]. unfold st_bind at 1.
    unfold fetch_data_cached at 1.
    destruct (dict_get key2_eqb (fetch_cache s) (symbol, period)) as [v | ] eqn:Eg.
    + destruct (loop_continue v symbol rest stock_data s) as (sd' & ->).
      { intros data ->. exact (Hok _ _ Eg). }
      destruct (IH s sd' Hok) as (d & s' & new & Hrun & Hok' & Hsc & Hcalls & Hnd & Hnew).
      exists d, s', new. repeat split; auto.
      * apply Hnew in H. destruct H as ((t & Hin & ->) & _).
        exists t. split; [now right | reflexivity].
      * now apply Hnew.
      * intros ((t & [<- | Hin] & ->) & Hnone); [congruence | ].
        apply Hnew. split; [now exists t | exact Hnone].
    + set (data := fetch_data_try (history (length (calls s)) symbol period)).
      set (s1 := mkSession
                   (dict_set key2_eqb (fetch_cache s) (symbol, period) data)
                   (stock_cache s) (calls s ++ [(symbol, period)])).
      assert (Hok1 : cache_ok s1).
      { intros k d0. unfold s1. cbn [fetch_cache].
        rewrite (dict_get_set key2_eqb key2_eqb_spec).
        destruct (key2_eqb (symbol, period) k).
        - intro H. inversion H as [H0]. exact (fetch_data_try_nonempty _ _ H0).
        - apply Hok. }
      destruct (loop_continue data symbol rest stock_data s1) as (sd' & ->).
      { intros d0 H. exact (fetch_data_try_nonempty _ _ H). }
      destruct (IH s1 sd' Hok1) as (d & s' & new & Hrun & Hok' & Hsc & Hcalls & Hnd & Hnew).
      assert (Hget1 : forall c,
                 dict_get key2_eqb (fetch_cache s1) c = None <->
                 c <> (symbol, period) /\ dict_get key2_eqb (fetch_cache s) c = None).
      { intro c. unfold s1. cbn [fetch_cache].
        rewrite (dict_get_set key2_eqb key2_eqb_spec).
        destruct (key2_eqb_spec (symbol, period) c) as [<- | Hne].
        - split; [discriminate | intros [H _]; congruence].
        - split; [intro H; split; [congruence | exact H] | tauto]. }
      exists d, s', ((symbol, period) :: new). repeat split; auto.
      * rewrite Hcalls. unfold s1. cbn [calls]. now rewrite <- app_assoc.
      * constructor; [ | exact Hnd].
        intro Hin. apply Hnew in Hin. destruct Hin as [_ Hnone].
        apply Hget1 in Hnone. destruct Hnone as [Hne _]. congruence.
      * destruct H as [<- | Hin].
        -- exists symbol. split; [now left | reflexivity].
        -- apply Hnew in Hin. destruct Hin as ((t & Hin & ->) & _).
           exists t. split; [now right | reflexivity].
      * destruct H as [<- | Hin]; [exact Eg | ].
        apply Hnew in Hin. destruct Hin as [_ Hnone].
        now apply Hget1 in Hnone.
      * intros ((t & [<- | Hin] & ->) & Hnone); [now left | ].
        destruct (key2_eqb_spec (symbol, period) (t, period)) as [Heq | Hne];
          [now left | right].
        apply Hnew. split; [now exists t | ].
        apply Hget1. split; [congruence | exact Hnone].
Qed.

Lemma get_stock_data_cached_run (stock_list : list string) (s : Session) :
  cache_ok s ->
  exists d s',
    get_stock_data_cached history stock_list period s = (Ok d, s') /\
    cache_ok s' /\
    dict_get keyL_eqb (stock_cache s') (stock_list, period) = Some d /\
    exists new,
      calls s' = calls s ++ new /\ NoDup new /\
      (forall c, In c new ->
         (exists t, In t stock_list /\ c = (t, period)) /\
         dict_get key2_eqb (fetch_cache s) c = None) /\
      (dict_get keyL_eqb (stock_cache s) (stock_list, period) = None ->
       forall c,
         (exists t, In t stock_list /\ c = (t, period)) ->
         dict_get key2_eqb (fetch_cache s) c = None -> In c new).
Proof.
  intro Hok. unfold get_stock_data_cached.
  destruct (dict_get keyL_eqb (stock_cache s) (stock_list, period)) as [d | ] eqn:Eg.
  - exists d, s. repeat split; auto.
    exists []. repeat split; auto using NoDup_nil.
    + now rewrite app_nil_r.
    + destruct H.
    + destruct H.
    + discriminate.
  - unfold get_stock_data_body.
    destruct (loop_cached stock_list s [] Hok)
      as (d & s' & new & Hrun & Hok' & Hsc & Hcalls & Hnd & Hnew).
    unfold loop in Hrun. rewrite Hrun.
    exists d. eexists. split; [reflexivity | ].
    split; [exact Hok' | ].
    split; [cbn [stock_cache]; apply (dict_get_set_same keyL_eqb keyL_eqb_spec) | ].
    exists new. cbn [calls]. repeat split; auto.
    + now apply Hnew.
    + now apply Hnew.
    + intros _ c Hc Hnone. apply Hnew. now split.
Qed.
End CachedFacts.

(** C6: from a session whose fetch table holds only frames with a bar, a
    call returns a mapping; the same call made again returns the same
    mapping and leaves the session as it was, so the provider is not invoked
    (and its answers do not matter); after the tables are cleared the same
    call invokes the provider again, once for each symbol of the list. *)
Theorem cached_call_is_replayed :
  forall (history : nat -> string -> string -> Outcome) (s0 : Session)
         (stock_list : list string) (period : string),
    cache_ok s0 ->
    exists d s1,
      get_stock_data_cached history stock_list period s0 = (Ok d, s1) /\
      (forall history',
         get_stock_data_cached history' stock_list period s1 = (Ok d, s1)) /\
      exists d' s2 new,
        get_stock_data_cached history stock_list period (cache_clear s1)
          = (Ok d', s2) /\
        calls s2 = calls s1 ++ new /\
        NoDup new /\
        (forall c, In c new <-> exists t, In t stock_list /\ c = (t, period)).
Proof.
  intros history s0 stock_list period Hok.
  destruct (get_stock_data_cached_run history period stock_list s0 Hok)
    as (d & s1 & Hrun & Hok1 & Hhit & _).
  exists d, s1. split; [exact Hrun | ]. split.
  - intro history'. unfold get_stock_data_cached. now rewrite Hhit.
  - assert (Hokc : cache_ok (cache_clear s1)) by (intros k data; discriminate).
    destruct (get_stock_data_cached_run history period stock_list
                (cache_clear s1) Hokc)
      as (d' & s2 & Hrun2 & _ & _ & new & Hcalls & Hnd & Hnew1 & Hnew2).
    exists d', s2, new. split; [exact Hrun2 | ].
    split; [exact Hcalls | ]. split; [exact Hnd | ].
    intro c. split.
    + intro Hin. now apply Hnew1.
    + intro Hc. apply Hnew2; auto.
Qed.

Lemma cached_call_is_replayed_witness :
  exists d s1,
    get_stock_data_cached (fun _ => provider_AB) ["A"; "B"; "C"]%string "1mo"
      new_session = (Ok d, s1) /\
    get_stock_data_cached (fun _ => provider_down) ["A"; "B"; "C"]%string "1mo"
      s1 = (Ok d, s1) /\
    exists d' s2,
      get_stock_data_cached (fun _ => provider_AB) ["A"; "B"; "C"]%string "1mo"
        (cache_clear s1) = (Ok d', s2) /\
      (length (calls s2) = length (calls s1) + 3)%nat.
Proof.
  destruct (cached_call_is_replayed (fun _ => provider_AB) new_session
              ["A"; "B"; "C"]%string "1mo")
    as (d & s1 & Hrun & Hhit & d' & s2 & new & Hrun2 & Hcalls & Hnd & Hnew).
  - intros k data H. discriminate H.
  - exists d, s1. split; [exact Hrun | ]. split; [apply Hhit | ].
    exists d', s2. split; [exact Hrun2 | ].
    vm_compute in Hrun. inversion Hrun; subst s1.
    vm_compute in Hrun2. inversion Hrun2; subst s2. reflexivity.
Defined.

(** ** The RSI series *)

Lemma Qdiv_nonneg a b : 0 <= a -> 0 < b -> 0 <= a / b.
Proof.
  intros Ha Hb. unfold Qdiv.
  assert (0 < / b) by (apply Qinv_lt_0_compat; exact Hb). nra.
Qed.

Lemma Qdiv_pos a b : 0 < a -> 0 < b -> 0 < a / b.
Proof.
  intros Ha Hb. unfold Qdiv.
  assert (0 < / b) by (apply Qinv_lt_0_compat; exact Hb). nra.
Qed.

Lemma fmul_fin_nonneg a b :
  0 <= a -> 0 <= b -> exists r, fmul (Fin a) (Fin b) = Fin r /\ r == a * b.
Proof.
  intros Ha Hb. funfold. qcases; simpl; qcases; simpl;
    try lra; eexists; split; try reflexivity; try nra.
Qed.

Lemma fmul_pos_negzero a : 0 < a -> fmul (Fin a) NegZero = NegZero.
Proof.
  intro Ha. funfold. qcases; simpl; qcases; simpl; try lra; reflexivity.
Qed.

Lemma fadd_negzero_fin a : ~ a == 0 -> fadd NegZero (Fin a) = Fin a.
Proof.
  intro Ha. funfold. qcases; simpl; try contradiction; reflexivity.
Qed.

Lemma fadd_fin_negzero a : ~ a == 0 -> fadd (Fin a) NegZero = Fin a.
Proof.
  intro Ha. funfold. qcases; simpl; try contradiction; reflexivity.
Qed.

Lemma feq_negzero_pos a : 0 < a -> feq NegZero (Fin a) = false.
Proof.
  intro Ha. funfold. qcases; simpl; try lra; reflexivity.
Qed.

Lemma feq_pos_negzero a : 0 < a -> feq (Fin a) NegZero = false.
Proof.
  intro Ha. funfold. qcases; simpl; try lra; reflexivity.
Qed.

Lemma alpha14_bounds : 0 < alpha14 /\ alpha14 < 1.
Proof. split; reflexivity. Qed.

Section Smoothing.
Variable alpha : Q.
Hypothesis alpha_pos : 0 < alpha.
Hypothesis alpha_lt_1 : alpha < 1.

(** The weighted mean of a past average [a] and an observation [c]. *)
Lemma weighted_mean a c :
  0 <= a -> 0 <= c ->
  exists p r,
    fmul (Fin 1) (Fin (1 - alpha)) = Fin p /\ 0 < p /\
    fdiv (fadd (fmul (Fin p) (Fin a)) (fmul (Fin alpha) (Fin c)))
         (fadd (Fin p) (Fin alpha)) = Fin r /\
    0 <= r /\ (0 < a \/ 0 < c -> 0 < r).
Proof.
  intros Ha Hc.
  destruct (fmul_fin_pos 1 (1 - alpha)) as (p & Hp & Hpv); [lra | ].
  assert (Hp0 : 0 < p) by (rewrite Hpv; lra).
  destruct (fmul_fin_nonneg p a) as (x & Hx & Hxv); [lra | lra | ].
  destruct (fmul_fin_nonneg alpha c) as (y & Hy & Hyv); [lra | lra | ].
  destruct (fadd_fin x y) as (n & Hn & Hnv).
  destruct (fadd_fin p alpha) as (m & Hm & Hmv).
  assert (Hm0 : 0 < m) by (rewrite Hmv; lra).
  destruct (fdiv_fin_pos n m Hm0) as (r & Hr & Hrv).
  exists p, r. rewrite Hp, Hx, Hy, Hn, Hm, Hr.
  assert (Hn0 : 0 <= n) by (rewrite Hnv, Hxv, Hyv; nra).
  repeat split; auto.
  - rewrite Hrv. now apply Qdiv_nonneg.
  - intro H. rewrite Hrv. apply Qdiv_pos; [ | exact Hm0].
    rewrite Hnv, Hxv, Hyv. destruct H; nra.
Qed.

Lemma gain_step w c :
  gain_state w -> nonneg c ->
  exists w',
    ewm_step alpha (w, Fin 1) c = (w', Fin 1) /\ nonneg w' /\
    (posv w \/ posv c -> posv w').
Proof.
  intros [-> | (a & -> & Ha)] (q & -> & Hq).
  - exists (Fin q). split; [reflexivity | ]. split; [now exists q | ].
    intros [(x & Hx & _) | H]; [discriminate | exact H].
  - unfold ewm_step. cbn [isnan negb].
    destruct (weighted_mean a q Ha Hq) as (p & r & -> & Hp & Hr & Hr0 & Hrpos).
    destruct (fne (Fin a) (Fin q)) eqn:Ene.
    + exists (Fin r). rewrite Hr. split; [reflexivity | ].
      split; [now exists r | ].
      intros [(x & Hx & Hx0) | (x & Hx & Hx0)]; inversion Hx; subst;
        exists r; split; auto.
    + exists (Fin a). split; [reflexivity | ]. split; [now exists a | ].
      unfold fne in Ene. apply negb_false_iff, feq_fin in Ene.
      intros [H | (x & Hx & Hx0)]; [exact H | ].
      inversion Hx; subst. exists a. split; [reflexivity | lra].
Qed.

Lemma loss_step w c :
  loss_state w -> loss_obs c ->
  exists w',
    ewm_step alpha (w, Fin 1) c = (w', Fin 1) /\ loss_obs w' /\
    (w = NaN \/ w = NegZero -> c = NegZero -> w' = NegZero).
Proof.
  intros Hw Hc.
  destruct Hw as [-> | [-> | (a & -> & Ha)]].
  - (* no observation yet *)
    destruct Hc as [-> | (q & -> & Hq)].
    + exists NegZero. split; [reflexivity | ]. split; [now left | auto].
    + exists (Fin q). split; [reflexivity | ].
      split; [right; now exists q | ]. intros _ H. discriminate.
  - (* no loss so far *)
    destruct Hc as [-> | (q & -> & Hq)].
    + exists NegZero. split; [reflexivity | ]. split; [now left | auto].
    + unfold ewm_step. cbn [isnan negb]. unfold fne.
      rewrite (feq_negzero_pos q Hq). cbn [negb].
      destruct (fmul_fin_pos 1 (1 - alpha)) as (p & Hp & Hpv); [lra | ].
      assert (Hp0 : 0 < p) by (rewrite Hpv; lra).
      rewrite Hp, (fmul_pos_negzero p Hp0).
      destruct (fmul_fin_pos alpha q Hq) as (y & -> & Hyv).
      assert (Hy0 : 0 < y) by (rewrite Hyv; nra).
      rewrite fadd_negzero_fin by lra.
      destruct (fadd_fin p alpha) as (m & -> & Hmv).
      assert (Hm0 : 0 < m) by (rewrite Hmv; lra).
      destruct (fdiv_fin_pos y m Hm0) as (r & -> & Hrv).
      exists (Fin r). split; [reflexivity | ]. split.
      * right. exists r. split; [reflexivity | ].
        rewrite Hrv. now apply Qdiv_pos.
      * intros _ H. discriminate.
  - (* a positive average loss *)
    destruct Hc as [-> | (q & -> & Hq)].
    + unfold ewm_step. cbn [isnan negb]. unfold fne.
      rewrite (feq_pos_negzero a Ha). cbn [negb].
      destruct (fmul_fin_pos 1 (1 - alpha)) as (p & Hp & Hpv); [lra | ].
      assert (Hp0 : 0 < p) by (rewrite Hpv; lra).
      rewrite Hp, (fmul_pos_negzero alpha alpha_pos).
      destruct (fmul_fin_pos p a Ha) as (x & -> & Hxv).
      assert (Hx0 : 0 < x) by (rewrite Hxv; nra).
      rewrite fadd_fin_negzero by lra.
      destruct (fadd_fin p alpha) as (m & -> & Hmv).
      assert (Hm0 : 0 < m) by (rewrite Hmv; lra).
      destruct (fdiv_fin_pos x m Hm0) as (r & -> & Hrv).
      exists (Fin r). split; [reflexivity | ]. split.
      * right. exists r. split; [reflexivity | ].
        rewrite Hrv. now apply Qdiv_pos.
      * intros [H | H]; discriminate.
    + unfold ewm_step. cbn [isnan negb].
      destruct (weighted_mean a q) as (p & r & -> & Hp & Hr & Hr0 & Hrpos);
        [lra | lra | ].
      destruct (fne (Fin a) (Fin q)).
      * exists (Fin r). rewrite Hr. split; [reflexivity | ]. split.
        -- right. exists r. split; [reflexivity | apply Hrpos; now left].
        -- intros [H | H]; discriminate.
      * exists (Fin a). split; [reflexivity | ]. split.
        -- right. now exists a.
        -- intros [H | H]; discriminate.
Qed.
End Smoothing.

(** Gains and losses of a finite delta. *)
Lemma clip_gain d :
  nonneg (clip_lower0 (Fin d)) /\
  (fgt (Fin d) (Fin 0) = true -> posv (clip_lower0 (Fin d))).
Proof.
  unfold clip_lower0, fge, fgt. cbn [isnan orb].
  destruct (fle (Fin 0) (Fin d)) eqn:E.
  - apply fle_fin in E. split; [now exists d | ].
    intro H. apply flt_fin in H. now exists d.
  - split; [exists 0; split; [reflexivity | lra] | ].
    intro H. apply flt_fin in H.
    assert (fle (Fin 0) (Fin d) = true) by (apply fle_fin; lra). congruence.
Qed.

Lemma clip_loss d :
  loss_obs (loss_of (Fin d)) /\
  (fge (Fin d) (Fin 0) = true -> loss_of (Fin d) = NegZero).
Proof.
  unfold loss_of, clip_upper0, fge. cbn [isnan orb].
  destruct (fle (Fin d) (Fin 0)) eqn:E.
  - apply fle_fin in E.
    destruct (Qeq_dec d 0) as [Hz | Hnz].
    + assert (Hn : fneg (Fin d) = NegZero).
      { funfold. qcases; simpl; try contradiction; reflexivity. }
      rewrite Hn. split; [now left | reflexivity].
    + assert (Hn : fneg (Fin d) = Fin (- d)).
      { funfold. qcases; simpl; try contradiction; reflexivity. }
      rewrite Hn. split.
      * right. exists (- d). split; [reflexivity | lra].
      * intro H. apply fle_fin in H. lra.
  - split; [now left | reflexivity].
Qed.

Lemma rsi_of_range g l : gain_state g -> loss_state l -> in_range (rsi_of g l).
Proof.
  intros [-> | (a & -> & Ha)] Hl; [now left | ].
  destruct Hl as [-> | [-> | (b & -> & Hb)]].
  - left. unfold rsi_of. funfold. qcases; reflexivity.
  - destruct (Qeq_dec a 0) as [Hz | Hnz].
    + left. unfold rsi_of. funfold. qcases; simpl; try contradiction; reflexivity.
    + right. exists 100. split; [ | lra].
      unfold rsi_of. funfold. qcases; simpl; try contradiction; try lra; reflexivity.
  - right. unfold rsi_of.
    destruct (fdiv_fin_pos a b Hb) as (r & -> & Hr).
    assert (Hr0 : 0 <= r) by (rewrite Hr; now apply Qdiv_nonneg).
    destruct (fadd_fin 1 r) as (s & -> & Hs).
    assert (Hs1 : 1 <= s) by (rewrite Hs; lra).
    destruct (fdiv_fin_pos 100 s) as (t & -> & Ht); [lra | ].
    destruct (fsub_fin 100 t) as (u & -> & Hu).
    exists u. split; [reflexivity | ].
    assert (Hts : t * s == 100) by (rewrite Ht; field; lra).
    assert (Ht0 : 0 < t) by (rewrite Ht; apply Qdiv_pos; lra).
    rewrite Hu. split; nra.
Qed.

Lemma rsi_of_all_gains g : posv g -> rsi_of g NegZero = Fin 100.
Proof.
  intros (a & -> & Ha). unfold rsi_of. funfold.
  qcases; simpl; try lra; reflexivity.
Qed.

Section Scan.
Variable alpha : Q.
Hypothesis alpha_pos : 0 < alpha.
Hypothesis alpha_lt_1 : alpha < 1.

Let scan (wg wl : fval) (ds : list fval) : list fval :=
  map2 rsi_of (ewm_from alpha (wg, Fin 1) (map clip_lower0 ds))
              (ewm_from alpha (wl, Fin 1) (map loss_of ds)).

Lemma scan_range (ds : list fval) :
  forall wg wl,
    Forall finite ds -> gain_state wg -> loss_state wl ->
    Forall in_range (scan wg wl ds).
Proof.
  induction ds as [ | d ds IH]; intros wg wl Hfin Hg Hl; [constructor | ].
  inversion Hfin as [ | ? ? (q & ->) Hfin']; subst.
  destruct (gain_step alpha alpha_pos alpha_lt_1 wg (clip_lower0 (Fin q)) Hg
              (proj1 (clip_gain q))) as (wg' & Hsg & Hg' & _).
  destruct (loss_step alpha alpha_pos alpha_lt_1 wl (loss_of (Fin q)) Hl
              (proj1 (clip_loss q))) as (wl' & Hsl & Hl' & _).
  unfold scan. cbn [map ewm_from map2]. rewrite Hsg, Hsl. cbn [fst].
  constructor.
  - apply rsi_of_range; [now right | now right].
  - apply IH; [exact Hfin' | now right | now right].
Qed.

Lemma scan_all_gains (ds : list fval) :
  forall wg wl k v,
    Forall finite ds -> gain_state wg -> wl = NaN \/ wl = NegZero ->
    nth_error (scan wg wl ds) k = Some v ->
    forallb (fun d => fge d (Fin 0)) (firstn (S k) ds) = true ->
    posv wg \/ existsb (fun d => fgt d (Fin 0)) (firstn (S k) ds) = true ->
    v = Fin 100.
Proof.
  induction ds as [ | d ds IH]; intros wg wl k v Hfin Hg Hl Hnth Hall Hsome.
  - destruct k; discriminate.
  - inversion Hfin as [ | ? ? (q & ->) Hfin']; subst.
    cbn [firstn forallb existsb] in Hall, Hsome.
    apply andb_true_iff in Hall. destruct Hall as [Hd Hall].
    destruct (gain_step alpha alpha_pos alpha_lt_1 wg (clip_lower0 (Fin q)) Hg
                (proj1 (clip_gain q))) as (wg' & Hsg & Hg' & Hpos).
    assert (Hls : loss_state wl) by (destruct Hl as [-> | ->]; [now left | right; now left]).
    destruct (loss_step alpha alpha_pos alpha_lt_1 wl (loss_of (Fin q)) Hls
                (proj1 (clip_loss q))) as (wl' & Hsl & _ & Hzero).
    assert (Hwl' : wl' = NegZero)
      by (apply Hzero; [exact Hl | exact (proj2 (clip_loss q) Hd)]).
    subst wl'.
    unfold scan in Hnth. cbn [map ewm_from map2] in Hnth.
    rewrite Hsg, Hsl in Hnth. cbn [fst] in Hnth.
    destruct k as [ | k].
    + cbn [nth_error] in Hnth. injection Hnth as <-.
      apply rsi_of_all_gains. apply Hpos.
      destruct Hsome as [H | H]; [now left | right].
      cbn [firstn existsb] in H. rewrite orb_false_r in H.
      exact (proj2 (clip_gain q) H).
    + cbn [nth_error] in Hnth.
      apply (IH wg' NegZero k v); auto.
      * now right.
      * destruct Hsome as [H | H].
        -- left. apply Hpos. now left.
        -- apply orb_true_iff in H. destruct H as [H | H]; [ | now right].
           left. apply Hpos. right. exact (proj2 (clip_gain q) H).
Qed.
End Scan.

Lemma diff_from_finite (c : Q) (s : list fval) :
  Forall finite s -> Forall finite (diff_from (Fin c) s).
Proof.
  revert c. induction s as [ | x s IH]; intros c H; [constructor | ].
  inversion H as [ | ? ? (q & ->) H']; subst. cbn [diff_from]. constructor.
  - destruct (fsub_fin q c) as (r & Hr & _). now exists r.
  - now apply IH.
Qed.

(** The series on a frame with a first bar: no value at the first bar, then
    the smoothed gains against the smoothed losses. *)
Lemma calculate_rsi_cons (b : Bar) (data : DataFrame) :
  calculate_rsi (b :: data) =
  NaN :: map2 rsi_of
           (ewm_from alpha14 (NaN, Fin 1)
              (map clip_lower0 (diff_from (Close b) (map Close data))))
           (ewm_from alpha14 (NaN, Fin 1)
              (map loss_of (diff_from (Close b) (map Close data)))).
Proof.
  unfold calculate_rsi, calculate_rsi_periods.
  cbn [empty map diff ewm_mean map2].
  fold alpha14.
  replace (clip_lower0 NaN) with NaN by reflexivity.
  replace (fneg (clip_upper0 NaN)) with NaN by reflexivity.
  cbn [map2 map]. f_equal.
  generalize (ewm_from alpha14 (NaN, Fin 1)
                (map clip_lower0 (diff_from (Close b) (map Close data)))).
  unfold loss_of.
  generalize (ewm_from alpha14 (NaN, Fin 1)
                (map (fun d => fneg (clip_upper0 d))
                   (diff_from (Close b) (map Close data)))).
  intros l2 l1. revert l2. induction l1 as [ | x l1 IH]; intros [ | y l2];
    cbn [map2 map]; try reflexivity.
  f_equal. apply IH.
Qed.

(** C3, as the code has it: on a frame whose closes are all finite, every
    value of the RSI series is undefined (NaN) or lies in [0, 100]; the
    value at a bar is exactly 100 when every delta up to that bar is
    non-negative and at least one of them is positive. *)
Theorem rsi_range_and_ceiling :
  forall data : DataFrame,
    Forall (fun b => finite (Close b)) data ->
    (forall v, In v (calculate_rsi data) -> in_range v) /\
    (forall k v,
       nth_error (calculate_rsi data) k = Some v ->
       forallb (fun d => fge d (Fin 0)) (firstn k (deltas data)) = true ->
       existsb (fun d => fgt d (Fin 0)) (firstn k (deltas data)) = true ->
       v = Fin 100).
Proof.
  intros data Hfin.
  destruct data as [ | b data].
  - split; [intros v [] | intros [ | k] v H; discriminate].
  - inversion Hfin as [ | ? ? (c & Hc) Hfin']; subst.
    assert (Hds : Forall finite (diff_from (Close b) (map Close data))).
    { rewrite Hc. apply diff_from_finite.
      clear -Hfin'. induction Hfin'; constructor; auto. }
    destruct alpha14_bounds as [Ha0 Ha1].
    rewrite calculate_rsi_cons. split.
    + intros v [<- | Hin]; [now left | ].
      assert (H := scan_range alpha14 Ha0 Ha1 _ NaN NaN Hds
                     (or_introl eq_refl) (or_introl eq_refl)).
      rewrite Forall_forall in H. now apply H.
    + intros [ | k] v Hnth Hall Hsome; [discriminate | ].
      cbn [nth_error] in Hnth.
      unfold deltas in Hall, Hsome. cbn [map diff tl] in Hall, Hsome.
      apply (scan_all_gains alpha14 Ha0 Ha1 _ NaN NaN k v Hds); auto.
      now left.
Qed.

Lemma rsi_range_and_ceiling_witness :
  in_range (Fin 100) /\ nth_error (calculate_rsi six_bars) 5 = Some (Fin 100).
Proof.
  destruct (rsi_range_and_ceiling six_bars) as [Hrange Hceil].
  - repeat constructor; eexists; reflexivity.
  - split.
    + apply Hrange. vm_compute. auto.
    + destruct (nth_error (calculate_rsi six_bars) 5) as [v | ] eqn:E;
        [ | vm_compute in E; discriminate].
      f_equal. apply (Hceil 5%nat v E); reflexivity.
Defined.

(** C3 as stated fails on two bars with the same close: the only delta is 0,
    hence non-negative, and the RSI at the second bar is NaN, not 100. *)
Lemma rsi_flat_is_not_100 :
  forallb (fun d => fge d (Fin 0)) (deltas flat_bars) = true /\
  nth_error (calculate_rsi flat_bars) 1 = Some NaN /\
  rsi flat_bars = Ok NaN.
Proof. repeat split. Qed.

(** ** The cached program against one batch

    While the provider's answers do not change, the loop run in the session
    computes the mapping of the batch run against the provider directly. *)

Lemma loop_cached_pure (h : string -> string -> Outcome) (period : string)
    (stock_list : list string) :
  forall (s : Session) (stock_data : StockData),
    cache_agrees h s ->
    exists s',
      get_stock_data_loop St (@st_ret) (@st_bind)
        (fetch_data_cached (fun _ => h)) stock_list period stock_data s =
      (get_stock_data_loop (fun A => A) (fun _ a => a) (fun _ _ a k => k a)
         (fetch_data h) stock_list period stock_data, s') /\
      cache_agrees h s'.
Proof.
  induction stock_list as [ | symbol rest IH]; intros s stock_data Hs.
  - exists s. split; [reflexivity | exact Hs].
  - cbn [get_stock_data_loop]. unfold st_bind at 1.
    assert (Hf : exists s1,
               fetch_data_cached (fun _ => h) symbol period s =
               (fetch_data h symbol period, s1) /\ cache_agrees h s1).
    { unfold fetch_data_cached.
      destruct (dict_get key2_eqb (fetch_cache s) (symbol, period)) as [v | ] eqn:Eg.
      - exists s. rewrite (Hs _ _ _ Eg). split; [reflexivity | exact Hs].
      - eexists. split; [reflexivity | ].
        intros t p v. cbn [fetch_cache].
        rewrite (dict_get_set key2_eqb key2_eqb_spec).
        destruct (key2_eqb_spec (symbol, period) (t, p)) as [Heq | Hne].
        + inversion Heq; subst. intro H. inversion H. reflexivity.
        + apply Hs. }
    destruct Hf as (s1 & -> & Hs1).
    destruct (fetch_data h symbol period) as [data | ].
    + destruct (stock_record data) as [r | e].
      * apply IH. exact Hs1.
      * exists s1. split; [reflexivity | exact Hs1].
    + apply IH. exact Hs1.
Qed.

Lemma cached_batch_agrees_with_pure (h : string -> string -> Outcome)
    (stock_list : list string) (period : string) :
  fst (get_stock_data_cached (fun _ => h) stock_list period new_session) =
  get_stock_data h stock_list period.
Proof.
  unfold get_stock_data_cached, get_stock_data, get_stock_data_body, new_session.
  cbn [stock_cache dict_get].
  destruct (loop_cached_pure h period stock_list (mkSession [] [] []) [])
    as (s' & -> & _).
  - intros t p v H. discriminate H.
  - destruct (get_stock_data_loop _ _ _ _ stock_list period []); reflexivity.
Qed.

(** * Further properties of the indicator *)

(** ** The parts of a record *)

Lemma stock_record_fields (data : DataFrame) (r : StockRecord) :
  stock_record data = Ok r ->
  current_price data = Ok (Price r) /\
  day_change data = Ok (Change r) /\
  momentum data = Ok (Momentum r) /\
  rsi data = Ok (RSI r) /\
  Analyst r = analyst_pick (RSI r) /\
  Risk r = risk (Change r) /\
  Data r = data.
Proof.
  unfold stock_record.
  destruct (current_price data) as [cp | ]; cbn [rbind]; [ | discriminate].
  destruct (day_change data) as [dc | ]; cbn [rbind]; [ | discriminate].
  destruct (momentum data) as [mo | ]; cbn [rbind]; [ | discriminate].
  destruct (rsi data) as [rs | ]; cbn [rbind]; [ | discriminate].
  intro H. apply Ok_inj in H. subst r. cbn. repeat split.
Qed.

(** ** Prefixes *)

Lemma diff_from_firstn (n : nat) (prev : fval) (s : list fval) :
  diff_from prev (firstn n s) = firstn n (diff_from prev s).
Proof.
  revert prev s. induction n as [ | n IH]; intros prev [ | x s]; cbn; auto.
  now rewrite IH.
Qed.

Lemma diff_firstn (n : nat) (s : list fval) :
  diff (firstn n s) = firstn n (diff s).
Proof.
  destruct n as [ | n]; destruct s as [ | x s]; cbn [firstn diff]; auto.
  now rewrite diff_from_firstn.
Qed.

Lemma ewm_from_firstn (alpha : Q) (n : nat) (st : fval * fval) (s : list fval) :
  ewm_from alpha st (firstn n s) = firstn n (ewm_from alpha st s).
Proof.
  revert st s. induction n as [ | n IH]; intros st [ | x s]; cbn [firstn ewm_from]; auto.
  now rewrite IH.
Qed.

Lemma ewm_mean_firstn (span : Z) (n : nat) (s : list fval) :
  ewm_mean span (firstn n s) = firstn n (ewm_mean span s).
Proof.
  destruct n as [ | n]; destruct s as [ | x s]; cbn [firstn ewm_mean]; auto.
  now rewrite ewm_from_firstn.
Qed.

Lemma map2_firstn {A B C} (f : A -> B -> C) (n : nat) (l1 : list A) (l2 : list B) :
  map2 f (firstn n l1) (firstn n l2) = firstn n (map2 f l1 l2).
Proof.
  revert l1 l2. induction n as [ | n IH]; intros l1 l2; [reflexivity | ].
  destruct l1 as [ | a l1]; [reflexivity | ].
  destruct l2 as [ | b l2]; [reflexivity | ].
  cbn [firstn map2]. now rewrite IH.
Qed.

(** X2: the RSI series is causal: the series of the first [n] bars is the
    first [n] values of the series of the whole frame, so a value never
    depends on later bars. *)
Theorem calculate_rsi_prefix :
  forall (n : nat) (data : DataFrame),
    calculate_rsi (firstn n data) = firstn n (calculate_rsi data).
Proof.
  intros n data. unfold calculate_rsi, calculate_rsi_periods.
  destruct n as [ | n]; [now destruct data | ].
  destruct data as [ | b data]; [reflexivity | ].
  cbn [firstn empty].
  change (b :: firstn n data) with (firstn (S n) (b :: data)).
  rewrite <- (firstn_map Close).
  generalize (map Close (b :: data)). intro closes.
  rewrite diff_firstn, <- !firstn_map, !ewm_mean_firstn, map2_firstn.
  now rewrite <- firstn_map.
Qed.

(** X1: the RSI series has one value per bar and its first value is always
    NaN; on every frame with a bar the RSI that [get_stock_data] keeps is
    the latest value of the series, never the default 0. *)
Theorem calculate_rsi_aligned :
  forall data : DataFrame,
    length (calculate_rsi data) = length data /\
    nth_error (calculate_rsi data) 0 =
      match data with [] => None | _ :: _ => Some NaN end /\
    (data <> [] ->
     exists v, rsi data = Ok v /\
               nth_error (calculate_rsi data) (length data - 1) = Some v).
Proof.
  intro data. split; [apply calculate_rsi_length | ]. split.
  - destruct data as [ | b data]; [reflexivity | ].
    now rewrite calculate_rsi_cons.
  - intro Hne. assert (Hlen := calculate_rsi_length data).
    unfold rsi. destruct (calculate_rsi data) as [ | x s] eqn:E.
    + destruct data; [congruence | discriminate].
    + cbn [empty negb]. rewrite <- Hlen.
      destruct (iloc_neg_spec (x :: s) 1) as (y & Hn & Hi); [cbn; lia | ].
      exists y. split; [exact Hi | exact Hn].
Qed.

(** ** Falling and mixed series *)

Lemma clip_gain_nonpos d :
  fle (Fin d) (Fin 0) = true -> zerov (clip_lower0 (Fin d)).
Proof.
  intro H. apply fle_fin in H. unfold clip_lower0, fge. cbn [isnan orb].
  destruct (fle (Fin 0) (Fin d)) eqn:E.
  - apply fle_fin in E. exists d. split; [reflexivity | lra].
  - exists 0. split; reflexivity.
Qed.

Lemma clip_loss_neg d :
  flt (Fin d) (Fin 0) = true -> posv (loss_of (Fin d)).
Proof.
  intro H. apply flt_fin in H. unfold loss_of, clip_upper0. cbn [isnan orb].
  assert (E : fle (Fin d) (Fin 0) = true) by (apply fle_fin; lra).
  rewrite E.
  assert (Hn : fneg (Fin d) = Fin (- d)).
  { funfold. qcases; simpl; try lra; reflexivity. }
  rewrite Hn. exists (- d). split; [reflexivity | lra].
Qed.

Lemma rsi_of_no_gain g l :
  zerov g -> posv l -> exists q, rsi_of g l = Fin q /\ q == 0.
Proof.
  intros (z & -> & Hz) (b & -> & Hb). unfold rsi_of.
  destruct (fdiv_fin_pos z b Hb) as (r & -> & Hr).
  assert (Hr0 : r == 0) by (rewrite Hr, Hz; field; lra).
  destruct (fadd_fin 1 r) as (s & -> & Hs).
  assert (Hs1 : s == 1) by (rewrite Hs, Hr0; lra).
  destruct (fdiv_fin_pos 100 s) as (t & -> & Ht); [lra | ].
  destruct (fsub_fin 100 t) as (u & -> & Hu).
  exists u. split; [reflexivity | ].
  rewrite Hu, Ht, Hs1. field.
Qed.


Section ScanStates.
Variable alpha : Q.
Hypothesis alpha_pos : 0 < alpha.
Hypothesis alpha_lt_1 : alpha < 1.

Lemma gain_step_zero w c :
  zero_state w -> zerov c ->
  exists w', ewm_step alpha (w, Fin 1) c = (w', Fin 1) /\ zerov w'.
Proof.
  intros [-> | (z & -> & Hz)] (c0 & -> & Hc).
  - exists (Fin c0). split; [reflexivity | now exists c0].
  - exists (Fin z). split; [ | now exists z].
    unfold ewm_step. cbn [isnan negb]. unfold fne.
    assert (E : feq (Fin z) (Fin c0) = true) by (apply feq_fin; lra).
    now rewrite E.
Qed.

Lemma loss_step_pos w c :
  loss_state w -> loss_obs c -> posv w \/ posv c ->
  exists w', ewm_step alpha (w, Fin 1) c = (w', Fin 1) /\ posv w'.
Proof.
  intros Hw Hc Hpos.
  destruct (loss_step alpha alpha_pos alpha_lt_1 w c Hw Hc) as (w' & Hs & Hobs & _).
  exists w'. split; [exact Hs | ].
  destruct Hobs as [-> | H]; [ | exact H].
  exfalso.
  destruct Hw as [-> | [-> | (a & -> & Ha)]].
  - destruct Hpos as [(x & Hx & _) | (q & -> & Hq)]; [discriminate | ].
    cbn in Hs. discriminate.
  - destruct Hpos as [(x & Hx & _) | (q & -> & Hq)]; [discriminate | ].
    unfold ewm_step in Hs. cbn [isnan negb] in Hs. unfold fne in Hs.
    rewrite (feq_negzero_pos q Hq) in Hs. cbn [negb] in Hs.
    destruct (fmul_fin_pos 1 (1 - alpha)) as (p & Hp & Hpv); [lra | ].
    assert (Hp0 : 0 < p) by (rewrite Hpv; lra).
    rewrite Hp, (fmul_pos_negzero p Hp0) in Hs.
    destruct (fmul_fin_pos alpha q Hq) as (y & Hy & Hyv). rewrite Hy in Hs.
    assert (Hy0 : 0 < y) by (rewrite Hyv; nra).
    rewrite fadd_negzero_fin in Hs by lra.
    destruct (fadd_fin p alpha) as (m & Hm & Hmv). rewrite Hm in Hs.
    assert (Hm0 : 0 < m) by (rewrite Hmv; lra).
    destruct (fdiv_fin_pos y m Hm0) as (r & Hr & _). rewrite Hr in Hs.
    discriminate.
  - destruct Hc as [-> | (q & -> & Hq)].
    + unfold ewm_step in Hs. cbn [isnan negb] in Hs. unfold fne in Hs.
      rewrite (feq_pos_negzero a Ha) in Hs. cbn [negb] in Hs.
      destruct (fmul_fin_pos 1 (1 - alpha)) as (p & Hp & Hpv); [lra | ].
      assert (Hp0 : 0 < p) by (rewrite Hpv; lra).
      rewrite Hp, (fmul_pos_negzero alpha alpha_pos) in Hs.
      destruct (fmul_fin_pos p a Ha) as (x & Hx & Hxv). rewrite Hx in Hs.
      assert (Hx0 : 0 < x) by (rewrite Hxv; nra).
      rewrite fadd_fin_negzero in Hs by lra.
      destruct (fadd_fin p alpha) as (m & Hm & Hmv). rewrite Hm in Hs.
      assert (Hm0 : 0 < m) by (rewrite Hmv; lra).
      destruct (fdiv_fin_pos x m Hm0) as (r & Hr & _). rewrite Hr in Hs.
      discriminate.
    + unfold ewm_step in Hs. cbn [isnan negb] in Hs.
      destruct (weighted_mean alpha alpha_pos alpha_lt_1 a q)
        as (p & r & Hp & _ & Hr & _ & _); [lra | lra | ].
      rewrite Hp, Hr in Hs.
      destruct (fne (Fin a) (Fin q)); discriminate.
Qed.

(** The averages behind the value at position [k] of the series that starts
    from the averages [wg] and [wl] and runs over the deltas [ds]. *)
Lemma scan_nth (ds : list fval) :
  forall wg wl k v,
    Forall finite ds -> gain_state wg -> loss_state wl ->
    nth_error
      (map2 rsi_of (ewm_from alpha (wg, Fin 1) (map clip_lower0 ds))
                   (ewm_from alpha (wl, Fin 1) (map loss_of ds))) k = Some v ->
    exists g l,
      v = rsi_of g l /\ nonneg g /\ loss_obs l /\
      (posv wg \/ existsb (fun d => fgt d (Fin 0)) (firstn (S k) ds) = true -> posv g) /\
      (posv wl \/ existsb (fun d => flt d (Fin 0)) (firstn (S k) ds) = true -> posv l) /\
      (zero_state wg ->
       forallb (fun d => fle d (Fin 0)) (firstn (S k) ds) = true -> zerov g).
Proof.
  induction ds as [ | d ds IH]; intros wg wl k v Hfin Hg Hl Hnth.
  - destruct k; discriminate.
  - inversion Hfin as [ | ? ? (q & ->) Hfin']; subst.
    destruct (gain_step alpha alpha_pos alpha_lt_1 wg (clip_lower0 (Fin q)) Hg
                (proj1 (clip_gain q))) as (wg' & Hsg & Hg' & Hgpos).
    destruct (loss_step alpha alpha_pos alpha_lt_1 wl (loss_of (Fin q)) Hl
                (proj1 (clip_loss q))) as (wl' & Hsl & Hl' & _).
    assert (Hlpos : posv wl \/ flt (Fin q) (Fin 0) = true -> posv wl').
    { intro H.
      destruct (loss_step_pos wl (loss_of (Fin q)) Hl (proj1 (clip_loss q)))
        as (w2 & Hs2 & Hp2).
      - destruct H as [H | H]; [now left | right; now apply clip_loss_neg].
      - rewrite Hsl in Hs2. inversion Hs2. now subst. }
    assert (Hgzero : zero_state wg -> fle (Fin q) (Fin 0) = true -> zerov wg').
    { intros Hz Hq.
      destruct (gain_step_zero wg (clip_lower0 (Fin q)) Hz (clip_gain_nonpos q Hq))
        as (w2 & Hs2 & Hz2).
      rewrite Hsg in Hs2. inversion Hs2. now subst. }
    cbn [map ewm_from map2] in Hnth. rewrite Hsg, Hsl in Hnth. cbn [fst] in Hnth.
    destruct k as [ | k].
    + cbn [nth_error] in Hnth. injection Hnth as <-.
      exists wg', wl'. split; [reflexivity | ]. split; [exact Hg' | ].
      split; [exact Hl' | ].
      cbn [firstn existsb forallb]. rewrite !orb_false_r, andb_true_r.
      split; [ | split].
      * intros [H | H]; apply Hgpos; [now left | right].
        exact (proj2 (clip_gain q) H).
      * exact Hlpos.
      * exact Hgzero.
    + cbn [nth_error] in Hnth.
      destruct (IH wg' wl' k v Hfin' (or_intror Hg') (or_intror Hl') Hnth)
        as (g & l & Hv & Hng & Hlo & Hpg & Hpl & Hzg).
      exists g, l. split; [exact Hv | ]. split; [exact Hng | ].
      split; [exact Hlo | ].
      change (firstn (S (S k)) (Fin q :: ds)) with (Fin q :: firstn (S k) ds).
      cbn [existsb forallb]. split; [ | split].
      * intros [H | H]; apply Hpg.
        -- left. apply Hgpos. now left.
        -- apply orb_true_iff in H. destruct H as [H | H]; [ | now right].
           left. apply Hgpos. right. exact (proj2 (clip_gain q) H).
      * intros [H | H]; apply Hpl.
        -- left. apply Hlpos. now left.
        -- apply orb_true_iff in H. destruct H as [H | H]; [ | now right].
           left. apply Hlpos. now right.
      * intros Hz H. apply andb_true_iff in H. destruct H as [Hq H].
        apply Hzg; [right; now apply Hgzero | exact H].
Qed.
End ScanStates.

(** The averages behind a value of the series of a frame with finite
    closes, past its first bar. *)
Lemma calculate_rsi_nth (data : DataFrame) (k : nat) (v : fval) :
  Forall (fun b => finite (Close b)) data ->
  nth_error (calculate_rsi data) (S k) = Some v ->
  exists g l,
    v = rsi_of g l /\ nonneg g /\ loss_obs l /\
    (existsb (fun d => fgt d (Fin 0)) (firstn (S k) (deltas data)) = true -> posv g) /\
    (existsb (fun d => flt d (Fin 0)) (firstn (S k) (deltas data)) = true -> posv l) /\
    (forallb (fun d => fle d (Fin 0)) (firstn (S k) (deltas data)) = true -> zerov g).
Proof.
  intros Hfin Hnth. destruct data as [ | b data]; [discriminate | ].
  inversion Hfin as [ | ? ? (c & Hc) Hfin']; subst.
  assert (Hds : Forall finite (diff_from (Close b) (map Close data))).
  { rewrite Hc. apply diff_from_finite.
    clear -Hfin'. induction Hfin'; constructor; auto. }
  destruct alpha14_bounds as [Ha0 Ha1].
  rewrite calculate_rsi_cons in Hnth. cbn [nth_error] in Hnth.
  destruct (scan_nth alpha14 Ha0 Ha1 _ NaN NaN k v Hds
              (or_introl eq_refl) (or_introl eq_refl) Hnth)
    as (g & l & Hv & Hg & Hl & Hpg & Hpl & Hzg).
  exists g, l. unfold deltas. cbn [map diff tl].
  repeat split; auto.
  intro H. apply Hzg; [now left | exact H].
Qed.

(** X3: on a frame with finite closes, the RSI at a bar is 0 when every
    delta up to that bar is at or below 0 and at least one of them is
    negative. *)
Theorem rsi_floor :
  forall (data : DataFrame) (k : nat) (v : fval),
    Forall (fun b => finite (Close b)) data ->
    nth_error (calculate_rsi data) k = Some v ->
    forallb (fun d => fle d (Fin 0)) (firstn k (deltas data)) = true ->
    existsb (fun d => flt d (Fin 0)) (firstn k (deltas data)) = true ->
    exists q, v = Fin q /\ q == 0.
Proof.
  intros data [ | k] v Hfin Hnth Hall Hsome; [discriminate | ].
  destruct (calculate_rsi_nth data k v Hfin Hnth)
    as (g & l & -> & _ & _ & _ & Hpl & Hzg).
  apply rsi_of_no_gain; auto.
Qed.


Lemma rsi_floor_witness :
  exists q, nth_error (calculate_rsi falling_bars) 2 = Some (Fin q) /\ q == 0.
Proof.
  destruct (nth_error (calculate_rsi falling_bars) 2) as [v | ] eqn:E;
    [ | vm_compute in E; discriminate].
  destruct (rsi_floor falling_bars 2 v) as (q & -> & Hq).
  - repeat constructor; eexists; reflexivity.
  - exact E.
  - reflexivity.
  - reflexivity.
  - exists q. split; [reflexivity | exact Hq].
Defined.


(** ** From the series to the label *)

Lemma deltas_length (data : DataFrame) : length (deltas data) = (length data - 1)%nat.
Proof.
  unfold deltas. destruct data as [ | b data]; [reflexivity | ].
  cbn [map diff tl length]. rewrite diff_from_length, length_map. lia.
Qed.

Lemma rsi_latest (data : DataFrame) (v : fval) :
  data <> [] -> rsi data = Ok v ->
  nth_error (calculate_rsi data) (length data - 1) = Some v.
Proof.
  intros Hne Hr. unfold rsi in Hr.
  assert (Hlen := calculate_rsi_length data).
  destruct (calculate_rsi data) as [ | x s] eqn:E.
  - destruct data; [congruence | discriminate].
  - cbn [empty negb] in Hr. rewrite <- Hlen.
    destruct (iloc_neg_spec (x :: s) 1) as (y & Hn & Hi); [cbn; lia | ].
    rewrite Hi in Hr. apply Ok_inj in Hr. now subst.
Qed.

Lemma rsi_ceiling_nth (data : DataFrame) (k : nat) (v : fval) :
  Forall (fun b => finite (Close b)) data ->
  nth_error (calculate_rsi data) k = Some v ->
  forallb (fun d => fge d (Fin 0)) (firstn k (deltas data)) = true ->
  existsb (fun d => fgt d (Fin 0)) (firstn k (deltas data)) = true ->
  v = Fin 100.
Proof.
  intros Hfin Hnth Hall Hsome.
  destruct k as [ | k]; [discriminate | ].
  destruct data as [ | b data]; [discriminate | ].
  inversion Hfin as [ | ? ? (c & Hc) Hfin']; subst.
  assert (Hds : Forall finite (diff_from (Close b) (map Close data))).
  { rewrite Hc. apply diff_from_finite.
    clear -Hfin'. induction Hfin'; constructor; auto. }
  destruct alpha14_bounds as [Ha0 Ha1].
  rewrite calculate_rsi_cons in Hnth. cbn [nth_error] in Hnth.
  unfold deltas in Hall, Hsome. cbn [map diff tl] in Hall, Hsome.
  apply (scan_all_gains alpha14 Ha0 Ha1 _ NaN NaN k v Hds); auto.
  now left.
Qed.

(** X5: a frame with finite closes that never fall and rise at least once
    gets RSI 100 and the label Sell; one whose closes never rise and fall at
    least once gets RSI 0 and the label Buy. *)
Theorem trend_labels :
  forall data : DataFrame,
    Forall (fun b => finite (Close b)) data ->
    (forallb (fun d => fge d (Fin 0)) (deltas data) = true ->
     existsb (fun d => fgt d (Fin 0)) (deltas data) = true ->
     exists r, stock_record data = Ok r /\ RSI r = Fin 100 /\ Analyst r = Sell) /\
    (forallb (fun d => fle d (Fin 0)) (deltas data) = true ->
     existsb (fun d => flt d (Fin 0)) (deltas data) = true ->
     exists r, stock_record data = Ok r /\
               (exists q, RSI r = Fin q /\ q == 0) /\ Analyst r = Buy).
Proof.
  intros data Hfin.
  assert (Hrec : forall f, existsb f (deltas data) = true ->
            exists r, stock_record data = Ok r /\
                      nth_error (calculate_rsi data) (length data - 1) = Some (RSI r) /\
                      Analyst r = analyst_pick (RSI r) /\
                      firstn (length data - 1) (deltas data) = deltas data).
  { intros f Hex.
    assert (Hne : data <> []) by (intros ->; discriminate).
    destruct (stock_record_total data Hne) as (r & Hr & _).
    destruct (stock_record_fields data r Hr) as (_ & _ & _ & Hrsi & Han & _).
    exists r. split; [exact Hr | ]. split; [now apply rsi_latest | ].
    split; [exact Han | ].
    rewrite <- deltas_length. apply firstn_all. }
  split; intros Hall Hsome.
  - destruct (Hrec _ Hsome) as (r & Hr & Hnth & Han & Hfirst).
    exists r. split; [exact Hr | ].
    assert (Hv : RSI r = Fin 100).
    { apply (rsi_ceiling_nth data (length data - 1)); auto.
      - now rewrite Hfirst.
      - now rewrite Hfirst. }
    split; [exact Hv | ]. rewrite Han, Hv. reflexivity.
  - destruct (Hrec _ Hsome) as (r & Hr & Hnth & Han & Hfirst).
    exists r. split; [exact Hr | ].
    destruct (length data - 1)%nat as [ | k] eqn:Ek.
    { cbn in Hfirst. rewrite <- Hfirst in Hsome. discriminate. }
    destruct (calculate_rsi_nth data k (RSI r) Hfin Hnth)
      as (g & l & Hv & _ & _ & _ & Hpl & Hzg).
    rewrite Hfirst in Hpl, Hzg.
    destruct (rsi_of_no_gain g l (Hzg Hall) (Hpl Hsome)) as (q & Hq & Hq0).
    assert (Hrq : RSI r = Fin q) by congruence.
    split; [now exists q | ].
    rewrite Han, Hrq. unfold analyst_pick.
    assert (E : flt (Fin q) (Fin 50) = true) by (apply flt_fin; lra).
    now rewrite E.
Qed.

Lemma trend_labels_witness :
  (exists r, stock_record six_bars = Ok r /\ RSI r = Fin 100 /\ Analyst r = Sell) /\
  (exists r, stock_record falling_bars = Ok r /\ Analyst r = Buy).
Proof.
  split.
  - destruct (trend_labels six_bars) as [H _].
    + repeat constructor; eexists; reflexivity.
    + apply H; reflexivity.
  - destruct (trend_labels falling_bars) as [_ H].
    + repeat constructor; eexists; reflexivity.
    + destruct H as (r & Hr & _ & Han); [reflexivity | reflexivity | ].
      now exists r.
Defined.

(** * Further properties of the batch *)

Section DictKeys.
Context {K V : Type}.
Variable eqb : K -> K -> bool.
Hypothesis eqb_spec : forall a b, reflect (a = b) (eqb a b).

Lemma dict_set_key_in (d : dict K V) k v k' :
  In k' (map fst (dict_set eqb d k v)) <-> k' = k \/ In k' (map fst d).
Proof.
  induction d as [ | [k0 v0] d IH]; cbn.
  - split; [intros [<- | []]; now left | intros [-> | []]; now left].
  - destruct (eqb_spec k0 k) as [-> | Hne]; cbn.
    + split; [intros [-> | H]; auto | intros [-> | [-> | H]]; auto].
    + rewrite IH. split; [intros [-> | [-> | H]]; auto | intros [-> | [-> | H]]; auto].
Qed.

Lemma dict_set_NoDup (d : dict K V) k v :
  NoDup (map fst d) -> NoDup (map fst (dict_set eqb d k v)).
Proof.
  induction d as [ | [k0 v0] d IH]; cbn; intro H.
  - constructor; [intros [] | constructor].
  - inversion H as [ | ? ? Hnot Hnd]; subst.
    destruct (eqb_spec k0 k) as [-> | Hne]; cbn.
    + now constructor.
    + constructor; [ | now apply IH].
      rewrite dict_set_key_in. intros [-> | Hin]; [congruence | contradiction].
Qed.

Lemma dict_set_length (d : dict K V) k v :
  (length (dict_set eqb d k v) <= S (length d))%nat.
Proof.
  induction d as [ | [k0 v0] d IH]; cbn; [lia | ].
  destruct (eqb k0 k); cbn; lia.
Qed.

Lemma dict_get_In (d : dict K V) k v :
  dict_get eqb d k = Some v -> In (k, v) d.
Proof.
  induction d as [ | [k0 v0] d IH]; cbn; [discriminate | ].
  destruct (eqb_spec k0 k) as [-> | Hne].
  - intro H. inversion H. now left.
  - intro H. right. now apply IH.
Qed.

Lemma In_dict_get (d : dict K V) k v :
  NoDup (map fst d) -> In (k, v) d -> dict_get eqb d k = Some v.
Proof.
  induction d as [ | [k0 v0] d IH]; cbn; intros Hnd Hin; [contradiction | ].
  inversion Hnd as [ | ? ? Hnot Hnd']; subst.
  destruct Hin as [Heq | Hin].
  - inversion Heq; subst. destruct (eqb_spec k k); [reflexivity | congruence].
  - destruct (eqb_spec k0 k) as [-> | Hne]; [ | now apply IH].
    exfalso. apply Hnot. apply in_map_iff. now exists (k, v).
Qed.
End DictKeys.

Lemma loop_pure_keys (history : string -> string -> Outcome) (period : string)
    (stock_list : list string) :
  forall stock_data d,
    NoDup (map fst stock_data) ->
    get_stock_data_loop (fun A => A) (fun _ a => a) (fun _ _ a k => k a)
      (fetch_data history) stock_list period stock_data = Ok d ->
    NoDup (map fst d) /\
    (length d <= length stock_data + length stock_list)%nat.
Proof.
  induction stock_list as [ | symbol rest IH]; intros stock_data d Hnd Hrun;
    cbn [get_stock_data_loop] in Hrun.
  - apply Ok_inj in Hrun. subst. split; [exact Hnd | cbn; lia].
  - destruct (fetch_data history symbol period) as [data | ].
    + destruct (stock_record data) as [r | e]; [ | discriminate].
      destruct (IH _ d (dict_set_NoDup String.eqb String.eqb_spec stock_data symbol r Hnd) Hrun)
        as [H1 H2].
      split; [exact H1 | ].
      assert (H3 := dict_set_length String.eqb stock_data symbol r). cbn [length]. lia.
    + destruct (IH _ d Hnd Hrun) as [H1 H2]. split; [exact H1 | cbn [length]; lia].
Qed.

(** X8: the mapping of a batch has at most one entry per symbol, even when
    the list names a symbol twice, and no more entries than the list has
    symbols; enumerating the mapping and looking a symbol up agree. *)
Theorem get_stock_data_keys :
  forall (history : string -> string -> Outcome) (stock_list : list string)
         (period : string) (d : StockData),
    get_stock_data history stock_list period = Ok d ->
    NoDup (map fst d) /\
    (length d <= length stock_list)%nat /\
    (forall s r, In (s, r) d <-> stock_get d s = Some r).
Proof.
  intros history stock_list period d H.
  destruct (loop_pure_keys history period stock_list [] d (NoDup_nil _) H) as [Hnd Hlen].
  split; [exact Hnd | ]. split; [exact Hlen | ].
  intros s r. split.
  - apply (In_dict_get String.eqb String.eqb_spec d s r Hnd).
  - apply (dict_get_In String.eqb String.eqb_spec d s r).
Qed.

Lemma get_stock_data_keys_witness :
  exists d,
    get_stock_data provider_AB ["A"; "B"; "A"; "C"]%string "1mo" = Ok d /\
    NoDup (map fst d) /\ (length d <= 4)%nat.
Proof.
  destruct (get_stock_data provider_AB ["A"; "B"; "A"; "C"]%string "1mo")
    as [d | ] eqn:E; [ | vm_compute in E; discriminate].
  destruct (get_stock_data_keys _ _ _ d E) as (H1 & H2 & _).
  exists d. repeat split; assumption.
Defined.

Lemma batch_entry_fields :
  forall (history : string -> string -> Outcome) (stock_list : list string)
         (period : string) (d : StockData),
    get_stock_data history stock_list period = Ok d ->
    forall s r, In (s, r) d ->
      In s stock_list /\
      history s period = Returned (Data r) /\ Data r <> [] /\
      iloc_neg (map Close (Data r)) 1 = Ok (Price r) /\
      day_change (Data r) = Ok (Change r) /\
      momentum (Data r) = Ok (Momentum r) /\
      rsi (Data r) = Ok (RSI r) /\
      Analyst r = analyst_pick (RSI r) /\
      Risk r = risk (Change r).
Proof.
  intros history stock_list period d H s r Hin.
  destruct (loop_pure_keys history period stock_list [] d (NoDup_nil _) H) as [Hnd _].
  apply (In_dict_get String.eqb String.eqb_spec d s r Hnd) in Hin.
  destruct (get_stock_data_spec history period stock_list) as (d' & Hd' & Hget).
  rewrite H in Hd'. apply Ok_inj in Hd'. subst d'.
  fold (stock_get d s) in Hin. rewrite Hget in Hin.
  destruct (existsb (String.eqb s) stock_list) eqn:E; [ | discriminate].
  apply existsb_eqb_In in E. split; [exact E | ].
  unfold expected in Hin.
  destruct (fetch_data history s period) as [data | ] eqn:Hf; [ | discriminate].
  apply fetch_data_some in Hf. destruct Hf as [Hh Hne].
  destruct (stock_record data) as [r' | ] eqn:Hr; [ | discriminate].
  inversion Hin; subst r'.
  destruct (stock_record_fields data r Hr) as (Hp & Hc & Hm & Hrs & Ha & Hk & Hd).
  subst data. unfold current_price in Hp. repeat split; auto.
Qed.


(** X6: every entry of the mapping of a batch is consistent: its frame is
    the non-empty frame the provider returned for its symbol, its price is
    the latest close of that frame, its numbers are the day change, momentum
    and RSI of that frame, and its labels are the ones its RSI and its day
    change give. *)
Theorem batch_records_consistent :
  forall (history : string -> string -> Outcome) (stock_list : list string)
         (period : string) (d : StockData),
    get_stock_data history stock_list period = Ok d ->
    forall s r, In (s, r) d ->
      In s stock_list /\
      history s period = Returned (Data r) /\ Data r <> [] /\
      iloc_neg (map Close (Data r)) 1 = Ok (Price r) /\
      day_change (Data r) = Ok (Change r) /\
      momentum (Data r) = Ok (Momentum r) /\
      rsi (Data r) = Ok (RSI r) /\
      Analyst r = analyst_pick (RSI r) /\
      Risk r = risk (Change r).
Proof. exact batch_entry_fields. Qed.

Lemma batch_records_consistent_witness :
  exists d s r,
    get_stock_data provider_AB ["A"; "B"; "C"]%string "1mo" = Ok d /\
    In (s, r) d /\ Analyst r = analyst_pick (RSI r) /\ Risk r = risk (Change r).
Proof.
  destruct (get_stock_data provider_AB ["A"; "B"; "C"]%string "1mo")
    as [d | ] eqn:E; [ | vm_compute in E; discriminate].
  destruct d as [ | [s r] d]; [vm_compute in E; discriminate | ].
  destruct (batch_records_consistent _ _ _ _ E s r (or_introl eq_refl))
    as (_ & _ & _ & _ & _ & _ & _ & Ha & Hk).
  exists ((s, r) :: d), s, r. repeat split; auto. now left.
Defined.

(** ** Risk tier *)





(** * The market overview *)

Lemma index_info_total (data : DataFrame) :
  data <> [] -> exists info, index_info data = Ok info.
Proof.
  intro Hne. unfold index_info.
  destruct data as [ | b data]; [congruence | ].
  destruct (iloc_neg_nonempty (map Close (b :: data))) as (c & ->); [discriminate | ].
  cbn [map iloc0 rbind]. eauto.
Qed.

Lemma overview_loop_spec (history : string -> string -> Outcome)
    (items : list (string * string)) :
  forall overview_data,
    NoDup (map fst overview_data) ->
    exists ov,
      get_market_overview_loop (fetch_data history) items overview_data = Ok ov /\
      NoDup (map fst ov) /\
      (length ov <= length overview_data + length items)%nat /\
      (forall name,
         In name (map fst ov) <->
         In name (map fst overview_data) \/
         exists symbol data,
           In (symbol, name) items /\
           history symbol "1d"%string = Returned data /\ data <> []).
Proof.
  induction items as [ | [symbol name] rest IH]; intros overview_data Hnd;
    cbn [get_market_overview_loop].
  - exists overview_data. split; [reflexivity | ]. split; [exact Hnd | ].
    split; [cbn; lia | ].
    intro n. split; [now left | intros [H | (s & d & [] & _)]; exact H].
  - destruct (fetch_data history symbol "1d") as [data | ] eqn:Hf.
    + apply fetch_data_some in Hf. destruct Hf as [Hh Hne].
      destruct (index_info_total data Hne) as (info & ->). cbn [rbind].
      destruct (IH (dict_set String.eqb overview_data name info)) as (ov & Hrun & Hnd' & Hlen & Hkeys).
      { now apply dict_set_NoDup; [apply String.eqb_spec | ]. }
      exists ov. split; [exact Hrun | ]. split; [exact Hnd' | ]. split.
      * assert (H := dict_set_length String.eqb overview_data name info).
        cbn [length]. lia.
      * intro n. rewrite Hkeys, (dict_set_key_in String.eqb String.eqb_spec).
        split.
        -- intros [[-> | H] | (s & d & Hin & Hr)].
           ++ right. exists symbol, data. split; [now left | auto].
           ++ now left.
           ++ right. exists s, d. split; [now right | exact Hr].
        -- intros [H | (s & d & [Heq | Hin] & Hr)].
           ++ left. now right.
           ++ inversion Heq; subst. left. now left.
           ++ right. now exists s, d.
    + destruct (IH overview_data Hnd) as (ov & Hrun & Hnd' & Hlen & Hkeys).
      exists ov. split; [exact Hrun | ]. split; [exact Hnd' | ].
      split; [cbn [length]; lia | ].
      intro n. rewrite Hkeys. split.
      * intros [H | (s & d & Hin & Hr)]; [now left | ].
        right. exists s, d. split; [now right | exact Hr].
      * intros [H | (s & d & [Heq | Hin] & Hr)]; [now left | | ].
        -- injection Heq as <- <-. exfalso.
           destruct Hr as [Hr Hne].
           assert (fetch_data history symbol "1d" = Some d)
             by (apply fetch_data_some; auto).
           congruence.
        -- right. now exists s, d.
Qed.

Lemma overview_cards_total (cols : list nat) (items : list (string * IndexInfo)) :
  forall i,
    (i + length items <= length cols)%nat ->
    exists cards,
      overview_cards cols i items = Ok cards /\ length cards = length items.
Proof.
  induction items as [ | [name info] rest IH]; intros i Hlen; cbn [overview_cards].
  - now exists [].
  - cbn [length] in Hlen. unfold list_get.
    destruct (nth_error cols i) as [col | ] eqn:E.
    + cbn [rbind]. destruct (IH (S i)) as (cards & -> & Hc); [lia | ].
      cbn [rbind]. eexists. split; [reflexivity | ]. cbn [length]. now rewrite Hc.
    + apply nth_error_None in E. lia.
Qed.

(** X9: the market overview never raises; it has an entry for an index
    exactly when the fetch of its symbol returned a frame with a bar, so it
    has at most four entries, and placing card [i] in column [i] of the four
    columns is always in range. *)
Theorem market_overview_fits_columns :
  forall history : string -> string -> Outcome,
  exists overview cards,
    get_market_overview history = Ok overview /\
    NoDup (map fst overview) /\
    (length overview <= 4)%nat /\
    (forall name,
       In name (map fst overview) <->
       exists symbol data,
         In (symbol, name) indices /\
         history symbol "1d"%string = Returned data /\ data <> []) /\
    market_overview_section history = Ok cards /\
    length cards = length overview.
Proof.
  intro history.
  destruct (overview_loop_spec history indices [] (NoDup_nil _))
    as (ov & Hrun & Hnd & Hlen & Hkeys).
  destruct (overview_cards_total (seq 0 4) ov 0) as (cards & Hcards & Hc).
  { rewrite length_seq. cbn in Hlen. lia. }
  exists ov, cards. split; [exact Hrun | ]. split; [exact Hnd | ].
  split; [exact Hlen | ]. split.
  - intro name. rewrite Hkeys. split; [intros [[] | H]; exact H | now right].
  - unfold market_overview_section. fold (get_market_overview history) in Hrun.
    rewrite Hrun. cbn [rbind]. split; [exact Hcards | exact Hc].
Qed.

(** X10: the change shown for an index is measured from the open of the
    first bar of its frame to the latest close: with a first open [o > 0]
    and a latest close [c] it is [(c - o) / o * 100], positive, negative or
    zero as [c - o] is; on a frame of one bar it is the day change of
    [get_stock_data]. *)
Theorem index_change_from_first_open :
  (forall (b : Bar) (rest : DataFrame) (o c : Q),
     Open b = Fin o -> 0 < o ->
     iloc_neg (map Close (b :: rest)) 1 = Ok (Fin c) ->
     exists q,
       index_info (b :: rest) = Ok (mkInfo (Fin c) (Fin q)) /\
       q == (c - o) / o * 100 /\
       (0 < q <-> o < c) /\ (q < 0 <-> c < o) /\ (q == 0 <-> c == o)) /\
  (forall b : Bar,
     exists info,
       index_info [b] = Ok info /\
       day_change [b] = Ok (InfoChange info) /\
       current_price [b] = Ok (InfoPrice info)).
Proof.
  split.
  - intros b rest o c Ho Hpos Hc. unfold index_info. rewrite Hc.
    cbn [map iloc0 rbind]. rewrite Ho.
    destruct (fsub_fin c o) as (d & -> & Hd).
    destruct (fdiv_fin_pos d o Hpos) as (e & -> & He).
    destruct (fmul_fin_pos e 100) as (q & -> & Hq); [lra | ].
    exists q. split; [reflexivity | ].
    assert (Hi : 0 < / o) by (apply Qinv_lt_0_compat; exact Hpos).
    assert (Hv : q == (c - o) * / o * 100).
    { rewrite Hq, He, Hd. unfold Qdiv. reflexivity. }
    split; [rewrite Hv; unfold Qdiv; reflexivity | ].
    rewrite Hv. repeat split; intro; nra.
  - intro b. unfold index_info, day_change, current_price.
    assert (H := iloc_neg_last [] (Close b)). cbn [app] in H.
    assert (H' := iloc_neg_last [] (Open b)). cbn [app] in H'.
    cbn [map]. rewrite H, H'. cbn [iloc0 rbind].
    eexists. split; [reflexivity | ]. cbn. split; reflexivity.
Qed.

Lemma index_change_from_first_open_witness :
  exists q,
    index_info six_bars = Ok (mkInfo (Fin 15) (Fin q)) /\ q == (15 - 9) / 9 * 100.
Proof.
  destruct index_change_from_first_open as [H _].
  destruct (H (bar 9 10)
              [bar 10 11; bar 11 12; bar 12 13; bar 13 14; bar 14 15] 9 15)
    as (q & H1 & H2 & _).
  - reflexivity.
  - reflexivity.
  - reflexivity.
  - exists q. split; [exact H1 | exact H2].
Defined.

(** * Charts *)

(** X11: [plot_chart] never raises; it gives no figure exactly when it is
    handed no frame or an empty one; otherwise the figure traces the closes
    of the frame under the given title, and with a finite first close [a]
    and latest close [c] the line is green exactly when [a <= c]. *)
Theorem plot_chart_figure :
  forall (theme ticker : string) (data : option DataFrame) (title : string),
  exists res,
    plot_chart theme ticker data title = Ok res /\
    (res = None <-> data = None \/ data = Some []) /\
    (forall fig, res = Some fig ->
       exists frame,
         data = Some frame /\ trace_y fig = map Close frame /\
         fig_title fig = title /\
         forall a c,
           iloc0 (map Close frame) = Ok (Fin a) ->
           iloc_neg (map Close frame) 1 = Ok (Fin c) ->
           (line_color fig = "#32CD32"%string <-> a <= c) /\
           (line_color fig = "#FF4500"%string <-> c < a)).
Proof.
  intros theme ticker data title. unfold plot_chart.
  destruct data as [[ | b frame] | ].
  - exists None. split; [reflexivity | ]. split; [split; auto | discriminate].
  - cbn [empty].
    destruct (iloc_neg_nonempty (map Close (b :: frame))) as (c0 & Hc0); [discriminate | ].
    rewrite Hc0. cbn [map iloc0 rbind].
    eexists. split; [reflexivity | ]. split.
    + split; [discriminate | intros [H | H]; discriminate].
    + intros fig Hfig. inversion Hfig; subst fig. clear Hfig.
      exists (b :: frame). split; [reflexivity | ].
      cbn [trace_y fig_title line_color].
      split; [reflexivity | ]. split; [reflexivity | ].
      intros a c Ha Hc. cbn [map iloc0] in Ha. inversion Ha as [Ha'].
      rewrite Hc0 in Hc.
      apply Ok_inj in Hc. subst c0. unfold fge. rewrite Ha'.
      destruct (fle (Fin a) (Fin c)) eqn:E.
      * apply fle_fin in E. split.
        -- split; [intros _; exact E | reflexivity].
        -- split; [discriminate | intro; lra].
      * assert (Hlt : c < a).
        { destruct (Qlt_le_dec c a) as [H | H]; [exact H | ].
          apply fle_fin in H. congruence. }
        split.
        -- split; [discriminate | intro; lra].
        -- split; [intros _; exact Hlt | reflexivity].
  - exists None. split; [reflexivity | ]. split; [split; auto | discriminate].
Qed.

(** X12: every record of the mapping of a batch gets a chart: on its frame
    [plot_chart] returns a figure with at least one point, so the page's
    fallback for a missing chart is never taken for such a record. *)
Theorem batch_records_have_charts :
  forall (history : string -> string -> Outcome) (stock_list : list string)
         (period : string) (d : StockData),
    get_stock_data history stock_list period = Ok d ->
    forall s r, In (s, r) d ->
    forall theme title,
    exists fig,
      plot_chart theme s (Some (Data r)) title = Ok (Some fig) /\
      trace_y fig = map Close (Data r) /\
      (1 <= length (trace_y fig))%nat.
Proof.
  intros history stock_list period d H s r Hin theme title.
  assert (Hne : Data r <> []).
  { destruct (loop_pure_keys history period stock_list [] d (NoDup_nil _) H) as [Hnd _].
    apply (In_dict_get String.eqb String.eqb_spec d s r Hnd) in Hin.
    destruct (get_stock_data_spec history period stock_list) as (d' & Hd' & Hget).
    rewrite H in Hd'. apply Ok_inj in Hd'. subst d'.
    fold (stock_get d s) in Hin. rewrite Hget in Hin.
    destruct (existsb (String.eqb s) stock_list); [ | discriminate].
    unfold expected in Hin.
    destruct (fetch_data history s period) as [data | ] eqn:Hf; [ | discriminate].
    apply fetch_data_some in Hf. destruct Hf as [_ Hne].
    destruct (stock_record data) as [r' | ] eqn:Hr; [ | discriminate].
    inversion Hin; subst r'.
    destruct (stock_record_fields data r Hr) as (_ & _ & _ & _ & _ & _ & Hd).
    congruence. }
  unfold plot_chart. destruct (Data r) as [ | b frame] eqn:E; [congruence | ].
  cbn [empty].
  destruct (iloc_neg_nonempty (map Close (b :: frame))) as (c0 & ->); [discriminate | ].
  cbn [map iloc0 rbind]. eexists. split; [reflexivity | ].
  cbn. split; [reflexivity | lia].
Qed.

Lemma batch_records_have_charts_witness :
  exists d s r fig,
    get_stock_data provider_AB ["A"; "B"; "C"]%string "1mo" = Ok d /\
    In (s, r) d /\
    plot_chart "Light" s (Some (Data r)) "30 Days" = Ok (Some fig).
Proof.
  destruct (get_stock_data provider_AB ["A"; "B"; "C"]%string "1mo")
    as [d | ] eqn:E; [ | vm_compute in E; discriminate].
  destruct d as [ | [s r] d]; [vm_compute in E; discriminate | ].
  destruct (batch_records_have_charts _ _ _ _ E s r (or_introl eq_refl)
              "Light"%string "30 Days"%string) as (fig & Hfig & _).
  exists ((s, r) :: d), s, r, fig. split; [reflexivity | ].
  split; [now left | exact Hfig].
Defined.

(** * Further properties of the ranker *)

Lemma primary_is_primary (x : Obj) : primary x = is_primary (snd x).
Proof. reflexivity. Qed.

Lemma record_eq_distinct (a b : Obj) :
  fst a <> fst b ->
  record_eq a b =
  if scalars_equal (snd a) (snd b) then Raise ValueError else Ok false.
Proof.
  intro Hid. unfold record_eq, scalars_equal, frame_eq.
  destruct (Nat.eqb_spec (fst a) (fst b)); [contradiction | ].
  destruct (feq (Price (snd a)) (Price (snd b))); cbn; [ | reflexivity].
  destruct (feq (Change (snd a)) (Change (snd b))); cbn; [ | reflexivity].
  destruct (feq (Momentum (snd a)) (Momentum (snd b))); cbn; [ | reflexivity].
  destruct (feq (RSI (snd a)) (RSI (snd b))); cbn; [ | reflexivity].
  destruct (label_eqb (Analyst (snd a)) (Analyst (snd b))); cbn; [ | reflexivity].
  destruct (risk_eqb (Risk (snd a)) (Risk (snd b))); reflexivity.
Qed.

Lemma record_eq_same (a : Obj) : record_eq a a = Ok true.
Proof. unfold record_eq. now rewrite Nat.eqb_refl. Qed.

Lemma filterM_total {A} (p : A -> result bool) (q : A -> bool) (l : list A) :
  (forall x, In x l -> p x = Ok (q x)) -> filterM p l = Ok (filter q l).
Proof.
  induction l as [ | a l IH]; intro H; cbn [filterM filter]; [reflexivity | ].
  rewrite (H a (or_introl eq_refl)). cbn [rbind].
  rewrite IH by (intros x Hx; apply H; now right). reflexivity.
Qed.

Lemma filterM_raises {A} (p : A -> result bool) (e : exn) (l : list A) :
  (forall x, In x l -> (exists b, p x = Ok b) \/ p x = Raise e) ->
  (exists x, In x l /\ p x = Raise e) ->
  filterM p l = Raise e.
Proof.
  induction l as [ | a l IH]; intros Hall (x & Hin & Hx); [destruct Hin | ].
  cbn [filterM].
  destruct (Hall a (or_introl eq_refl)) as [(b & Hb) | Hr].
  - rewrite Hb. cbn [rbind].
    destruct Hin as [-> | Hin]; [congruence | ].
    rewrite IH; [reflexivity | | now exists x].
    intros z Hz. apply Hall. now right.
  - now rewrite Hr.
Qed.

Lemma firstn_app_fill {A} (n : nat) (l1 l2 : list A) :
  firstn n (l1 ++ firstn (n - length l1) l2) = firstn n (l1 ++ l2).
Proof.
  rewrite !firstn_app, firstn_firstn, Nat.min_id. reflexivity.
Qed.

(** What the ranker returns, whenever it returns: the primary tier in
    sorted order, then the other records of positive day change in sorted
    order, cut to three. *)
Lemma get_top_3_picks_objs_formula (d : StockData) (picks : list Obj) :
  get_top_3_picks_objs d = Ok picks ->
  picks =
  firstn 3 (filter primary (sorted_desc (values_list d)) ++
            filter (fun x => positive x && negb (primary x))
              (sorted_desc (values_list d))).
Proof.
  unfold get_top_3_picks_objs.
  set (sorted_data := sorted_desc (values_list d)).
  assert (Hnd : NoDup (map fst sorted_data)) by apply sorted_values_NoDup.
  set (P := filter primary sorted_data) in *.
  assert (Hlen : length (firstn 3 P) = Nat.min 3 (length P)) by apply length_firstn.
  destruct (Nat.ltb_spec (length (firstn 3 P)) 3) as [Hlt | Hge].
  - assert (HP : firstn 3 P = P) by (apply firstn_all2; lia).
    rewrite HP.
    destruct (filterM (backfill P) sorted_data) as [cand | ] eqn:Ef;
      cbn [rbind]; [ | discriminate].
    intro H; apply Ok_inj in H; subst picks.
    assert (Hc : cand = filter (fun x => positive x && negb (primary x)) sorted_data).
    { apply (filterM_filter _ _ _ _ Ef). intros x b Hin Hb.
      eapply backfill_value; eauto. }
    rewrite Hc. apply firstn_app_fill.
  - intro H; apply Ok_inj in H; subst picks.
    rewrite firstn_firstn, Nat.min_id, firstn_app.
    assert (Hz : (3 - length P = 0)%nat) by lia.
    rewrite Hz. cbn [firstn]. now rewrite app_nil_r.
Qed.

Lemma NoDup_firstn {A} (n : nat) (l : list A) : NoDup l -> NoDup (firstn n l).
Proof.
  revert l. induction n as [ | n IH]; intros [ | a l] H; cbn [firstn];
    try constructor.
  - inversion H as [ | ? ? Hnot Hnd]; subst. intro Hin. apply Hnot.
    now apply In_firstn in Hin.
  - inversion H; subst. now apply IH.
Qed.

Lemma NoDup_filter_app {A B} (f : A -> B) (p q : A -> bool) (l : list A) :
  NoDup (map f l) ->
  (forall x, p x = true -> q x = true -> False) ->
  NoDup (map f (filter p l ++ filter q l)).
Proof.
  intros Hnd Hdisj.
  assert (Hsub : forall g x, In x (map f (filter g l)) -> In x (map f l)).
  { intros g x Hin. apply in_map_iff in Hin. destruct Hin as (y & <- & Hy).
    apply filter_In in Hy. apply in_map. tauto. }
  induction l as [ | a l IH]; [constructor | ].
  cbn [map] in Hnd. inversion Hnd as [ | ? ? Hnot Hnd']; subst.
  assert (Hrec : NoDup (map f (filter p l ++ filter q l))).
  { apply IH; auto. intros g x Hin. apply in_map_iff in Hin.
    destruct Hin as (y & <- & Hy). apply filter_In in Hy. apply in_map. tauto. }
  assert (Hfresh : ~ In (f a) (map f (filter p l ++ filter q l))).
  { rewrite map_app, in_app_iff. intros [Hin | Hin]; apply Hnot;
      apply in_map_iff in Hin; destruct Hin as (y & Hy & Hin);
      apply filter_In in Hin; rewrite <- Hy; apply in_map; tauto. }
  cbn [filter]. destruct (p a) eqn:Ep, (q a) eqn:Eq.
  - exfalso. eauto.
  - cbn [app map]. now constructor.
  - rewrite map_app. cbn [map]. apply NoDup_Add with (a := f a)
      (l := map f (filter p l) ++ map f (filter q l)).
    + apply Add_app.
    + rewrite <- map_app. split; assumption.
  - exact Hrec.
Qed.

(** X13: the picks are distinct entries of the dictionary: no record is
    picked twice, every pick is a value of the dictionary with a positive
    day change, primary picks come first, and there are at most three. *)
Theorem picks_are_distinct_entries :
  forall (d : StockData) (picks : list Obj),
    get_top_3_picks_objs d = Ok picks ->
    NoDup (map fst picks) /\
    (length picks <= 3)%nat /\
    (forall x, In x picks -> In x (values_list d) /\ In (snd x) (map snd d)) /\
    exists top fill,
      picks = top ++ fill /\
      Forall (fun x => primary x = true) top /\
      Forall (fun x => primary x = false /\ positive x = true) fill.
Proof.
  intros d picks H.
  apply get_top_3_picks_objs_formula in H.
  set (sorted_data := sorted_desc (values_list d)) in *.
  set (P := filter primary sorted_data) in *.
  set (NP := filter (fun x => positive x && negb (primary x)) sorted_data) in *.
  assert (Hnd : NoDup (map fst (P ++ NP))).
  { apply NoDup_filter_app; [apply sorted_values_NoDup | ].
    intros x Hp Hq. rewrite Hp in Hq. apply andb_true_iff in Hq.
    destruct Hq; discriminate. }
  subst picks. split; [ | split; [ | split]].
  - rewrite <- firstn_map. now apply NoDup_firstn.
  - rewrite length_firstn. lia.
  - intros x Hin. apply In_firstn in Hin. apply in_app_or in Hin.
    assert (Hs : In x sorted_data)
      by (destruct Hin as [Hin | Hin]; apply filter_In in Hin; tauto).
    apply (Permutation_in _ (sorted_desc_perm (values_list d))) in Hs.
    split; [exact Hs | ].
    destruct (In_values_list d x Hs) as (s & Hs').
    apply in_map_iff. now exists (s, snd x).
  - exists (firstn 3 P), (firstn (3 - length P) NP). split; [apply firstn_app | ].
    split; apply Forall_forall; intros x Hin; apply In_firstn in Hin;
      apply filter_In in Hin; destruct Hin as [_ Hx].
    + exact Hx.
    + apply andb_true_iff in Hx. destruct Hx as [Hpos Hnp].
      apply negb_true_iff in Hnp. now split.
Qed.

Lemma picks_are_distinct_entries_witness :
  exists picks,
    get_top_3_picks_objs (batch provider_AB ["A"; "B"]%string) = Ok picks /\
    NoDup (map fst picks) /\ (length picks <= 3)%nat.
Proof.
  destruct (get_top_3_picks_objs (batch provider_AB ["A"; "B"]%string))
    as [picks | ] eqn:E; [ | vm_compute in E; discriminate].
  destruct (picks_are_distinct_entries _ picks E) as (H1 & H2 & _).
  exists picks. repeat split; assumption.
Defined.

(** ** When the ranker returns and when it raises *)

Lemma feq_sym (a b : fval) : feq a b = feq b a.
Proof.
  destruct a, b; funfold; cbn; qcases; cbn; try reflexivity;
    try (exfalso; lra).
  all: destruct (Qeqb_spec q q0), (Qeqb_spec q0 q); try reflexivity; exfalso; lra.
Qed.

Lemma scalars_equal_sym (a b : StockRecord) :
  scalars_equal a b = scalars_equal b a.
Proof.
  unfold scalars_equal.
  rewrite (feq_sym (Price a)), (feq_sym (Change a)), (feq_sym (Momentum a)),
    (feq_sym (RSI a)).
  destruct (Analyst a), (Analyst b), (Risk a), (Risk b); reflexivity.
Qed.

Lemma contains_no_twin (top_picks : list Obj) (x : Obj) :
  (forall item, In item top_picks -> fst item <> fst x ->
     scalars_equal (snd item) (snd x) = false) ->
  (forall item, In item top_picks -> fst item = fst x -> item = x) ->
  In x top_picks -> contains top_picks x = Ok true.
Proof.
  induction top_picks as [ | item rest IH]; intros Htw Hid Hin; [destruct Hin | ].
  cbn [contains].
  destruct (Nat.eq_dec (fst item) (fst x)) as [Heq | Hne].
  - rewrite (Hid item (or_introl eq_refl) Heq), record_eq_same. reflexivity.
  - rewrite (record_eq_distinct item x Hne),
      (Htw item (or_introl eq_refl) Hne). cbn [rbind].
    destruct Hin as [-> | Hin]; [congruence | ].
    apply IH; auto.
    + intros i Hi. apply Htw. now right.
    + intros i Hi. apply Hid. now right.
Qed.

Lemma count_primary_sorted (d : StockData) :
  length (filter primary (sorted_desc (values_list d))) = count_primary d.
Proof.
  rewrite (filter_length_perm primary _ _ (sorted_desc_perm (values_list d))).
  unfold values_list, count_primary.
  apply (filter_combine_length is_primary). apply length_seq.
Qed.

(** X14: the ranker returns when no two distinct records of the primary
    tier agree on every number and label, and also whenever the primary tier
    has three or more records (no membership test is run then). *)
Theorem get_top_3_picks_returns :
  forall d : StockData,
    (forall a b,
       In a (values_list d) -> In b (values_list d) -> fst a <> fst b ->
       primary a = true -> primary b = true ->
       scalars_equal (snd a) (snd b) = false) \/
    (3 <= count_primary d)%nat ->
    exists picks,
      get_top_3_picks d = Ok picks /\
      length picks = Nat.min 3 (count_positive d).
Proof.
  intros d Hcase.
  assert (Hobjs : exists objs, get_top_3_picks_objs d = Ok objs).
  { unfold get_top_3_picks_objs.
    set (sorted_data := sorted_desc (values_list d)).
    assert (Hnd : NoDup (map fst sorted_data)) by apply sorted_values_NoDup.
    assert (Hcp := count_primary_sorted d). fold sorted_data in Hcp.
    set (P := filter primary sorted_data) in *.
    assert (Hlen : length (firstn 3 P) = Nat.min 3 (length P)) by apply length_firstn.
    destruct (Nat.ltb_spec (length (firstn 3 P)) 3) as [Hlt | Hge]; [ | eauto].
    destruct Hcase as [Htw | Hthree]; [ | lia].
    assert (HP : firstn 3 P = P) by (apply firstn_all2; lia).
    rewrite HP.
    rewrite (filterM_total (backfill P)
               (fun x => positive x && negb (primary x)) sorted_data).
    - cbn [rbind]. eauto.
    - intros x Hin. unfold backfill. fold (positive x).
      destruct (positive x) eqn:Hpos; cbn [andb]; [ | reflexivity].
      destruct (primary x) eqn:Hx; cbn [negb].
      + rewrite contains_no_twin; [reflexivity | | | ].
        * intros item Hitem Hne. apply filter_In in Hitem. destruct Hitem as [Hi Hp].
          apply Htw; auto;
            apply (Permutation_in _ (sorted_desc_perm (values_list d))); assumption.
        * intros item Hitem Heq. apply filter_In in Hitem.
          eapply obj_unique; eauto. tauto.
        * apply filter_In. auto.
      + rewrite contains_nonprimary; auto.
        intros item Hitem. apply filter_In in Hitem. destruct Hitem as [Hi Hp].
        split; [exact Hp | ]. intro Heq.
        assert (item = x) by (eapply obj_unique; eauto). subst. congruence. }
  destruct Hobjs as (objs & Hobjs).
  exists (map snd objs). unfold get_top_3_picks. rewrite Hobjs. cbn [rbind].
  split; [reflexivity | ]. rewrite length_map.
  now apply get_top_3_picks_objs_length.
Qed.

Lemma get_top_3_picks_returns_witness :
  exists picks,
    get_top_3_picks (batch provider_AB ["A"; "B"]%string) = Ok picks /\
    length picks = 2%nat.
Proof.
  destruct (get_top_3_picks_returns (batch provider_AB ["A"; "B"]%string))
    as (picks & H & Hlen).
  - left. vm_compute.
    intros a b [<- | [<- | []]] [<- | [<- | []]] Hne; cbn in *;
      try congruence; try discriminate; reflexivity.
  - exists picks. split; [exact H | exact Hlen].
Defined.

(** X15: when the primary tier consists of exactly two records that agree
    on every number and label, the ranker raises ValueError: backfill runs,
    and its membership test for the second compares the two frames. *)
Theorem primary_twins_raise :
  forall (d : StockData) (a b : Obj),
    In a (values_list d) -> In b (values_list d) -> fst a <> fst b ->
    primary a = true -> primary b = true ->
    scalars_equal (snd a) (snd b) = true ->
    count_primary d = 2%nat ->
    get_top_3_picks d = Raise ValueError.
Proof.
  intros d a b Ha Hb Hne Hpa Hpb Htw Hcount.
  unfold get_top_3_picks, get_top_3_picks_objs.
  set (sorted_data := sorted_desc (values_list d)).
  assert (Hnd : NoDup (map fst sorted_data)) by apply sorted_values_NoDup.
  assert (Hcp := count_primary_sorted d). fold sorted_data in Hcp.
  assert (Hperm : forall x, In x (values_list d) -> In x sorted_data).
  { intros x Hx.
    apply (Permutation_in _ (Permutation_sym (sorted_desc_perm (values_list d)))).
    exact Hx. }
  set (P := filter primary sorted_data) in *.
  assert (HaP : In a P) by (apply filter_In; auto).
  assert (HbP : In b P) by (apply filter_In; auto).
  destruct P as [ | x [ | y [ | z P']]] eqn:EP; cbn [length] in Hcp; try lia.
  cbn [firstn length Nat.ltb Nat.leb].
  assert (Hxy : fst x <> fst y /\ scalars_equal (snd x) (snd y) = true).
  { destruct HaP as [<- | [<- | []]], HbP as [<- | [<- | []]];
      try congruence.
    - now split.
    - split; [congruence | now rewrite scalars_equal_sym]. }
  destruct Hxy as [Hxy Hsc].
  assert (Hin : forall w, In w [x; y] -> In w sorted_data /\ primary w = true).
  { intros w Hw. rewrite <- EP in Hw. now apply filter_In in Hw. }
  rewrite (filterM_raises (backfill [x; y]) ValueError sorted_data);
    [reflexivity | | ].
  - intros w Hw. unfold backfill. fold (positive w).
    destruct (positive w) eqn:Hpos; [ | left; eauto].
    destruct (primary w) eqn:Hw'.
    + assert (HwP : In w [x; y]).
      { rewrite <- EP. apply filter_In. auto. }
      destruct HwP as [<- | [<- | []]].
      * left. cbn [contains]. rewrite record_eq_same. cbn [rbind]. eauto.
      * right. cbn [contains]. rewrite (record_eq_distinct x y Hxy), Hsc.
        reflexivity.
    + left. rewrite contains_nonprimary; auto; [cbn [rbind]; eauto | ].
      intros item Hitem. destruct (Hin item Hitem) as [Hi Hp].
      split; [exact Hp | ]. intro Heq.
      assert (item = w) by (eapply obj_unique; eauto). subst. congruence.
  - exists y. destruct (Hin y (or_intror (or_introl eq_refl))) as [Hy Hpy].
    split; [exact Hy | ]. unfold backfill.
    assert (Hpos : fgt (Change (snd y)) (Fin 0) = true)
      by (apply (primary_positive y Hpy)).
    rewrite Hpos. cbn [contains]. rewrite (record_eq_distinct x y Hxy), Hsc.
    reflexivity.
Qed.

Lemma primary_twins_raise_witness :
  get_top_3_picks (batch provider_twins ["A"; "B"; "E"]%string) = Raise ValueError.
Proof.
  destruct (values_list (batch provider_twins ["A"; "B"; "E"]%string))
    as [ | a [ | b0 [ | e rest]]] eqn:E; try (vm_compute in E; discriminate).
  apply (primary_twins_raise _ a e).
  - rewrite E. now left.
  - rewrite E. right. right. now left.
  - vm_compute in E. inversion E; subst. discriminate.
  - vm_compute in E. inversion E; subst. reflexivity.
  - vm_compute in E. inversion E; subst. reflexivity.
  - vm_compute in E. inversion E; subst. reflexivity.
  - reflexivity.
Defined.

(** ** The order of the picks *)

Lemma flt_asym (a b : fval) : flt a b = true -> flt b a = false.
Proof.
  destruct a, b; funfold; cbn; qcases; cbn; intros; qcases;
    try discriminate; try reflexivity; try lra.
Qed.

Lemma tuple_lt_asym (a b : fval * fval) :
  tuple_lt a b = true -> tuple_lt b a = false.
Proof.
  unfold tuple_lt. rewrite (feq_sym (fst b) (fst a)).
  destruct (feq (fst a) (fst b)); apply flt_asym.
Qed.

Lemma tuple_lt_fin (a1 a2 b1 b2 : Q) :
  tuple_lt (Fin a1, Fin a2) (Fin b1, Fin b2) = true <->
  a1 < b1 \/ (a1 == b1 /\ a2 < b2).
Proof.
  unfold tuple_lt. cbn [fst snd].
  destruct (feq (Fin a1) (Fin b1)) eqn:E.
  - apply feq_fin in E. rewrite flt_fin. split; [intro; now right | ].
    intros [H | [_ H]]; [lra | exact H].
  - rewrite flt_fin. split; [intro; now left | ].
    intros [H | [H _]]; [exact H | ].
    apply feq_fin in H. congruence.
Qed.

Lemma key_ge_trans (x y z : Obj) :
  finite (Change (snd x)) -> finite (Momentum (snd x)) ->
  finite (Change (snd y)) -> finite (Momentum (snd y)) ->
  finite (Change (snd z)) -> finite (Momentum (snd z)) ->
  key_ge x y -> key_ge y z -> key_ge x z.
Proof.
  unfold key_ge, sort_key.
  intros (x1 & ->) (x2 & ->) (y1 & ->) (y2 & ->) (z1 & ->) (z2 & ->) Hxy Hyz.
  destruct (tuple_lt (Fin x1, Fin x2) (Fin z1, Fin z2)) eqn:E; [ | reflexivity].
  exfalso. apply tuple_lt_fin in E.
  assert (Hxy' : ~ (x1 < y1 \/ (x1 == y1 /\ x2 < y2))).
  { intro H. apply tuple_lt_fin in H. congruence. }
  assert (Hyz' : ~ (y1 < z1 \/ (y1 == z1 /\ y2 < z2))).
  { intro H. apply tuple_lt_fin in H. congruence. }
  destruct (Qlt_le_dec x1 y1) as [H1 | H1]; [tauto | ].
  destruct (Qlt_le_dec y1 z1) as [H2 | H2]; [tauto | ].
  destruct (Qlt_le_dec x2 y2) as [H3 | H3];
    destruct (Qlt_le_dec y2 z2) as [H4 | H4];
    destruct (Qeq_dec x1 y1) as [H5 | H5];
    destruct (Qeq_dec y1 z1) as [H6 | H6];
    try tauto; destruct E as [E | [E1 E2]]; lra.
Qed.

Lemma insert_desc_strongly (x : Obj) (s : list Obj) :
  finite_keys (x :: s) ->
  StronglySorted key_ge s -> StronglySorted key_ge (insert_desc x s).
Proof.
  intros Hfin Hs. induction Hs as [ | y s Hs IH Hy]; cbn [insert_desc].
  - constructor; constructor.
  - inversion Hfin as [ | ? ? [Hx1 Hx2] Hfin']; subst.
    inversion Hfin' as [ | ? ? [Hy1 Hy2] Hfin'']; subst.
    destruct (tuple_lt (sort_key x) (sort_key y)) eqn:E.
    + constructor.
      * apply IH. now constructor.
      * apply Forall_forall. intros w Hw.
        apply (Permutation_in _ (insert_desc_perm x s)) in Hw.
        destruct Hw as [<- | Hw].
        -- now apply tuple_lt_asym.
        -- rewrite Forall_forall in Hy. now apply Hy.
    + constructor; [now constructor | ].
      constructor; [exact E | ].
      apply Forall_forall. intros w Hw.
      rewrite Forall_forall in Hy, Hfin''.
      destruct (Hfin'' w Hw) as [Hw1 Hw2].
      apply (key_ge_trans x y w); auto.
Qed.

Lemma sorted_desc_strongly (l : list Obj) :
  finite_keys l -> StronglySorted key_ge (sorted_desc l).
Proof.
  induction l as [ | x l IH]; intro Hfin; cbn [sorted_desc fold_right].
  - constructor.
  - inversion Hfin as [ | ? ? Hx Hfin']; subst.
    apply insert_desc_strongly; [ | now apply IH].
    constructor; [exact Hx | ].
    apply Forall_forall. intros w Hw.
    apply (Permutation_in _ (sorted_desc_perm l)) in Hw.
    rewrite Forall_forall in Hfin'. now apply Hfin'.
Qed.

Section SortedLists.
Context {A : Type}.
Variable R : A -> A -> Prop.

Lemma StronglySorted_filter (f : A -> bool) (l : list A) :
  StronglySorted R l -> StronglySorted R (filter f l).
Proof.
  induction 1 as [ | a l Hs IH Ha]; cbn [filter]; [constructor | ].
  destruct (f a); [ | exact IH].
  constructor; [exact IH | ].
  rewrite Forall_forall in *. intros x Hx. apply filter_In in Hx. apply Ha. tauto.
Qed.

Lemma StronglySorted_firstn (n : nat) (l : list A) :
  StronglySorted R l -> StronglySorted R (firstn n l).
Proof.
  intro H. revert n. induction H as [ | a l Hs IH Ha]; intros [ | n];
    cbn [firstn]; try constructor.
  - apply IH.
  - rewrite Forall_forall in *. intros x Hx. apply Ha. now apply In_firstn in Hx.
Qed.

Lemma StronglySorted_split (n : nat) (l : list A) :
  StronglySorted R l ->
  forall a b, In a (firstn n l) -> In b (skipn n l) -> R a b.
Proof.
  intro H. revert n. induction H as [ | x l Hs IH Hx]; intros [ | n] a b Ha Hb;
    cbn [firstn skipn] in *; try contradiction.
  destruct Ha as [<- | Ha].
  - rewrite Forall_forall in Hx. apply Hx.
    rewrite <- (firstn_skipn n l). apply in_or_app. now right.
  - now apply (IH n).
Qed.

Lemma In_firstn_or_skipn (n : nat) (l : list A) (x : A) :
  In x l -> In x (firstn n l) \/ In x (skipn n l).
Proof.
  intro H. rewrite <- (firstn_skipn n l) in H. now apply in_app_or.
Qed.

Lemma skipn_In_length (n : nat) (l : list A) (x : A) :
  In x (skipn n l) -> (n < length l)%nat.
Proof.
  intro H. destruct (Nat.lt_ge_cases n (length l)) as [Hlt | Hge]; [exact Hlt | ].
  rewrite skipn_all2 in H by lia. destruct H.
Qed.
End SortedLists.

(** X16: on a dictionary whose day changes and momenta are finite, the
    picks are ranked: within the primary picks and within the backfilled
    picks an earlier pick is never below a later one in (day change,
    momentum), and a record left out of its tier's picks is never above a
    pick of that tier; a record is left out only when three picks are
    returned. *)
Theorem picks_are_ranked :
  forall (d : StockData) (picks : list Obj),
    finite_keys (values_list d) ->
    get_top_3_picks_objs d = Ok picks ->
    exists top fill,
      picks = top ++ fill /\
      Forall (fun x => primary x = true) top /\
      Forall (fun x => primary x = false) fill /\
      StronglySorted key_ge top /\
      StronglySorted key_ge fill /\
      (forall x, In x (values_list d) -> primary x = true -> ~ In x top ->
         length top = 3%nat /\ Forall (fun t => key_ge t x) top) /\
      (forall x, In x (values_list d) -> positive x = true -> primary x = false ->
         ~ In x fill ->
         length picks = 3%nat /\ Forall (fun t => key_ge t x) fill).
Proof.
  intros d picks Hfin H.
  apply get_top_3_picks_objs_formula in H.
  assert (Hss : StronglySorted key_ge (sorted_desc (values_list d)))
    by now apply sorted_desc_strongly.
  assert (Hperm : forall x, In x (values_list d) -> In x (sorted_desc (values_list d))).
  { intros x Hx.
    apply (Permutation_in _ (Permutation_sym (sorted_desc_perm (values_list d)))).
    exact Hx. }
  set (sorted_data := sorted_desc (values_list d)) in *.
  set (P := filter primary sorted_data) in *.
  set (NP := filter (fun x => positive x && negb (primary x)) sorted_data) in *.
  assert (HssP : StronglySorted key_ge P) by now apply StronglySorted_filter.
  assert (HssN : StronglySorted key_ge NP) by now apply StronglySorted_filter.
  exists (firstn 3 P), (firstn (3 - length P) NP).
  split; [subst picks; apply firstn_app | ].
  split; [ | split; [ | split; [ | split; [ | split]]]].
  - apply Forall_forall. intros x Hx. apply In_firstn in Hx.
    apply filter_In in Hx. tauto.
  - apply Forall_forall. intros x Hx. apply In_firstn in Hx.
    apply filter_In in Hx. destruct Hx as [_ Hx].
    apply andb_true_iff in Hx. destruct Hx as [_ Hx]. now apply negb_true_iff.
  - now apply StronglySorted_firstn.
  - now apply StronglySorted_firstn.
  - intros x Hx Hp Hout.
    assert (HxP : In x P) by (apply filter_In; auto).
    destruct (In_firstn_or_skipn 3 P x HxP) as [Hin | Hin]; [contradiction | ].
    assert (Hl := skipn_In_length 3 P x Hin).
    split; [rewrite length_firstn; lia | ].
    apply Forall_forall. intros t Ht.
    now apply (StronglySorted_split key_ge 3 P HssP).
  - intros x Hx Hpos Hp Hout.
    assert (HxN : In x NP).
    { apply filter_In. split; [auto | ]. now rewrite Hpos, Hp. }
    destruct (In_firstn_or_skipn (3 - length P) NP x HxN) as [Hin | Hin];
      [contradiction | ].
    assert (Hl := skipn_In_length (3 - length P) NP x Hin).
    split.
    + subst picks. rewrite length_firstn, length_app. lia.
    + apply Forall_forall. intros t Ht.
      now apply (StronglySorted_split key_ge (3 - length P) NP HssN).
Qed.

Lemma picks_are_ranked_witness :
  exists picks top fill,
    get_top_3_picks_objs (batch provider_AB ["A"; "B"]%string) = Ok picks /\
    picks = top ++ fill /\ StronglySorted key_ge top.
Proof.
  destruct (get_top_3_picks_objs (batch provider_AB ["A"; "B"]%string))
    as [picks | ] eqn:E; [ | vm_compute in E; discriminate].
  destruct (picks_are_ranked (batch provider_AB ["A"; "B"]%string) picks)
    as (top & fill & H1 & _ & _ & H2 & _).
  - vm_compute. repeat constructor; eexists; reflexivity.
  - exact E.
  - exists picks, top, fill. repeat split; assumption.
Defined.

(** X17: a symbol whose frame has fewer than five bars has momentum 0 and
    so never passes the primary test of the ranker: it can be picked only by
    backfill. *)
Theorem short_frames_are_backfill_only :
  forall (history : string -> string -> Outcome) (stock_list : list string)
         (period : string) (d : StockData),
    get_stock_data history stock_list period = Ok d ->
    forall s r, In (s, r) d -> (length (Data r) < 5)%nat ->
      Momentum r = Fin 0 /\ is_primary r = false /\
      forall i, primary (i, r) = false.
Proof.
  intros history stock_list period d H s r Hin Hlen.
  destruct (batch_entry_fields _ _ _ _ H s r Hin)
    as (_ & _ & _ & _ & _ & Hm & _).
  unfold momentum in Hm.
  destruct (Nat.leb_spec 5 (length (Data r))); [lia | ].
  apply Ok_inj in Hm.
  assert (Hp : is_primary r = false).
  { unfold is_primary. rewrite <- Hm. apply andb_false_r. }
  split; [now symmetry | ]. split; [exact Hp | ].
  intro i. now rewrite primary_is_primary.
Qed.

Lemma short_frames_are_backfill_only_witness :
  exists d r,
    get_stock_data provider_AB ["B"]%string "1mo" = Ok d /\
    In ("B"%string, r) d /\ is_primary r = false.
Proof.
  destruct (get_stock_data provider_AB ["B"]%string "1mo") as [d | ] eqn:E;
    [ | vm_compute in E; discriminate].
  destruct d as [ | [s r] d]; [vm_compute in E; discriminate | ].
  assert (Hs : s = "B"%string) by (vm_compute in E; inversion E; reflexivity).
  subst s.
  destruct (short_frames_are_backfill_only _ _ _ _ E "B"%string r (or_introl eq_refl))
    as (_ & Hp & _).
  - vm_compute in E. inversion E; subst. cbn. lia.
  - exists ((("B"%string), r) :: d), r. split; [reflexivity | ].
    split; [now left | exact Hp].
Defined.

(** * The symbol of a pick *)

Lemma combine_map_snd {A B C} (f : B -> C) (l1 : list A) (l2 : list B) :
  combine l1 (map f l2) = map (fun p => (fst p, f (snd p))) (combine l1 l2).
Proof.
  revert l2. induction l1 as [ | a l1 IH]; intros [ | b l2]; cbn; auto.
  now rewrite IH.
Qed.

Lemma values_list_items (d : StockData) :
  values_list d = map (fun kv => (fst kv, snd (snd kv))) (items_list d).
Proof. unfold values_list, items_list. apply combine_map_snd. Qed.

Lemma items_list_NoDup (d : StockData) : NoDup (map fst (items_list d)).
Proof.
  unfold items_list. rewrite combine_map_fst by apply length_seq.
  apply seq_NoDup.
Qed.

Lemma filter_by_id {A} (l : list (nat * A)) (a : nat * A) :
  NoDup (map fst l) -> In a l ->
  filter (fun x => (fst x =? fst a)%nat) l = [a].
Proof.
  induction l as [ | x l IH]; intros Hnd Hin; [destruct Hin | ].
  cbn [map] in Hnd. inversion Hnd as [ | ? ? Hnot Hnd']; subst.
  cbn [filter]. destruct Hin as [-> | Hin].
  - rewrite Nat.eqb_refl. f_equal.
    apply filter_none. intros y Hy.
    apply Nat.eqb_neq. intro Heq. apply Hnot. rewrite <- Heq. now apply in_map.
  - destruct (Nat.eqb_spec (fst x) (fst a)) as [Heq | Hne]; [ | now apply IH].
    exfalso. apply Hnot. rewrite Heq. now apply in_map.
Qed.

(** X18: looking a pick's symbol up by comparing every value of the
    dictionary with it gives the symbol at the pick's own position when no
    other record agrees with the pick on every number and label (the list of
    matches is then never empty); when some other record does, the lookup
    raises ValueError, whether or not that record was picked. *)
Theorem symbol_of_pick :
  forall (d : StockData) (pick : Obj),
    In pick (values_list d) ->
    ((forall other, In other (values_list d) -> fst other <> fst pick ->
        scalars_equal (snd other) (snd pick) = false) ->
     exists sym,
       symbol_of d pick = Ok sym /\
       In (fst pick, (sym, snd pick)) (items_list d) /\
       In (sym, snd pick) d) /\
    ((exists other, In other (values_list d) /\ fst other <> fst pick /\
        scalars_equal (snd other) (snd pick) = true) ->
     symbol_of d pick = Raise ValueError).
Proof.
  intros d pick Hin. rewrite values_list_items in Hin.
  apply in_map_iff in Hin. destruct Hin as ([i [sym r]] & Hpick & Hkv).
  cbn [fst snd] in Hpick. subst pick. cbn [fst snd].
  split.
  - intro Htw. exists sym. unfold symbol_of.
    rewrite (filterM_total _ (fun kv => (fst kv =? i)%nat) (items_list d)).
    + cbn [rbind].
      assert (Hf := filter_by_id (items_list d) (i, (sym, r)) (items_list_NoDup d) Hkv).
      cbn [fst] in Hf. rewrite Hf.
      split; [reflexivity | ]. split; [exact Hkv | ].
      unfold items_list in Hkv. now apply in_combine_r in Hkv.
    + intros kv Hk.
      destruct (Nat.eqb_spec (fst kv) i) as [Heq | Hne].
      * unfold record_eq. cbn [fst]. now rewrite Heq, Nat.eqb_refl.
      * rewrite record_eq_distinct by exact Hne.
        assert (Hs : scalars_equal (snd (fst kv, snd (snd kv))) (snd (i, r)) = false).
        { apply (Htw (fst kv, snd (snd kv))); [ | exact Hne].
          rewrite values_list_items. apply in_map_iff. now exists kv. }
        now rewrite Hs.
  - intros (other & Ho & Hne & Hsc). unfold symbol_of.
    rewrite values_list_items in Ho. apply in_map_iff in Ho.
    destruct Ho as (kv & <- & Hk). cbn [fst snd] in Hne, Hsc.
    rewrite (filterM_raises _ ValueError (items_list d)); [reflexivity | | ].
    + intros kv' Hk'.
      destruct (Nat.eq_dec (fst kv') i) as [Heq | Hne'].
      * left. exists true. unfold record_eq. cbn [fst].
        now rewrite Heq, Nat.eqb_refl.
      * rewrite record_eq_distinct by exact Hne'.
        destruct (scalars_equal (snd (fst kv', snd (snd kv'))) (snd (i, r)));
          [right; reflexivity | left; exists false; reflexivity].
    + exists kv. split; [exact Hk | ].
      rewrite record_eq_distinct by exact Hne.
      change (snd (fst kv, snd (snd kv))) with (snd (snd kv)).
      change (snd (i, r)) with r. now rewrite Hsc.
Qed.

Lemma symbol_of_pick_witness :
  (exists pick,
     In pick (values_list (batch provider_AB ["A"; "B"]%string)) /\
     symbol_of (batch provider_AB ["A"; "B"]%string) pick = Ok "A"%string) /\
  (exists pick,
     In pick (values_list (batch provider_twins ["A"; "B"; "E"]%string)) /\
     symbol_of (batch provider_twins ["A"; "B"; "E"]%string) pick = Raise ValueError).
Proof.
  split.
  - destruct (values_list (batch provider_AB ["A"; "B"]%string))
      as [ | a [ | b rest]] eqn:E; try (vm_compute in E; discriminate).
    assert (E' := E). vm_compute in E'.
    injection E' as Ea Eb Er.
    exists a. split; [now left | ].
    destruct (symbol_of_pick (batch provider_AB ["A"; "B"]%string) a) as [H _].
    + rewrite E. now left.
    + destruct H as (sym & Hs & _ & _).
      * rewrite E. subst rest.
        intros other [<- | [<- | []]] Hne; [congruence | ].
        subst a b. reflexivity.
      * rewrite Hs. f_equal. subst a. vm_compute in Hs. now inversion Hs.
  - destruct (values_list (batch provider_twins ["A"; "B"; "E"]%string))
      as [ | a [ | b [ | e rest]]] eqn:E; try (vm_compute in E; discriminate).
    assert (E' := E). vm_compute in E'.
    injection E' as Ea Eb Ee Er.
    exists a. split; [now left | ].
    destruct (symbol_of_pick (batch provider_twins ["A"; "B"; "E"]%string) a) as [_ H].
    + rewrite E. now left.
    + apply H. exists e. rewrite E. split; [right; right; now left | ].
      subst a e. split; [discriminate | reflexivity].
Defined.

(** * Further properties of the session *)

Section SessionFacts.
Variable history : nat -> string -> string -> Outcome.

Lemma fetch_step (ticker period : string) (s : Session) :
  cache_ok s ->
  exists v s1,
    fetch_data_cached history ticker period s = (v, s1) /\
    cache_ok s1 /\
    dict_get key2_eqb (fetch_cache s1) (ticker, period) = Some v /\
    (forall data, v = Some data -> data <> []) /\
    (forall k w, dict_get key2_eqb (fetch_cache s) k = Some w ->
                 dict_get key2_eqb (fetch_cache s1) k = Some w) /\
    stock_cache s1 = stock_cache s /\
    (dict_get key2_eqb (fetch_cache s) (ticker, period) <> None -> s1 = s).
Proof.
  intro Hok. unfold fetch_data_cached.
  destruct (dict_get key2_eqb (fetch_cache s) (ticker, period)) as [v | ] eqn:Eg.
  - exists v, s. repeat split; auto.
    intros data ->. exact (Hok _ _ Eg).
  - eexists. eexists. split; [reflexivity | ]. cbn [fetch_cache stock_cache].
    split; [ | split; [ | split; [ | split; [ | split]]]].
    + intros k d0. cbn [fetch_cache].
      rewrite (dict_get_set key2_eqb key2_eqb_spec).
      destruct (key2_eqb (ticker, period) k).
      * intro H. inversion H as [H0]. exact (fetch_data_try_nonempty _ _ H0).
      * apply Hok.
    + apply (dict_get_set_same key2_eqb key2_eqb_spec).
    + intros data H. exact (fetch_data_try_nonempty _ _ H).
    + intros k w Hk. rewrite (dict_get_set key2_eqb key2_eqb_spec).
      destruct (key2_eqb_spec (ticker, period) k) as [<- | Hne]; [congruence | exact Hk].
    + reflexivity.
    + intro H. congruence.
Qed.

Lemma served_of_entry (s : Session) (ticker period : string) (v : option DataFrame) :
  dict_get key2_eqb (fetch_cache s) (ticker, period) = Some v ->
  served s ticker period =
  match v with
  | Some data => match stock_record data with Ok r => Some r | Raise _ => None end
  | None => None
  end.
Proof. intro H. unfold served. now rewrite H. Qed.

Lemma loop_cached_served (period : string) (stock_list : list string) :
  forall (s : Session) (stock_data : StockData) d s',
    cache_ok s ->
    get_stock_data_loop St (@st_ret) (@st_bind) (fetch_data_cached history)
      stock_list period stock_data s = (Ok d, s') ->
    cache_ok s' /\
    stock_cache s' = stock_cache s /\
    (forall k w, dict_get key2_eqb (fetch_cache s) k = Some w ->
                 dict_get key2_eqb (fetch_cache s') k = Some w) /\
    (forall t, In t stock_list ->
               dict_get key2_eqb (fetch_cache s') (t, period) <> None) /\
    (forall t,
       stock_get d t =
       if existsb (String.eqb t) stock_list then
         match served s' t period with
         | Some r => Some r
         | None => stock_get stock_data t
         end
       else stock_get stock_data t).
Proof.
  induction stock_list as [ | symbol rest IH]; intros s stock_data d s' Hok Hrun.
  - cbn in Hrun. unfold st_ret in Hrun. inversion Hrun; subst.
    split; [exact Hok | ]. split; [reflexivity | ]. split; [auto | ].
    split; [intros t [] | intro t; reflexivity].
  - cbn [get_stock_data_loop] in Hrun. unfold st_bind at 1 in Hrun.
    destruct (fetch_step symbol period s Hok)
      as (v & s1 & Hf & Hok1 & Hent & Hne & Hmono & Hsc & _).
    rewrite Hf in Hrun.
    assert (Hcont : exists sd',
               get_stock_data_loop St (@st_ret) (@st_bind)
                 (fetch_data_cached history) rest period sd' s1 = (Ok d, s') /\
               forall t,
                 stock_get sd' t =
                 if String.eqb symbol t then
                   match (match v with
                          | Some data =>
                              match stock_record data with
                              | Ok r => Some r
                              | Raise _ => None
                              end
                          | None => None
                          end) with
                   | Some r => Some r
                   | None => stock_get stock_data t
                   end
                 else stock_get stock_data t).
    { destruct v as [data | ].
      - destruct (stock_record_total data (Hne data eq_refl)) as (r & Hr & _).
        rewrite Hr in Hrun |- *.
        exists (dict_set String.eqb stock_data symbol r). split; [exact Hrun | ].
        intro t. unfold stock_get.
        rewrite (dict_get_set String.eqb String.eqb_spec).
        destruct (String.eqb symbol t); reflexivity.
      - exists stock_data. split; [exact Hrun | ].
        intro t. destruct (String.eqb symbol t); reflexivity. }
    destruct Hcont as (sd' & Hrun' & Hsd).
    destruct (IH s1 sd' d s' Hok1 Hrun') as (Hok' & Hsc' & Hmono' & Hall & Hget).
    split; [exact Hok' | ]. split; [congruence | ].
    split; [intros k w Hk; apply Hmono', Hmono, Hk | ].
    assert (Hent' := Hmono' _ _ Hent).
    split.
    + intros t [<- | Hin]; [congruence | now apply Hall].
    + intro t. rewrite Hget, Hsd. cbn [existsb].
      destruct (String.eqb_spec t symbol) as [-> | Hne'].
      * rewrite String.eqb_refl. cbn [orb].
        rewrite (served_of_entry s' symbol period v Hent').
        destruct (existsb (String.eqb symbol) rest);
          destruct v as [data | ]; try reflexivity;
          destruct (stock_record data); reflexivity.
      * destruct (String.eqb_spec symbol t); [congruence | ]. reflexivity.
Qed.

Lemma served_mono (s s' : Session) (t p : string) :
  (forall k w, dict_get key2_eqb (fetch_cache s) k = Some w ->
               dict_get key2_eqb (fetch_cache s') k = Some w) ->
  dict_get key2_eqb (fetch_cache s) (t, p) <> None ->
  served s' t p = served s t p.
Proof.
  intros Hmono Hne. unfold served.
  destruct (dict_get key2_eqb (fetch_cache s) (t, p)) as [v | ] eqn:E; [ | congruence].
  now rewrite (Hmono _ _ E).
Qed.

Lemma get_stock_data_cached_served (stock_list : list string) (period : string)
    (s : Session) :
  session_ok s ->
  exists d s',
    get_stock_data_cached history stock_list period s = (Ok d, s') /\
    session_ok s' /\
    (forall k w, dict_get key2_eqb (fetch_cache s) k = Some w ->
                 dict_get key2_eqb (fetch_cache s') k = Some w) /\
    (forall t, In t stock_list ->
               dict_get key2_eqb (fetch_cache s') (t, period) <> None) /\
    (forall t, stock_get d t =
               if existsb (String.eqb t) stock_list then served s' t period
               else None).
Proof.
  intros [Hok Hstored].
  destruct (get_stock_data_cached_run history period stock_list s Hok)
    as (d & s' & Hrun & Hok' & _).
  exists d, s'. split; [exact Hrun | ].
  unfold get_stock_data_cached in Hrun.
  destruct (dict_get keyL_eqb (stock_cache s) (stock_list, period)) as [d0 | ] eqn:Eg.
  - inversion Hrun; subst d0 s'.
    destruct (Hstored _ _ _ Eg) as [Hent Hget].
    split; [split; assumption | ]. split; [auto | ]. split; assumption.
  - unfold get_stock_data_body in Hrun.
    destruct (get_stock_data_loop St (@st_ret) (@st_bind)
                (fetch_data_cached history) stock_list period [] s)
      as [r s1] eqn:Eloop.
    destruct r as [d1 | e]; [ | discriminate].
    inversion Hrun; subst d1 s'. clear Hrun.
    destruct (loop_cached_served period stock_list s [] d s1 Hok Eloop)
      as (Hok1 & Hsc & Hmono & Hall & Hget).
    cbn [fetch_cache stock_cache] in *.
    assert (Hd : forall t,
               stock_get d t =
               if existsb (String.eqb t) stock_list
               then served
                      (mkSession (fetch_cache s1)
                         (dict_set keyL_eqb (stock_cache s1) (stock_list, period) d)
                         (calls s1)) t period
               else None).
    { intro t. rewrite Hget. unfold served. cbn [fetch_cache stock_get dict_get].
      destruct (existsb (String.eqb t) stock_list); [ | reflexivity].
      destruct (dict_get key2_eqb (fetch_cache s1) (t, period)) as [[data | ] | ];
        try reflexivity.
      destruct (stock_record data); reflexivity. }
    split; [ | split; [exact Hmono | split; [exact Hall | exact Hd]]].
    split; [exact Hok' | ].
    intros l p d0. cbn [stock_cache fetch_cache].
    rewrite (dict_get_set keyL_eqb keyL_eqb_spec).
    destruct (keyL_eqb_spec (stock_list, period) (l, p)) as [Heq | Hne].
    + inversion Heq; subst l p. intro H. inversion H; subst d0.
      split; [exact Hall | exact Hd].
    + rewrite Hsc. intro H. destruct (Hstored _ _ _ H) as [Hent Hg].
      split.
      * intros t Ht. specialize (Hent t Ht).
        destruct (dict_get key2_eqb (fetch_cache s) (t, p)) as [w | ] eqn:E;
          [ | congruence].
        rewrite (Hmono _ _ E). discriminate.
      * intro t. rewrite Hg.
        destruct (existsb (String.eqb t) l) eqn:Et; [ | reflexivity].
        apply existsb_eqb_In in Et. symmetry.
        apply (served_mono s _ t p); [exact Hmono | now apply Hent].
Qed.
End SessionFacts.

Lemma session_ok_new : session_ok new_session.
Proof.
  split; [intros k data H; discriminate H | intros l p d H; discriminate H].
Qed.

(** X19: a fetch is remembered, whatever it gave: repeating it in the
    session returns the same frame, or the same None after a failure or an
    empty answer, without asking the provider and whatever the provider
    would answer now. *)
Theorem fetch_is_remembered :
  forall (history history' : nat -> string -> string -> Outcome)
         (ticker period : string) (s : Session),
  exists v s1,
    fetch_data_cached history ticker period s = (v, s1) /\
    fetch_data_cached history' ticker period s1 = (v, s1) /\
    (calls s1 = calls s \/ calls s1 = calls s ++ [(ticker, period)]) /\
    (forall data, v = Some data -> dict_get key2_eqb (fetch_cache s) (ticker, period) = None ->
                  data <> []).
Proof.
  intros history history' ticker period s. unfold fetch_data_cached.
  destruct (dict_get key2_eqb (fetch_cache s) (ticker, period)) as [v | ] eqn:Eg.
  - exists v, s. rewrite Eg. repeat split; auto. intros data _ H. discriminate.
  - eexists. eexists. split; [reflexivity | ]. cbn [fetch_cache calls].
    rewrite (dict_get_set_same key2_eqb key2_eqb_spec).
    split; [reflexivity | ]. split; [now right | ].
    intros data H _. exact (fetch_data_try_nonempty _ _ H).
Qed.

(** X20: within a session, the mappings of two calls agree on every symbol
    they share (same period), whatever the provider answers in between; the
    session's tables stay in agreement. *)
Theorem batches_agree_on_shared_symbols :
  forall (history1 history2 : nat -> string -> string -> Outcome)
         (s0 : Session) (l1 l2 : list string) (period : string),
    session_ok s0 ->
    exists d1 s1 d2 s2,
      get_stock_data_cached history1 l1 period s0 = (Ok d1, s1) /\
      get_stock_data_cached history2 l2 period s1 = (Ok d2, s2) /\
      session_ok s2 /\
      (forall t, In t l1 -> In t l2 -> stock_get d1 t = stock_get d2 t).
Proof.
  intros history1 history2 s0 l1 l2 period Hok0.
  destruct (get_stock_data_cached_served history1 l1 period s0 Hok0)
    as (d1 & s1 & Hrun1 & Hok1 & _ & Hall1 & Hget1).
  destruct (get_stock_data_cached_served history2 l2 period s1 Hok1)
    as (d2 & s2 & Hrun2 & Hok2 & Hmono2 & _ & Hget2).
  exists d1, s1, d2, s2.
  split; [exact Hrun1 | ]. split; [exact Hrun2 | ]. split; [exact Hok2 | ].
  intros t H1 H2. rewrite Hget1, Hget2.
  apply existsb_eqb_In in H1. apply existsb_eqb_In in H2. rewrite H1, H2.
  symmetry. apply served_mono; [exact Hmono2 | ].
  apply Hall1. now apply existsb_eqb_In.
Qed.

Lemma batches_agree_on_shared_symbols_witness :
  exists d1 s1 d2 s2,
    get_stock_data_cached (fun _ => provider_AB) ["A"; "B"]%string "1mo" new_session
      = (Ok d1, s1) /\
    get_stock_data_cached (fun _ => provider_down) ["B"; "X"]%string "1mo" s1
      = (Ok d2, s2) /\
    stock_get d1 "B" = stock_get d2 "B".
Proof.
  destruct (batches_agree_on_shared_symbols (fun _ => provider_AB)
              (fun _ => provider_down) new_session
              ["A"; "B"]%string ["B"; "X"]%string "1mo" session_ok_new)
    as (d1 & s1 & d2 & s2 & H1 & H2 & _ & H).
  exists d1, s1, d2, s2. split; [exact H1 | ]. split; [exact H2 | ].
  apply H; cbn; auto.
Defined.

(** X21: a call whose symbols were all part of an earlier call of the
    session (same period) asks the provider nothing. *)
Theorem covered_symbols_are_not_refetched :
  forall (history1 history2 : nat -> string -> string -> Outcome)
         (s0 : Session) (l1 l2 : list string) (period : string),
    session_ok s0 ->
    incl l2 l1 ->
    exists d1 s1 d2 s2,
      get_stock_data_cached history1 l1 period s0 = (Ok d1, s1) /\
      get_stock_data_cached history2 l2 period s1 = (Ok d2, s2) /\
      calls s2 = calls s1.
Proof.
  intros history1 history2 s0 l1 l2 period Hok0 Hincl.
  destruct (get_stock_data_cached_served history1 l1 period s0 Hok0)
    as (d1 & s1 & Hrun1 & [Hok1 Hst1] & _ & Hall1 & _).
  destruct (get_stock_data_cached_run history2 period l2 s1 Hok1)
    as (d2 & s2 & Hrun2 & _ & _ & new & Hcalls & _ & Hnew & _).
  exists d1, s1, d2, s2. split; [exact Hrun1 | ]. split; [exact Hrun2 | ].
  destruct new as [ | c new]; [now rewrite app_nil_r in Hcalls | ].
  exfalso. destruct (Hnew c (or_introl eq_refl)) as ((t & Ht & ->) & Hnone).
  exact (Hall1 t (Hincl t Ht) Hnone).
Qed.

Lemma covered_symbols_are_not_refetched_witness :
  exists d1 s1 d2 s2,
    get_stock_data_cached (fun _ => provider_AB) ["A"; "B"; "C"]%string "1mo"
      new_session = (Ok d1, s1) /\
    get_stock_data_cached (fun _ => provider_AB) ["C"; "A"]%string "1mo" s1
      = (Ok d2, s2) /\
    calls s2 = calls s1.
Proof.
  apply (covered_symbols_are_not_refetched (fun _ => provider_AB)
           (fun _ => provider_AB) new_session
           ["A"; "B"; "C"]%string ["C"; "A"]%string "1mo" session_ok_new).
  intros t [<- | [<- | []]]; cbn; auto.
Defined.
